(** * vkinfo: enumeration and printing of Vulkan physical devices

    A shallow embedding of [vulkan/tools/vkinfo.cpp].  The tool is a straight
    line of blocking driver calls, each followed by formatted output, so a run
    is modelled as a value: the log of driver calls made, the lines written to
    standard output, the lines written to standard error and the way the run
    ended.  The driver is a script of responses. *)

From Stdlib Require Import ZArith List String Ascii Lia Bool Sorted.
From Stdlib Require DecimalString HexadecimalString.
Import ListNotations.

Local Open Scope Z_scope.

Infix "^^" := String.append (at level 60, right associativity).

(** ** printf conversions used by the tool *)

Module Fmt.

(** [%u] and [%zu]. *)
Definition dec_u (n : Z) : string :=
  DecimalString.NilZero.string_of_uint (N.to_uint (Z.to_N n)).

(** [%d]. *)
Definition dec_d (n : Z) : string :=
  DecimalString.NilZero.string_of_int (Z.to_int n).

(** [%x] and [PRIx64]. *)
Definition hex (n : Z) : string :=
  HexadecimalString.NilZero.string_of_uint (N.to_hex_uint (Z.to_N n)).

Fixpoint fill (c : ascii) (n : nat) : string :=
  match n with
  | O => EmptyString
  | S n' => String c (fill c n')
  end.

(** Minimum field width, right-justified. *)
Definition pad_left (c : ascii) (width : nat) (s : string) : string :=
  fill c (width - String.length s) ^^ s.

(** [%2u]. *)
Definition dec_u2 (n : Z) : string := pad_left " " 2 (dec_u n).

(** [%04x]. *)
Definition hex04 (n : Z) : string := pad_left "0" 4 (hex n).

(** [%#x]: the alternate form prefixes a non-zero value with 0x. *)
Definition hex_alt (n : Z) : string :=
  if n =? 0 then "0"%string else "0x" ^^ hex n.

Definition nl : string := String (ascii_of_nat 10) EmptyString.
Definition dquote : string := String (ascii_of_nat 34) EmptyString.

End Fmt.

(** ** Machine integers *)

(** [static_cast<int>] of a 32-bit pattern, and the value an [int]
    expression keeps after wrap-around. *)
Definition to_int32 (x : Z) : Z := (x + 2 ^ 31) mod 2 ^ 32 - 2 ^ 31.

Definition is_u32 (x : Z) : Prop := 0 <= x < 2 ^ 32.

Fixpoint ffs_scan (n : nat) (i : Z) (x : Z) : Z :=
  match n with
  | O => 0
  | S n' => if Z.testbit x i then i + 1 else ffs_scan n' (i + 1) x
  end.

(** [__builtin_ffs] on an [int]: one plus the index of the least significant
    1-bit of the 32-bit pattern, or zero when there is none. *)
Definition builtin_ffs (x : Z) : Z := ffs_scan 32 0 x.

(** ** The constants of <vulkan/vulkan.h>

    The header is not part of the tool's sources; the program is therefore
    parameterised by the values it takes from it. *)

Class VulkanHeader : Type := {
  VK_SUCCESS : Z;
  VK_UNSUPPORTED : Z;
  VK_NOT_READY : Z;
  VK_TIMEOUT : Z;
  VK_EVENT_SET : Z;
  VK_EVENT_RESET : Z;
  VK_INCOMPLETE : Z;
  VK_ERROR_OUT_OF_HOST_MEMORY : Z;
  VK_ERROR_OUT_OF_DEVICE_MEMORY : Z;
  VK_ERROR_INITIALIZATION_FAILED : Z;
  VK_ERROR_DEVICE_LOST : Z;
  VK_ERROR_MEMORY_MAP_FAILED : Z;
  VK_ERROR_LAYER_NOT_PRESENT : Z;
  VK_ERROR_EXTENSION_NOT_PRESENT : Z;
  VK_ERROR_INCOMPATIBLE_DRIVER : Z;
  VK_PHYSICAL_DEVICE_TYPE_OTHER : Z;
  VK_PHYSICAL_DEVICE_TYPE_INTEGRATED_GPU : Z;
  VK_PHYSICAL_DEVICE_TYPE_DISCRETE_GPU : Z;
  VK_PHYSICAL_DEVICE_TYPE_VIRTUAL_GPU : Z;
  VK_PHYSICAL_DEVICE_TYPE_CPU : Z;
  VK_QUEUE_GRAPHICS_BIT : Z;
  VK_QUEUE_COMPUTE_BIT : Z;
  VK_QUEUE_DMA_BIT : Z;
  VK_QUEUE_SPARSE_MEMMGR_BIT : Z;
  VK_QUEUE_EXTENDED_BIT : Z;
  VK_MEMORY_HEAP_HOST_LOCAL_BIT : Z;
  VK_MEMORY_PROPERTY_DEVICE_ONLY : Z;
  VK_MEMORY_PROPERTY_HOST_VISIBLE_BIT : Z;
  VK_MEMORY_PROPERTY_HOST_NON_COHERENT_BIT : Z;
  VK_MEMORY_PROPERTY_HOST_UNCACHED_BIT : Z;
  VK_MEMORY_PROPERTY_HOST_WRITE_COMBINED_BIT : Z;
  VK_MEMORY_PROPERTY_LAZILY_ALLOCATED_BIT : Z;
  VK_NULL_HANDLE : Z
}.

(** ** Data returned by the driver *)

Record VkPhysicalDeviceProperties : Type := {
  apiVersion : Z;
  driverVersion : Z;
  vendorId : Z;
  deviceId : Z;
  deviceType : Z;
  deviceName : string
}.

Record VkMemoryType : Type := {
  propertyFlags : Z;
  heapIndex : Z
}.

Record VkMemoryHeap : Type := {
  size : Z;
  flags : Z
}.

(** The two arrays have a fixed capacity in the header; the counts say how
    many entries the driver filled.  A list holds the entries a property
    reads; where a property is about reading past an array, the lists are
    the whole arrays ([memory_arrays_full]). *)
Record VkPhysicalDeviceMemoryProperties : Type := {
  memoryTypeCount : Z;
  memoryTypes : list VkMemoryType;
  memoryHeapCount : Z;
  memoryHeaps : list VkMemoryHeap
}.

Record VkQueueFamilyProperties : Type := {
  queueFlags : Z;
  queueCount : Z;
  supportsTimestamps : Z
}.

(** What the driver answers to the four queries on one physical device. The
    values query leaves [queue_values_count] in the count and writes
    [queue_values_out] at the start of the caller's buffer. *)
Record DeviceScript : Type := {
  props_result : Z;
  props_out : VkPhysicalDeviceProperties;
  mem_result : Z;
  mem_out : VkPhysicalDeviceMemoryProperties;
  queue_count_result : Z;
  queue_count_out : Z;
  queue_values_result : Z;
  queue_values_count : Z;
  queue_values_out : list VkQueueFamilyProperties
}.

(** What the driver answers during one run.  Physical devices are handles. *)
Record Driver : Type := {
  create_result : Z;
  enum_count_result : Z;
  enum_count_out : Z;
  enum_data_result : Z;
  enum_data_count : Z;
  enum_data_out : list Z;
  device : Z -> DeviceScript
}.

(** ** Runs *)

Inductive driver_call : Type :=
| CreateInstance
| EnumeratePhysicalDevicesCount
| EnumeratePhysicalDevicesData
| GetPhysicalDeviceProperties (pdev : Z)
| GetPhysicalDeviceMemoryProperties (pdev : Z)
| GetPhysicalDeviceQueueFamilyPropertiesCount (pdev : Z)
| GetPhysicalDeviceQueueFamilyPropertiesValues (pdev : Z)
| DestroyInstance.

(** A logged call with the status the program read from it; the tool reads
    none from [vkDestroyInstance]. *)
Definition call_record : Type := (driver_call * option Z)%type.

(** One constructor per [printf] to standard output. *)
Inductive stdout_line : Type :=
| OutPhysicalDevices
| OutDevice (idx : Z) (name type : string)
            (major minor patch driver vendor dev : Z)
| OutHeap (heap size : Z) (str : string)
| OutType (type : Z) (str : string)
| OutQueueFamily (family count : Z) (str timestamps : string).

(** One constructor per [fprintf] to standard error. *)
Inductive stderr_line : Type :=
| ErrFailed (proc result_str : string) (result : Z)
| ErrDecreased (old new : Z).

Definition render_stdout_line (l : stdout_line) : string :=
  match l with
  | OutPhysicalDevices => "PhysicalDevices:" ^^ Fmt.nl
  | OutDevice idx name type major minor patch driver vendor dev =>
      "  " ^^ Fmt.dec_u idx ^^ ": " ^^ Fmt.dquote ^^ name ^^ Fmt.dquote
      ^^ " (" ^^ type ^^ ") "
      ^^ Fmt.dec_u major ^^ "." ^^ Fmt.dec_u minor ^^ "." ^^ Fmt.dec_u patch
      ^^ "/" ^^ Fmt.hex_alt driver
      ^^ " [" ^^ Fmt.hex04 vendor ^^ ":" ^^ Fmt.hex04 dev ^^ "]" ^^ Fmt.nl
  | OutHeap heap size str =>
      "     Heap " ^^ Fmt.dec_u heap ^^ ": 0x" ^^ Fmt.hex size ^^ " " ^^ str
      ^^ Fmt.nl
  | OutType type str =>
      "       Type " ^^ Fmt.dec_u type ^^ ": " ^^ str ^^ Fmt.nl
  | OutQueueFamily family count str timestamps =>
      "     Queue Family " ^^ Fmt.dec_u family ^^ ": " ^^ Fmt.dec_u2 count
      ^^ "x " ^^ str ^^ " timestamps:" ^^ timestamps ^^ Fmt.nl
  end.

Definition render_stderr_line (l : stderr_line) : string :=
  match l with
  | ErrFailed proc result_str result =>
      proc ^^ " failed: " ^^ result_str ^^ " (" ^^ Fmt.dec_d result ^^ ")"
      ^^ Fmt.nl
  | ErrDecreased old new =>
      "number of physical devices decreased from " ^^ Fmt.dec_u old ^^ " to "
      ^^ Fmt.dec_u new ^^ "!" ^^ Fmt.nl
  end.

Definition render_stdout (ls : list stdout_line) : string :=
  String.concat EmptyString (map render_stdout_line ls).

Definition render_stderr (ls : list stderr_line) : string :=
  String.concat EmptyString (map render_stderr_line ls).

(** How a computation ends: with a value, by [exit], by undefined behaviour
    of the C++ program, or by the model's loop bound. *)
Inductive outcome (A : Type) : Type :=
| Normal (a : A)
| Exited (code : Z)
| Undefined
| OutOfFuel.

Arguments Normal {A} a.
Arguments Exited {A} code.
Arguments Undefined {A}.
Arguments OutOfFuel {A}.

Record run (A : Type) : Type := mkRun {
  calls : list call_record;
  out : list stdout_line;
  err : list stderr_line;
  res : outcome A
}.

Arguments mkRun {A} calls out err res.
Arguments calls {A} r.
Arguments out {A} r.
Arguments err {A} r.
Arguments res {A} r.

Definition ret {A : Type} (a : A) : run A := mkRun [] [] [] (Normal a).

Definition stop {A B : Type} (m : run A) (o : outcome B) : run B :=
  mkRun (calls m) (out m) (err m) o.

Definition bind {A B : Type} (m : run A) (f : A -> run B) : run B :=
  match res m with
  | Normal a =>
      let r := f a in
      mkRun (calls m ++ calls r) (out m ++ out r) (err m ++ err r) (res r)
  | Exited c => stop m (Exited c)
  | Undefined => stop m Undefined
  | OutOfFuel => stop m OutOfFuel
  end.

Notation "x <- m ;; k" := (bind m (fun x => k))
  (at level 100, m at next level, right associativity).
Notation "m ;;; k" := (bind m (fun _ => k))
  (at level 100, right associativity).

Definition printf (l : stdout_line) : run unit := mkRun [] [l] [] (Normal tt).
Definition eprintf (l : stderr_line) : run unit := mkRun [] [] [l] (Normal tt).
Definition exit {A : Type} (code : Z) : run A := mkRun [] [] [] (Exited code).
Definition undefined {A : Type} : run A := mkRun [] [] [] Undefined.
Definition out_of_fuel {A : Type} : run A := mkRun [] [] [] OutOfFuel.

(** A driver call whose status lands in [result]. *)
Definition driver (c : driver_call) (result : Z) : run Z :=
  mkRun [(c, Some result)] [] [] (Normal result).

(** A driver call whose return value is dropped. *)
Definition driver_ (c : driver_call) : run unit :=
  mkRun [(c, None)] [] [] (Normal tt).

(** [for (uint32_t i = from; ...; i++)] over [n] iterations, threading the
    local state [s]. *)
Fixpoint for_from {St : Type} (n : nat) (i : Z) (body : Z -> St -> run St)
  (s : St) : run St :=
  match n with
  | O => ret s
  | S n' => s' <- body i s ;; for_from n' (i + 1) body s'
  end.

Definition for_upto {St : Type} (count : Z) (body : Z -> St -> run St)
  (s : St) : run St :=
  for_from (Z.to_nat count) 0 body s.

(** Element access: reading past the end is undefined behaviour. *)
Definition index {A : Type} (l : list A) (i : Z) : run A :=
  match nth_error l (Z.to_nat i) with
  | Some a => ret a
  | None => undefined
  end.

(** A buffer after the driver wrote [written] at its start. *)
Definition overwrite {A : Type} (written buf : list A) : list A :=
  firstn (List.length buf) (written ++ skipn (List.length written) buf).

(** [std::vector::resize]. *)
Definition resize {A : Type} (n : nat) (dflt : A) (l : list A) : list A :=
  firstn n l ++ repeat dflt (n - List.length l).

(** ** The program *)

Section Program.

Context {hdr : VulkanHeader}.

(** The [switch] of [die]. *)
Definition result_str (result : Z) : string :=
  if result =? VK_SUCCESS then "VK_SUCCESS"
  else if result =? VK_UNSUPPORTED then "VK_UNSUPPORTED"
  else if result =? VK_NOT_READY then "VK_NOT_READY"
  else if result =? VK_TIMEOUT then "VK_TIMEOUT"
  else if result =? VK_EVENT_SET then "VK_EVENT_SET"
  else if result =? VK_EVENT_RESET then "VK_EVENT_RESET"
  else if result =? VK_INCOMPLETE then "VK_INCOMPLETE"
  else if result =? VK_ERROR_OUT_OF_HOST_MEMORY
    then "VK_ERROR_OUT_OF_HOST_MEMORY"
  else if result =? VK_ERROR_OUT_OF_DEVICE_MEMORY
    then "VK_ERROR_OUT_OF_DEVICE_MEMORY"
  else if result =? VK_ERROR_INITIALIZATION_FAILED
    then "VK_ERROR_INITIALIZATION_FAILED"
  else if result =? VK_ERROR_DEVICE_LOST then "VK_ERROR_DEVICE_LOST"
  else if result =? VK_ERROR_MEMORY_MAP_FAILED
    then "VK_ERROR_MEMORY_MAP_FAILED"
  else if result =? VK_ERROR_LAYER_NOT_PRESENT
    then "VK_ERROR_LAYER_NOT_PRESENT"
  else if result =? VK_ERROR_EXTENSION_NOT_PRESENT
    then "VK_ERROR_EXTENSION_NOT_PRESENT"
  else if result =? VK_ERROR_INCOMPATIBLE_DRIVER
    then "VK_ERROR_INCOMPATIBLE_DRIVER"
  else "<unknown VkResult>".

Definition die {A : Type} (proc : string) (result : Z) : run A :=
  eprintf (ErrFailed proc (result_str result) result) ;;;
  exit 1.

Definition VkPhysicalDeviceTypeStr (type : Z) : string :=
  if type =? VK_PHYSICAL_DEVICE_TYPE_OTHER then "OTHER"
  else if type =? VK_PHYSICAL_DEVICE_TYPE_INTEGRATED_GPU
    then "INTEGRATED_GPU"
  else if type =? VK_PHYSICAL_DEVICE_TYPE_DISCRETE_GPU then "DISCRETE_GPU"
  else if type =? VK_PHYSICAL_DEVICE_TYPE_VIRTUAL_GPU then "VIRTUAL_GPU"
  else if type =? VK_PHYSICAL_DEVICE_TYPE_CPU then "CPU"
  else "<UNKNOWN>".

(** The [switch] has no [default]: for any other value control flows off
    the end of a function that returns a value, which is [None] here. *)
Definition VkQueueFlagBitStr (bit : Z) : option string :=
  if bit =? VK_QUEUE_GRAPHICS_BIT then Some "GRAPHICS"%string
  else if bit =? VK_QUEUE_COMPUTE_BIT then Some "COMPUTE"%string
  else if bit =? VK_QUEUE_DMA_BIT then Some "DMA"%string
  else if bit =? VK_QUEUE_SPARSE_MEMMGR_BIT then Some "SPARSE"%string
  else if bit =? VK_QUEUE_EXTENDED_BIT then Some "EXT"%string
  else None.

(** [result = call; if (result != VK_SUCCESS) die(proc, result);] *)
Definition checked (c : driver_call) (result : Z) (proc : string)
  : run unit :=
  result <- driver c result ;;
  if negb (result =? VK_SUCCESS) then die proc result else ret tt.

(** The flag labels of one memory type, appended to [strbuf]. *)
Definition memory_type_flags (flags : Z) (strbuf : string) : string :=
  let strbuf :=
    if flags =? VK_MEMORY_PROPERTY_DEVICE_ONLY
    then strbuf ^^ "DEVICE_ONLY" else strbuf in
  let strbuf :=
    if negb (Z.land flags VK_MEMORY_PROPERTY_HOST_VISIBLE_BIT =? 0)
    then strbuf ^^ "HOST_VISIBLE" else strbuf in
  let strbuf :=
    if negb (Z.land flags VK_MEMORY_PROPERTY_HOST_NON_COHERENT_BIT =? 0)
    then strbuf ^^ " NON_COHERENT" else strbuf in
  let strbuf :=
    if negb (Z.land flags VK_MEMORY_PROPERTY_HOST_UNCACHED_BIT =? 0)
    then strbuf ^^ " UNCACHED" else strbuf in
  let strbuf :=
    if negb (Z.land flags VK_MEMORY_PROPERTY_HOST_WRITE_COMBINED_BIT =? 0)
    then strbuf ^^ " WRITE_COMBINED" else strbuf in
  let strbuf :=
    if negb (Z.land flags VK_MEMORY_PROPERTY_LAZILY_ALLOCATED_BIT =? 0)
    then strbuf ^^ " LAZILY_ALLOCATED" else strbuf in
  strbuf.

(** Body of the loop over memory types, for the heap [heap]. *)
Definition dump_memory_type (mem_props : VkPhysicalDeviceMemoryProperties)
  (heap type : Z) (strbuf : string) : run string :=
  mt <- index (memoryTypes mem_props) type ;;
  if negb (heapIndex mt =? heap) then ret strbuf
  else
    let strbuf := memory_type_flags (propertyFlags mt) strbuf in
    printf (OutType type strbuf) ;;;
    ret EmptyString.

(** Body of the loop over memory heaps. *)
Definition dump_memory_heap (mem_props : VkPhysicalDeviceMemoryProperties)
  (heap : Z) (strbuf : string) : run string :=
  mh <- index (memoryHeaps mem_props) heap ;;
  let strbuf :=
    if negb (Z.land (flags mh) VK_MEMORY_HEAP_HOST_LOCAL_BIT =? 0)
    then strbuf ^^ "HOST_LOCAL" else strbuf in
  printf (OutHeap heap (size mh) strbuf) ;;;
  let strbuf := EmptyString in
  for_upto (memoryTypeCount mem_props) (dump_memory_type mem_props heap)
    strbuf.

Definition dump_memory (mem_props : VkPhysicalDeviceMemoryProperties)
  (strbuf : string) : run string :=
  for_upto (memoryHeapCount mem_props) (dump_memory_heap mem_props) strbuf.

(** The [while] loop over the set bits of [queue_flags]; [fuel] bounds the
    number of iterations. *)
Fixpoint queue_flags_loop (fuel : nat) (queue_flags : Z)
  (sep strbuf : string) : run string :=
  match fuel with
  | O => out_of_fuel
  | S fuel' =>
      let bit := builtin_ffs queue_flags in
      if bit =? 0 then ret strbuf
      else
        let flag := to_int32 (Z.shiftl 1 (bit - 1)) in
        match VkQueueFlagBitStr flag with
        | None => undefined
        | Some label =>
            let strbuf := strbuf ^^ sep ^^ label in
            let queue_flags := Z.land queue_flags (Z.lnot flag) in
            queue_flags_loop fuel' queue_flags "+" strbuf
        end
  end.

(** Body of the loop over queue families. *)
Definition dump_queue_family
  (queue_family_properties : list VkQueueFamilyProperties)
  (family : Z) (strbuf : string) : run string :=
  qprops <- index queue_family_properties family ;;
  let queue_flags := to_int32 (queueFlags qprops) in
  strbuf <- queue_flags_loop 33 queue_flags EmptyString strbuf ;;
  printf (OutQueueFamily family (queueCount qprops) strbuf
            (if negb (supportsTimestamps qprops =? 0) then "YES" else "NO"))
  ;;;
  ret EmptyString.

Definition zero_queue_family : VkQueueFamilyProperties :=
  {| queueFlags := 0; queueCount := 0; supportsTimestamps := 0 |}.

Definition dump_queue_families (pdev : Z) (d : DeviceScript)
  (strbuf : string) : run string :=
  checked (GetPhysicalDeviceQueueFamilyPropertiesCount pdev)
    (queue_count_result d)
    "vkGetPhysicalDeviceQueueFamilyProperties (count)" ;;;
  let num_queue_families := queue_count_out d in
  let queue_family_properties :=
    repeat zero_queue_family (Z.to_nat num_queue_families) in
  checked (GetPhysicalDeviceQueueFamilyPropertiesValues pdev)
    (queue_values_result d)
    "vkGetPhysicalDeviceQueueFamilyProperties (values)" ;;;
  let num_queue_families := queue_values_count d in
  let queue_family_properties :=
    overwrite (queue_values_out d) queue_family_properties in
  for_upto num_queue_families (dump_queue_family queue_family_properties)
    strbuf.

Definition DumpPhysicalDevice (drv : Driver) (idx : Z) (pdev : Z)
  : run unit :=
  let d := device drv pdev in
  let strbuf := EmptyString in
  checked (GetPhysicalDeviceProperties pdev) (props_result d)
    "vkGetPhysicalDeviceProperties" ;;;
  let props := props_out d in
  printf (OutDevice idx (deviceName props)
            (VkPhysicalDeviceTypeStr (deviceType props))
            (Z.land (Z.shiftr (apiVersion props) 22) 1023)
            (Z.land (Z.shiftr (apiVersion props) 12) 1023)
            (Z.land (Z.shiftr (apiVersion props) 0) 4095)
            (driverVersion props) (vendorId props) (deviceId props)) ;;;
  checked (GetPhysicalDeviceMemoryProperties pdev) (mem_result d)
    "vkGetPhysicalDeviceMemoryProperties" ;;;
  let mem_props := mem_out d in
  strbuf <- dump_memory mem_props strbuf ;;
  strbuf <- dump_queue_families pdev d strbuf ;;
  ret tt.

(** Body of the loop of [main] over the physical devices. *)
Definition dump_device (drv : Driver) (physical_devices : list Z)
  (i : Z) (_ : unit) : run unit :=
  pdev <- index physical_devices i ;;
  DumpPhysicalDevice drv i pdev.

Definition main (argc : Z) (argv : list string) (drv : Driver) : run Z :=
  checked CreateInstance (create_result drv) "vkCreateInstance" ;;;
  checked EnumeratePhysicalDevicesCount (enum_count_result drv)
    "vkEnumeratePhysicalDevices (count)" ;;;
  let num_physical_devices := enum_count_out drv in
  let physical_devices :=
    repeat VK_NULL_HANDLE (Z.to_nat num_physical_devices) in
  checked EnumeratePhysicalDevicesData (enum_data_result drv)
    "vkEnumeratePhysicalDevices (data)" ;;;
  let num_physical_devices := enum_data_count drv in
  let physical_devices :=
    overwrite (enum_data_out drv) physical_devices in
  physical_devices <-
    (if negb (num_physical_devices
              =? Z.of_nat (List.length physical_devices))
     then
       eprintf (ErrDecreased (Z.of_nat (List.length physical_devices))
                  num_physical_devices) ;;;
       ret (resize (Z.to_nat num_physical_devices) VK_NULL_HANDLE
              physical_devices)
     else ret physical_devices) ;;
  printf OutPhysicalDevices ;;;
  for_upto (Z.of_nat (List.length physical_devices))
    (dump_device drv physical_devices) tt ;;;
  driver_ DestroyInstance ;;;
  ret 0.

End Program.

(** The exit status of the process, when the run has one. *)
Definition exit_code (r : run Z) : option Z :=
  match res r with
  | Normal c => Some c
  | Exited c => Some c
  | Undefined => None
  | OutOfFuel => None
  end.

(** ** A concrete header and concrete drivers

    One assignment of the header's constants, used to run the program on
    concrete driver scripts: the result codes count up from zero and down from
    minus one, the flags are single bits. *)

Definition vulkan_h : VulkanHeader := {|
  VK_SUCCESS := 0;
  VK_UNSUPPORTED := 1;
  VK_NOT_READY := 2;
  VK_TIMEOUT := 3;
  VK_EVENT_SET := 4;
  VK_EVENT_RESET := 5;
  VK_INCOMPLETE := 6;
  VK_ERROR_OUT_OF_HOST_MEMORY := -1;
  VK_ERROR_OUT_OF_DEVICE_MEMORY := -2;
  VK_ERROR_INITIALIZATION_FAILED := -3;
  VK_ERROR_DEVICE_LOST := -4;
  VK_ERROR_MEMORY_MAP_FAILED := -5;
  VK_ERROR_LAYER_NOT_PRESENT := -6;
  VK_ERROR_EXTENSION_NOT_PRESENT := -7;
  VK_ERROR_INCOMPATIBLE_DRIVER := -8;
  VK_PHYSICAL_DEVICE_TYPE_OTHER := 0;
  VK_PHYSICAL_DEVICE_TYPE_INTEGRATED_GPU := 1;
  VK_PHYSICAL_DEVICE_TYPE_DISCRETE_GPU := 2;
  VK_PHYSICAL_DEVICE_TYPE_VIRTUAL_GPU := 3;
  VK_PHYSICAL_DEVICE_TYPE_CPU := 4;
  VK_QUEUE_GRAPHICS_BIT := 1;
  VK_QUEUE_COMPUTE_BIT := 2;
  VK_QUEUE_DMA_BIT := 4;
  VK_QUEUE_SPARSE_MEMMGR_BIT := 8;
  VK_QUEUE_EXTENDED_BIT := 1073741824;
  VK_MEMORY_HEAP_HOST_LOCAL_BIT := 1;
  VK_MEMORY_PROPERTY_DEVICE_ONLY := 0;
  VK_MEMORY_PROPERTY_HOST_VISIBLE_BIT := 1;
  VK_MEMORY_PROPERTY_HOST_NON_COHERENT_BIT := 2;
  VK_MEMORY_PROPERTY_HOST_UNCACHED_BIT := 4;
  VK_MEMORY_PROPERTY_HOST_WRITE_COMBINED_BIT := 8;
  VK_MEMORY_PROPERTY_LAZILY_ALLOCATED_BIT := 16;
  VK_NULL_HANDLE := 0
|}.

Module Sample.

Definition props : VkPhysicalDeviceProperties := {|
  apiVersion := 4198403;        (* 0x00401003 *)
  driverVersion := 17;
  vendorId := 4098;
  deviceId := 171;
  deviceType := 2;
  deviceName := "gpu"
|}.

(** Two heaps and four memory types; type 2 names heap 7, which the device
    does not have. *)
Definition mem : VkPhysicalDeviceMemoryProperties := {|
  memoryTypeCount := 4;
  memoryTypes :=
    [ {| propertyFlags := 3; heapIndex := 1 |};
      {| propertyFlags := 0; heapIndex := 0 |};
      {| propertyFlags := 1; heapIndex := 7 |};
      {| propertyFlags := 9; heapIndex := 1 |} ];
  memoryHeapCount := 2;
  memoryHeaps :=
    [ {| size := 268435456; flags := 0 |};
      {| size := 4096; flags := 1 |} ]
|}.

Definition graphics_compute : VkQueueFamilyProperties :=
  {| queueFlags := 3; queueCount := 4; supportsTimestamps := 1 |}.

Definition dma_only : VkQueueFamilyProperties :=
  {| queueFlags := 4; queueCount := 1; supportsTimestamps := 0 |}.

(** A family with bit 4 set, for which the header names no flag. *)
Definition unnamed_bit : VkQueueFamilyProperties :=
  {| queueFlags := 16; queueCount := 1; supportsTimestamps := 0 |}.

(** A device whose every query succeeds. *)
Definition gpu : DeviceScript := {|
  props_result := 0;
  props_out := props;
  mem_result := 0;
  mem_out := mem;
  queue_count_result := 0;
  queue_count_out := 2;
  queue_values_result := 0;
  queue_values_count := 2;
  queue_values_out := [graphics_compute; dma_only]
|}.

(** The same device when the values query reports one family fewer than
    the count query. *)
Definition gpu_shrinking : DeviceScript := {|
  props_result := 0;
  props_out := props;
  mem_result := 0;
  mem_out := mem;
  queue_count_result := 0;
  queue_count_out := 2;
  queue_values_result := 0;
  queue_values_count := 1;
  queue_values_out := [graphics_compute]
|}.

Definition gpu_unnamed_bit : DeviceScript := {|
  props_result := 0;
  props_out := props;
  mem_result := 0;
  mem_out := mem;
  queue_count_result := 0;
  queue_count_out := 1;
  queue_values_result := 0;
  queue_values_count := 1;
  queue_values_out := [unnamed_bit]
|}.

(** Handle 12 is [gpu_shrinking], handle 13 is [gpu_unnamed_bit], every other
    handle is [gpu]. *)
Definition devices (pdev : Z) : DeviceScript :=
  if pdev =? 12 then gpu_shrinking
  else if pdev =? 13 then gpu_unnamed_bit
  else gpu.

(** Two devices, counted and then listed. *)
Definition steady : Driver := {|
  create_result := 0;
  enum_count_result := 0;
  enum_count_out := 2;
  enum_data_result := 0;
  enum_data_count := 2;
  enum_data_out := [10; 11];
  device := devices
|}.

(** Three devices counted, two listed. *)
Definition shrinking : Driver := {|
  create_result := 0;
  enum_count_result := 0;
  enum_count_out := 3;
  enum_data_result := 0;
  enum_data_count := 2;
  enum_data_out := [10; 11];
  device := devices
|}.

(** One device, whose queue families shrink from two to one. *)
Definition queue_shrinking : Driver := {|
  create_result := 0;
  enum_count_result := 0;
  enum_count_out := 1;
  enum_data_result := 0;
  enum_data_count := 1;
  enum_data_out := [12];
  device := devices
|}.

(** One device, with a queue family whose flag word has an unnamed bit. *)
Definition with_unnamed_bit : Driver := {|
  create_result := 0;
  enum_count_result := 0;
  enum_count_out := 1;
  enum_data_result := 0;
  enum_data_count := 1;
  enum_data_out := [13];
  device := devices
|}.

(** Instance creation fails with a code the header does not name. *)
Definition failing_create : Driver := {|
  create_result := 99;
  enum_count_result := 0;
  enum_count_out := 2;
  enum_data_result := 0;
  enum_data_count := 2;
  enum_data_out := [10; 11];
  device := devices
|}.

End Sample.

(** ** Definitions the properties are stated with *)

(** The indices [i], [i+1], ... of [n] consecutive loop iterations. *)
Fixpoint indices_from (n : nat) (i : Z) : list Z :=
  match n with
  | O => []
  | S n' => i :: indices_from n' (i + 1)
  end.

Definition indices (count : Z) : list Z := indices_from (Z.to_nat count) 0.

(** The positions, among [n] starting at [i], at which [f] holds, in
    ascending order. *)
Fixpoint scan (f : Z -> bool) (n : nat) (i : Z) : list Z :=
  match n with
  | O => []
  | S n' => if f i then i :: scan f n' (i + 1) else scan f n' (i + 1)
  end.

(** The positions of the set bits of a 32-bit word, lowest first. *)
Definition bit_positions (x : Z) : list Z := scan (Z.testbit x) 32 0.

Fixpoint all_some {A : Type} (l : list (option A)) : option (list A) :=
  match l with
  | [] => Some []
  | None :: _ => None
  | Some a :: l' =>
      match all_some l' with
      | Some r => Some (a :: r)
      | None => None
      end
  end.

(** [strbuf << sep << label] for each label, [sep] turning into a plus sign
    after the first. *)
Fixpoint join_from (sep : string) (labels : list string) : string :=
  match labels with
  | [] => EmptyString
  | l :: ls => sep ^^ l ^^ join_from "+" ls
  end.

(** A list of single bits at pairwise distinct positions. *)
Definition distinct_bits (l : list Z) : Prop :=
  exists ks : list Z, l = map (Z.pow 2) ks /\ NoDup ks /\ Forall (Z.le 0) ks.

Definition is_type_line (type : Z) (l : stdout_line) : bool :=
  match l with
  | OutType t _ => t =? type
  | _ => false
  end.

(** The heap indices of the heap lines of a report, in the order printed. *)
Definition heap_indices (ls : list stdout_line) : list Z :=
  flat_map (fun l => match l with OutHeap h _ _ => [h] | _ => [] end) ls.

(** [l] with its entry at position [n] replaced by [a]. *)
Definition update_nth {A : Type} (n : nat) (a : A) (l : list A) : list A :=
  firstn n l ++ a :: skipn (S n) l.

(** The memory properties with memory type [t] replaced by [mt]. *)
Definition replace_memory_type (mp : VkPhysicalDeviceMemoryProperties)
  (t : Z) (mt : VkMemoryType) : VkPhysicalDeviceMemoryProperties :=
  {| memoryTypeCount := memoryTypeCount mp;
     memoryTypes := update_nth (Z.to_nat t) mt (memoryTypes mp);
     memoryHeapCount := memoryHeapCount mp;
     memoryHeaps := memoryHeaps mp |}.

(** The type indices of the type lines of a report, in the order printed. *)
Definition type_indices (ls : list stdout_line) : list Z :=
  flat_map (fun l => match l with OutType t _ => [t] | _ => [] end) ls.

(** Whether memory type [t] names heap [h]. *)
Definition owned_by (mp : VkPhysicalDeviceMemoryProperties) (h t : Z)
  : bool :=
  match nth_error (memoryTypes mp) (Z.to_nat t) with
  | Some mt => heapIndex mt =? h
  | None => false
  end.

Section Specification.

Context {hdr : VulkanHeader}.

(** The status codes [die] knows, with their labels. *)
Definition status_table : list (Z * string) :=
  [ (VK_SUCCESS, "VK_SUCCESS");
    (VK_UNSUPPORTED, "VK_UNSUPPORTED");
    (VK_NOT_READY, "VK_NOT_READY");
    (VK_TIMEOUT, "VK_TIMEOUT");
    (VK_EVENT_SET, "VK_EVENT_SET");
    (VK_EVENT_RESET, "VK_EVENT_RESET");
    (VK_INCOMPLETE, "VK_INCOMPLETE");
    (VK_ERROR_OUT_OF_HOST_MEMORY, "VK_ERROR_OUT_OF_HOST_MEMORY");
    (VK_ERROR_OUT_OF_DEVICE_MEMORY, "VK_ERROR_OUT_OF_DEVICE_MEMORY");
    (VK_ERROR_INITIALIZATION_FAILED, "VK_ERROR_INITIALIZATION_FAILED");
    (VK_ERROR_DEVICE_LOST, "VK_ERROR_DEVICE_LOST");
    (VK_ERROR_MEMORY_MAP_FAILED, "VK_ERROR_MEMORY_MAP_FAILED");
    (VK_ERROR_LAYER_NOT_PRESENT, "VK_ERROR_LAYER_NOT_PRESENT");
    (VK_ERROR_EXTENSION_NOT_PRESENT, "VK_ERROR_EXTENSION_NOT_PRESENT");
    (VK_ERROR_INCOMPATIBLE_DRIVER, "VK_ERROR_INCOMPATIBLE_DRIVER") ]%string.

Fixpoint lookup_status (table : list (Z * string)) (fallback : string)
  (code : Z) : string :=
  match table with
  | [] => fallback
  | (c, label) :: table' =>
      if code =? c then label else lookup_status table' fallback code
  end.

(** The name under which each checked driver call is reported. *)
Definition proc_name (c : driver_call) : string :=
  match c with
  | CreateInstance => "vkCreateInstance"
  | EnumeratePhysicalDevicesCount => "vkEnumeratePhysicalDevices (count)"
  | EnumeratePhysicalDevicesData => "vkEnumeratePhysicalDevices (data)"
  | GetPhysicalDeviceProperties _ => "vkGetPhysicalDeviceProperties"
  | GetPhysicalDeviceMemoryProperties _ =>
      "vkGetPhysicalDeviceMemoryProperties"
  | GetPhysicalDeviceQueueFamilyPropertiesCount _ =>
      "vkGetPhysicalDeviceQueueFamilyProperties (count)"
  | GetPhysicalDeviceQueueFamilyPropertiesValues _ =>
      "vkGetPhysicalDeviceQueueFamilyProperties (values)"
  | DestroyInstance => "vkDestroyInstance"
  end.

(** The checks of the memory-type flag word, in the order made, each with
    the text it appends. *)
Definition memory_flag_checks : list ((Z -> bool) * string) :=
  [ (fun f => f =? VK_MEMORY_PROPERTY_DEVICE_ONLY, "DEVICE_ONLY"%string);
    (fun f => negb (Z.land f VK_MEMORY_PROPERTY_HOST_VISIBLE_BIT =? 0),
     "HOST_VISIBLE"%string);
    (fun f => negb (Z.land f VK_MEMORY_PROPERTY_HOST_NON_COHERENT_BIT =? 0),
     " NON_COHERENT"%string);
    (fun f => negb (Z.land f VK_MEMORY_PROPERTY_HOST_UNCACHED_BIT =? 0),
     " UNCACHED"%string);
    (fun f =>
       negb (Z.land f VK_MEMORY_PROPERTY_HOST_WRITE_COMBINED_BIT =? 0),
     " WRITE_COMBINED"%string);
    (fun f => negb (Z.land f VK_MEMORY_PROPERTY_LAZILY_ALLOCATED_BIT =? 0),
     " LAZILY_ALLOCATED"%string) ].

(** The texts of the checks that hold, concatenated in check order. *)
Definition flag_string (f : Z) : string :=
  String.concat EmptyString
    (map snd (filter (fun c => fst c f) memory_flag_checks)).

(** The label of every set bit of a queue flag word, lowest bit first, if
    each has one; bit [k] is looked up as the [int] value of [1 << k]. *)
Definition capability_labels (queueFlags : Z) : option (list string) :=
  all_some
    (map (fun k => VkQueueFlagBitStr (to_int32 (Z.shiftl 1 k)))
       (bit_positions queueFlags)).

Definition capability_string (queueFlags : Z) : option string :=
  option_map (String.concat "+") (capability_labels queueFlags).

(** The line of one queue family, or undefined behaviour when some set bit
    has no label. *)
Definition queue_family_line (family : Z) (q : VkQueueFamilyProperties)
  : run string :=
  match capability_string (queueFlags q) with
  | Some str =>
      mkRun [] [OutQueueFamily family (queueCount q) str
                  (if supportsTimestamps q =? 0 then "NO" else "YES")]
        [] (Normal EmptyString)
  | None => undefined
  end.

(** The buffer of queue family properties after the values query. *)
Definition queue_family_buffer (d : DeviceScript)
  : list VkQueueFamilyProperties :=
  overwrite (queue_values_out d)
    (repeat zero_queue_family (Z.to_nat (queue_count_out d))).

(** What the loop over the queue families prints for entry [k] of the
    buffer [buf]. *)
Definition family_lines (buf : list VkQueueFamilyProperties) (k : Z)
  : list stdout_line :=
  match nth_error buf (Z.to_nat k) with
  | Some q => out (queue_family_line k q)
  | None => []
  end.

(** Counts that stay within the arrays of the memory properties. *)
Definition memory_within (mp : VkPhysicalDeviceMemoryProperties) : Prop :=
  0 <= memoryTypeCount mp <= Z.of_nat (List.length (memoryTypes mp)) /\
  0 <= memoryHeapCount mp <= Z.of_nat (List.length (memoryHeaps mp)).

(** The line of memory type [t] under heap [h]: present when the type
    names that heap. *)
Definition type_line (mp : VkPhysicalDeviceMemoryProperties) (h t : Z)
  : list stdout_line :=
  match nth_error (memoryTypes mp) (Z.to_nat t) with
  | Some mt =>
      if heapIndex mt =? h
      then [OutType t (flag_string (propertyFlags mt))]
      else []
  | None => []
  end.

(** The line of heap [h] followed by the lines of its types, in ascending
    type index. *)
Definition heap_block (mp : VkPhysicalDeviceMemoryProperties) (h : Z)
  : list stdout_line :=
  match nth_error (memoryHeaps mp) (Z.to_nat h) with
  | Some mh =>
      OutHeap h (size mh)
        (if Z.land (flags mh) VK_MEMORY_HEAP_HOST_LOCAL_BIT =? 0
         then EmptyString else "HOST_LOCAL")
      :: flat_map (type_line mp h) (indices (memoryTypeCount mp))
  | None => []
  end.

(** The memory report: the heap blocks in ascending heap index. *)
Definition memory_report (mp : VkPhysicalDeviceMemoryProperties)
  : list stdout_line :=
  flat_map (heap_block mp) (indices (memoryHeapCount mp)).

(** The working list of physical devices after the values query. *)
Definition working_devices (drv : Driver) : list Z :=
  let buf :=
    overwrite (enum_data_out drv)
      (repeat VK_NULL_HANDLE (Z.to_nat (enum_count_out drv))) in
  if enum_data_count drv =? Z.of_nat (List.length buf) then buf
  else resize (Z.to_nat (enum_data_count drv)) VK_NULL_HANDLE buf.

(** The rest of [main] once the working list of devices is settled. *)
Definition report_devices (drv : Driver) : run Z :=
  printf OutPhysicalDevices ;;;
  for_upto (Z.of_nat (List.length (working_devices drv)))
    (dump_device drv (working_devices drv)) tt ;;;
  driver_ DestroyInstance ;;;
  ret 0.

(** The lines the dumps of the devices [l], numbered from [i], write. *)
Fixpoint device_reports (drv : Driver) (i : Z) (l : list Z)
  : list stdout_line :=
  match l with
  | [] => []
  | pdev :: l' =>
      out (DumpPhysicalDevice drv i pdev) ++ device_reports drv (i + 1) l'
  end.

Definition is_failure (l : stderr_line) : bool :=
  match l with
  | ErrFailed _ _ _ => true
  | ErrDecreased _ _ => false
  end.

(** What a run that meets no failing call writes to standard error. *)
Definition decrease_warning (drv : Driver) : list stderr_line :=
  let n := List.length
             (overwrite (enum_data_out drv)
                (repeat VK_NULL_HANDLE (Z.to_nat (enum_count_out drv)))) in
  if enum_data_count drv =? Z.of_nat n then []
  else [ErrDecreased (Z.of_nat n) (enum_data_count drv)].

(** A logged call whose status, if read, was success. *)
Definition succeeded (cr : call_record) : Prop :=
  forall code, snd cr = Some code -> code = VK_SUCCESS.

(** The fail-fast discipline of a run that, were it to complete, would
    write [w] to standard error.  Either the run completed: every call
    succeeded and [w] was written.  Or it met undefined behaviour: every
    call so far succeeded and a prefix of [w] was written.  Or its last
    call failed: it wrote a prefix of [w], then the failure line of that
    call, and exited with status 1. *)
Inductive fail_fast {A : Type} (w : list stderr_line) (r : run A) : Prop :=
| ff_completed : forall a,
    Forall succeeded (calls r) ->
    err r = w ->
    res r = Normal a ->
    fail_fast w r
| ff_undefined : forall w2,
    Forall succeeded (calls r) ->
    w = err r ++ w2 ->
    res r = Undefined ->
    fail_fast w r
| ff_died : forall pre c code w1 w2,
    calls r = pre ++ [(c, Some code)] ->
    Forall succeeded pre ->
    code <> VK_SUCCESS ->
    w = w1 ++ w2 ->
    err r = w1 ++ [ErrFailed (proc_name c) (result_str code) code] ->
    res r = Exited 1 ->
    fail_fast w r.

End Specification.

(** ** Further definitions *)

Section FurtherSpecification.

Context {hdr : VulkanHeader}.

(** The device types [VkPhysicalDeviceTypeStr] knows, with their labels. *)
Definition device_type_table : list (Z * string) :=
  [ (VK_PHYSICAL_DEVICE_TYPE_OTHER, "OTHER");
    (VK_PHYSICAL_DEVICE_TYPE_INTEGRATED_GPU, "INTEGRATED_GPU");
    (VK_PHYSICAL_DEVICE_TYPE_DISCRETE_GPU, "DISCRETE_GPU");
    (VK_PHYSICAL_DEVICE_TYPE_VIRTUAL_GPU, "VIRTUAL_GPU");
    (VK_PHYSICAL_DEVICE_TYPE_CPU, "CPU") ]%string.

(** The five queue flags [VkQueueFlagBitStr] has a case for. *)
Definition queue_flag_bits : list Z :=
  [ VK_QUEUE_GRAPHICS_BIT; VK_QUEUE_COMPUTE_BIT; VK_QUEUE_DMA_BIT;
    VK_QUEUE_SPARSE_MEMMGR_BIT; VK_QUEUE_EXTENDED_BIT ].

(** The five memory property bits the type loop tests. *)
Definition memory_property_bits : list Z :=
  [ VK_MEMORY_PROPERTY_HOST_VISIBLE_BIT;
    VK_MEMORY_PROPERTY_HOST_NON_COHERENT_BIT;
    VK_MEMORY_PROPERTY_HOST_UNCACHED_BIT;
    VK_MEMORY_PROPERTY_HOST_WRITE_COMBINED_BIT;
    VK_MEMORY_PROPERTY_LAZILY_ALLOCATED_BIT ].

(** The device line printed for the properties [props]. *)
Definition device_line (idx : Z) (props : VkPhysicalDeviceProperties)
  : stdout_line :=
  OutDevice idx (deviceName props)
    (VkPhysicalDeviceTypeStr (deviceType props))
    (Z.land (Z.shiftr (apiVersion props) 22) 1023)
    (Z.land (Z.shiftr (apiVersion props) 12) 1023)
    (Z.land (Z.shiftr (apiVersion props) 0) 4095)
    (driverVersion props) (vendorId props) (deviceId props).

(** The four queries of a device dump, in the order made, each with the
    status the driver answers. *)
Definition device_queries (pdev : Z) (d : DeviceScript) : list call_record :=
  [ (GetPhysicalDeviceProperties pdev, Some (props_result d));
    (GetPhysicalDeviceMemoryProperties pdev, Some (mem_result d));
    (GetPhysicalDeviceQueueFamilyPropertiesCount pdev,
     Some (queue_count_result d));
    (GetPhysicalDeviceQueueFamilyPropertiesValues pdev,
     Some (queue_values_result d)) ].

(** The three calls of [main] that come before the first device dump. *)
Definition enumeration_calls (drv : Driver) : list call_record :=
  [ (CreateInstance, Some (create_result drv));
    (EnumeratePhysicalDevicesCount, Some (enum_count_result drv));
    (EnumeratePhysicalDevicesData, Some (enum_data_result drv)) ].

Definition is_destroy (cr : call_record) : bool :=
  match fst cr with
  | DestroyInstance => true
  | _ => false
  end.

End FurtherSpecification.

(** ** The report of a device that answers well *)

Section Reports.

Context {hdr : VulkanHeader}.

(** The line of entry [k] of the buffer [buf], when the entry is there and
    every set bit of its flag word has a label. *)
Definition family_line (buf : list VkQueueFamilyProperties) (k : Z)
  : option stdout_line :=
  match nth_error buf (Z.to_nat k) with
  | Some q =>
      option_map
        (fun str =>
           OutQueueFamily k (queueCount q) str
             (if supportsTimestamps q =? 0 then "NO" else "YES"))
        (capability_string (queueFlags q))
  | None => None
  end.

(** One line for each family the values query reported, in ascending
    index, when each of them has its line. *)
Definition family_report (d : DeviceScript) : option (list stdout_line) :=
  all_some
    (map (family_line (queue_family_buffer d))
       (indices (queue_values_count d))).

(** A device whose four queries succeed on data the loops can print: the
    memory counts within the arrays, the families within the buffer, and a
    label for every set flag. *)
Definition answers_well (d : DeviceScript) : Prop :=
  props_result d = VK_SUCCESS /\
  mem_result d = VK_SUCCESS /\
  queue_count_result d = VK_SUCCESS /\
  queue_values_result d = VK_SUCCESS /\
  memory_within (mem_out d) /\
  family_report d <> None.

(** The report of the device printed at position [idx]: the device line,
    the memory report, the lines of the queue families. *)
Definition device_report (idx : Z) (d : DeviceScript) : list stdout_line :=
  device_line idx (props_out d)
  :: memory_report (mem_out d)
  ++ match family_report d with
     | Some ls => ls
     | None => []
     end.

(** The reports of the devices [l], numbered from [i]. *)
Fixpoint expected_reports (drv : Driver) (i : Z) (l : list Z)
  : list stdout_line :=
  match l with
  | [] => []
  | pdev :: l' =>
      device_report i (device drv pdev) ++ expected_reports drv (i + 1) l'
  end.

End Reports.

(** The capacities of the member arrays [memoryTypes] and [memoryHeaps] of
    [VkPhysicalDeviceMemoryProperties], two more constants of the header. *)
Class VulkanLimits : Type := {
  VK_MAX_MEMORY_TYPES : nat;
  VK_MAX_MEMORY_HEAPS : nat
}.

(** A value of the struct: both arrays are there at their full capacity,
    whatever the counts say. *)
Definition memory_arrays_full {lim : VulkanLimits}
  (mp : VkPhysicalDeviceMemoryProperties) : Prop :=
  List.length (memoryTypes mp) = VK_MAX_MEMORY_TYPES /\
  List.length (memoryHeaps mp) = VK_MAX_MEMORY_HEAPS.

(** Thirty-two memory types and sixteen heaps. *)
Definition vulkan_h_limits : VulkanLimits := {|
  VK_MAX_MEMORY_TYPES := 32;
  VK_MAX_MEMORY_HEAPS := 16
|}.

(** Further driver scripts, built on the sample device. *)
Module Scripts.

(** The sample device when its memory query fails. *)
Definition gpu_memory_fails : DeviceScript := {|
  props_result := 0;
  props_out := Sample.props;
  mem_result := -2;
  mem_out := Sample.mem;
  queue_count_result := 0;
  queue_count_out := 2;
  queue_values_result := 0;
  queue_values_count := 2;
  queue_values_out := [Sample.graphics_compute; Sample.dma_only]
|}.

(** The sample device when the values query reports two families for a
    buffer of one. *)
Definition gpu_queue_growing : DeviceScript := {|
  props_result := 0;
  props_out := Sample.props;
  mem_result := 0;
  mem_out := Sample.mem;
  queue_count_result := 0;
  queue_count_out := 1;
  queue_values_result := 0;
  queue_values_count := 2;
  queue_values_out := [Sample.graphics_compute]
|}.

(** The sample memory properties in arrays of thirty-two types and sixteen
    heaps, with a type count one past the array of types. *)
Definition mem_overrun : VkPhysicalDeviceMemoryProperties := {|
  memoryTypeCount := 33;
  memoryTypes :=
    memoryTypes Sample.mem
    ++ repeat {| propertyFlags := 0; heapIndex := 0 |} 28;
  memoryHeapCount := 2;
  memoryHeaps :=
    memoryHeaps Sample.mem ++ repeat {| size := 0; flags := 0 |} 14
|}.

(** The same arrays with five types counted: the fifth entry lies past
    the four of the sample and within the array. *)
Definition mem_spare : VkPhysicalDeviceMemoryProperties := {|
  memoryTypeCount := 5;
  memoryTypes := memoryTypes mem_overrun;
  memoryHeapCount := 2;
  memoryHeaps := memoryHeaps mem_overrun
|}.

(** Handle 20 is [gpu_memory_fails], every other handle is the sample
    device. *)
Definition devices (pdev : Z) : DeviceScript :=
  if pdev =? 20 then gpu_memory_fails else Sample.gpu.

(** No device at all. *)
Definition no_devices : Driver := {|
  create_result := 0;
  enum_count_result := 0;
  enum_count_out := 0;
  enum_data_result := 0;
  enum_data_count := 0;
  enum_data_out := [];
  device := devices
|}.

(** One device counted, two reported, one handle written. *)
Definition growing : Driver := {|
  create_result := 0;
  enum_count_result := 0;
  enum_count_out := 1;
  enum_data_result := 0;
  enum_data_count := 2;
  enum_data_out := [10];
  device := devices
|}.

(** Three devices, the second of which fails its memory query. *)
Definition second_fails : Driver := {|
  create_result := 0;
  enum_count_result := 0;
  enum_count_out := 3;
  enum_data_result := 0;
  enum_data_count := 3;
  enum_data_out := [10; 20; 11];
  device := devices
|}.

(** The enumeration of the devices fails. *)
Definition enumeration_fails : Driver := {|
  create_result := 0;
  enum_count_result := -3;
  enum_count_out := 0;
  enum_data_result := 0;
  enum_data_count := 0;
  enum_data_out := [];
  device := devices
|}.

End Scripts.

(** * Properties *)

(** Case analysis on the integer comparisons of the goal. *)
Ltac decide_comparison :=
  match goal with
  | |- context [?x =? ?y] => destruct (Z.eqb_spec x y) as [?|?]
  | |- context [?x <? ?y] => destruct (Z.ltb_spec0 x y) as [?|?]
  | |- context [?x <=? ?y] => destruct (Z.leb_spec0 x y) as [?|?]
  end.

Ltac case_bools :=
  repeat decide_comparison;
  cbn [andb orb negb List.length filter Nat.add];
  try reflexivity; try lia.

(** ** Runs *)

Lemma bind_ret_l {A B : Type} (a : A) (f : A -> run B) :
  bind (ret a) f = f a.
Proof. unfold bind, ret; simpl. destruct (f a); reflexivity. Qed.

Lemma bind_normal {A B : Type} (m : run A) (f : A -> run B) (a : A) :
  res m = Normal a ->
  bind m f =
  mkRun (calls m ++ calls (f a)) (out m ++ out (f a)) (err m ++ err (f a))
    (res (f a)).
Proof. intros H. unfold bind. rewrite H. reflexivity. Qed.

Lemma bind_pure {A B : Type} (ls : list stdout_line) (a : A)
  (f : A -> run B) :
  bind (mkRun [] ls [] (Normal a)) f =
  mkRun (calls (f a)) (ls ++ out (f a)) (err (f a)) (res (f a)).
Proof. reflexivity. Qed.

Lemma bind_undefined {A B : Type} (f : A -> run B) :
  bind undefined f = undefined.
Proof. reflexivity. Qed.

Lemma res_bind_normal {A B : Type} (m : run A) (f : A -> run B) (b : B) :
  res (bind m f) = Normal b ->
  exists a, res m = Normal a /\ res (f a) = Normal b.
Proof.
  unfold bind. destruct (res m) as [a| | |] eqn:E; simpl; try discriminate.
  intros H. exists a. split; [reflexivity | exact H].
Qed.

(** ** Bits *)

Lemma to_int32_low_bits (x k : Z) :
  0 <= k < 32 -> Z.testbit (to_int32 x) k = Z.testbit x k.
Proof.
  intros Hk. unfold to_int32.
  rewrite <- (Z.mod_pow2_bits_low ((x + 2 ^ 31) mod 2 ^ 32 - 2 ^ 31) 32 k)
    by lia.
  rewrite <- (Z.mod_pow2_bits_low x 32 k) by lia.
  f_equal.
  rewrite Zminus_mod_idemp_l.
  replace (x + 2 ^ 31 - 2 ^ 31) with x by lia. reflexivity.
Qed.

Lemma flag_bit (p k : Z) :
  0 <= p < 32 -> 0 <= k < 32 ->
  Z.testbit (to_int32 (Z.shiftl 1 p)) k = (p =? k).
Proof.
  intros Hp Hk. rewrite to_int32_low_bits by assumption.
  rewrite Z.shiftl_1_l. apply Z.pow2_bits_eqb. lia.
Qed.

Lemma clear_flag_bit (x p k : Z) :
  0 <= p < 32 -> 0 <= k < 32 ->
  Z.testbit (Z.land x (Z.lnot (to_int32 (Z.shiftl 1 p)))) k =
  Z.testbit x k && negb (k =? p).
Proof.
  intros Hp Hk. rewrite Z.land_spec, Z.lnot_spec by lia.
  rewrite flag_bit by assumption. rewrite (Z.eqb_sym p k). reflexivity.
Qed.

Lemma scan_ext (f g : Z -> bool) (n : nat) : forall i,
  (forall k, i <= k < i + Z.of_nat n -> f k = g k) ->
  scan f n i = scan g n i.
Proof.
  induction n as [|n IH]; intros i H; simpl; [reflexivity|].
  rewrite (H i) by lia. rewrite (IH (i + 1)) by (intros; apply H; lia).
  reflexivity.
Qed.

Lemma scan_length (f : Z -> bool) (n : nat) : forall i,
  (List.length (scan f n i) <= n)%nat.
Proof.
  induction n as [|n IH]; intros i; simpl; [lia|].
  destruct (f i); simpl; specialize (IH (i + 1)); lia.
Qed.

Lemma scan_none (f : Z -> bool) (n : nat) : forall i,
  (forall k, i <= k < i + Z.of_nat n -> f k = false) ->
  scan f n i = [].
Proof.
  induction n as [|n IH]; intros i H; simpl; [reflexivity|].
  rewrite (H i) by lia. apply IH. intros; apply H; lia.
Qed.

Lemma scan_In (f : Z -> bool) (n : nat) : forall i k,
  In k (scan f n i) <-> (i <= k < i + Z.of_nat n /\ f k = true).
Proof.
  induction n as [|n IH]; intros i k; simpl.
  - split; [tauto | lia].
  - destruct (f i) eqn:E; simpl; rewrite IH; split.
    + intros [->|[H1 H2]]; split; try assumption; lia.
    + intros [H1 H2]. destruct (Z.eq_dec i k); [left; assumption|right].
      split; [lia | assumption].
    + intros [H1 H2]; split; [lia | assumption].
    + intros [H1 H2]. destruct (Z.eq_dec i k) as [->|]; [congruence|].
      split; [lia | assumption].
Qed.

Lemma scan_first (f : Z -> bool) (n : nat) : forall i p,
  i <= p < i + Z.of_nat n ->
  f p = true ->
  (forall k, i <= k < p -> f k = false) ->
  scan f n i = p :: scan f (n - Z.to_nat (p - i) - 1) (p + 1).
Proof.
  induction n as [|n IH]; intros i p Hp Ht Hf; [simpl in Hp; lia|].
  cbn [scan]. destruct (Z.eq_dec i p) as [->|Hne].
  - rewrite Ht. do 2 f_equal. lia.
  - rewrite (Hf i) by lia.
    rewrite (IH (i + 1) p) by (try assumption; try lia; intros; apply Hf; lia).
    do 2 f_equal. lia.
Qed.

Lemma scan_skip (f : Z -> bool) (n : nat) : forall i p,
  i <= p < i + Z.of_nat n ->
  (forall k, i <= k <= p -> f k = false) ->
  scan f n i = scan f (n - Z.to_nat (p - i) - 1) (p + 1).
Proof.
  induction n as [|n IH]; intros i p Hp Hf; [simpl in Hp; lia|].
  cbn [scan]. rewrite (Hf i) by lia.
  destruct (Z.eq_dec i p) as [->|Hne].
  - f_equal. lia.
  - rewrite (IH (i + 1) p) by (try lia; intros; apply Hf; lia).
    f_equal. lia.
Qed.

Lemma ffs_scan_zero (x : Z) (n : nat) : forall i,
  0 <= i -> ffs_scan n i x = 0 ->
  forall k, i <= k < i + Z.of_nat n -> Z.testbit x k = false.
Proof.
  induction n as [|n IH]; intros i Hi H k Hk; [simpl in Hk; lia|].
  simpl in H. destruct (Z.testbit x i) eqn:E; [lia|].
  destruct (Z.eq_dec i k) as [->|]; [assumption|].
  apply (IH (i + 1)); [lia | assumption | lia].
Qed.

Lemma ffs_scan_found (x : Z) (n : nat) : forall i b,
  0 <= i -> ffs_scan n i x = b -> b <> 0 ->
  i <= b - 1 < i + Z.of_nat n /\
  Z.testbit x (b - 1) = true /\
  forall k, i <= k < b - 1 -> Z.testbit x k = false.
Proof.
  induction n as [|n IH]; intros i b Hi H Hb; [simpl in H; lia|].
  simpl in H. destruct (Z.testbit x i) eqn:E.
  - subst b. replace (i + 1 - 1) with i by lia.
    split; [lia|]. split; [assumption|]. intros; lia.
  - destruct (IH (i + 1) b) as (H1 & H2 & H3); [lia | assumption | assumption |].
    split; [lia|]. split; [assumption|].
    intros k Hk. destruct (Z.eq_dec i k) as [->|]; [assumption|].
    apply H3; lia.
Qed.

(** Taking the lowest set bit and clearing it peels the head off the list
    of set positions. *)
Lemma bit_positions_step (x b : Z) :
  builtin_ffs x = b -> b <> 0 ->
  0 <= b - 1 < 32 /\
  bit_positions x =
  (b - 1) ::
  bit_positions (Z.land x (Z.lnot (to_int32 (Z.shiftl 1 (b - 1))))).
Proof.
  intros H Hb. unfold builtin_ffs in H.
  destruct (ffs_scan_found x 32 0 b) as (H1 & H2 & H3);
    [lia | assumption | assumption |].
  simpl Z.of_nat in H1. split; [lia|].
  unfold bit_positions.
  rewrite (scan_first (Z.testbit x) 32 0 (b - 1)) by (simpl Z.of_nat; auto; lia).
  f_equal.
  set (x' := Z.land x _).
  assert (Hx' : forall k, 0 <= k < 32 ->
            Z.testbit x' k = Z.testbit x k && negb (k =? b - 1)).
  { intros k Hk. apply clear_flag_bit; lia. }
  rewrite (scan_skip (Z.testbit x') 32 0 (b - 1)).
  - apply scan_ext. intros k Hk.
    rewrite Hx' by lia. destruct (Z.eqb_spec k (b - 1)); [lia|].
    rewrite andb_true_r. reflexivity.
  - simpl Z.of_nat; lia.
  - intros k Hk. rewrite Hx' by lia.
    destruct (Z.eqb_spec k (b - 1)); [apply andb_false_r|].
    rewrite H3 by lia. reflexivity.
Qed.

(** ** Strings *)

Lemma append_nil_r (s : string) : s ^^ EmptyString = s.
Proof. induction s as [|c s IH]; simpl; [reflexivity | now rewrite IH]. Qed.

Lemma append_assoc (s1 s2 s3 : string) : (s1 ^^ s2) ^^ s3 = s1 ^^ s2 ^^ s3.
Proof. induction s1 as [|c s IH]; simpl; [reflexivity | now rewrite IH]. Qed.

Lemma join_from_plus (l : string) (ls : list string) :
  join_from "+" (l :: ls) = "+" ^^ String.concat "+" (l :: ls).
Proof.
  revert l. induction ls as [|l' ls IH]; intros l.
  - simpl. rewrite append_nil_r. reflexivity.
  - change (join_from "+" (l :: l' :: ls))
      with ("+" ^^ l ^^ join_from "+" (l' :: ls)).
    rewrite IH. reflexivity.
Qed.

Lemma join_from_concat (ls : list string) :
  join_from EmptyString ls = String.concat "+" ls.
Proof.
  destruct ls as [|l [|l' ls]]; try reflexivity.
  - simpl. apply append_nil_r.
  - change (join_from EmptyString (l :: l' :: ls))
      with (l ^^ join_from "+" (l' :: ls)).
    rewrite join_from_plus. reflexivity.
Qed.

Lemma join_from_cons (sep l : string) (ls : list string) :
  join_from sep (l :: ls) = sep ^^ l ^^ join_from "+" ls.
Proof. reflexivity. Qed.

Lemma all_some_cons {A : Type} (o : option A) (l : list (option A)) :
  all_some (o :: l) =
  match o with
  | Some a =>
      match all_some l with
      | Some r => Some (a :: r)
      | None => None
      end
  | None => None
  end.
Proof. destruct o; reflexivity. Qed.

(** ** The loop over the set bits of a queue flag word *)

Section QueueFlags.

Context {hdr : VulkanHeader}.

Lemma queue_flags_loop_stop fuel x sep strbuf :
  builtin_ffs x = 0 ->
  queue_flags_loop (S fuel) x sep strbuf = ret strbuf.
Proof. intros E. cbn [queue_flags_loop]. rewrite E. reflexivity. Qed.

Lemma queue_flags_loop_step fuel x sep strbuf :
  builtin_ffs x <> 0 ->
  queue_flags_loop (S fuel) x sep strbuf =
  match VkQueueFlagBitStr (to_int32 (Z.shiftl 1 (builtin_ffs x - 1))) with
  | Some label =>
      queue_flags_loop fuel
        (Z.land x (Z.lnot (to_int32 (Z.shiftl 1 (builtin_ffs x - 1)))))
        "+" (strbuf ^^ sep ^^ label)
  | None => undefined
  end.
Proof.
  intros E. cbn [queue_flags_loop].
  destruct (Z.eqb_spec (builtin_ffs x) 0); [contradiction | reflexivity].
Qed.

Lemma bit_positions_none x : builtin_ffs x = 0 -> bit_positions x = [].
Proof.
  intros E. apply scan_none. intros k Hk.
  apply (ffs_scan_zero x 32 0); [lia | exact E | exact Hk].
Qed.

(** With fuel for every set bit, the loop appends the labels of the set
    bits, lowest first, or meets a bit without a label. *)
Lemma queue_flags_loop_spec : forall fuel x sep strbuf,
  (List.length (bit_positions x) < fuel)%nat ->
  queue_flags_loop fuel x sep strbuf =
  match
    all_some
      (map (fun k => VkQueueFlagBitStr (to_int32 (Z.shiftl 1 k)))
         (bit_positions x))
  with
  | Some ls => ret (strbuf ^^ join_from sep ls)
  | None => undefined
  end.
Proof.
  induction fuel as [|fuel IH]; intros x sep strbuf Hlen; [lia|].
  destruct (Z.eq_dec (builtin_ffs x) 0) as [E|E].
  - rewrite queue_flags_loop_stop by exact E.
    rewrite (bit_positions_none x E). cbn [map all_some join_from].
    rewrite append_nil_r. reflexivity.
  - rewrite queue_flags_loop_step by exact E.
    destruct (bit_positions_step x (builtin_ffs x) eq_refl E) as (Hb & Hstep).
    revert Hlen. rewrite Hstep, map_cons, all_some_cons, length_cons.
    intros Hlen.
    destruct (VkQueueFlagBitStr (to_int32 (Z.shiftl 1 (builtin_ffs x - 1))))
      as [label|]; [|reflexivity].
    rewrite IH by (apply Nat.succ_lt_mono; exact Hlen).
    destruct (all_some _) as [ls|]; [|reflexivity].
    rewrite join_from_cons, !append_assoc. reflexivity.
Qed.

Lemma bit_positions_to_int32 (x : Z) :
  bit_positions (to_int32 x) = bit_positions x.
Proof.
  apply scan_ext. intros k Hk. apply to_int32_low_bits.
  simpl Z.of_nat in Hk. lia.
Qed.

(** The body of the queue family loop prints the line of the family. *)
Lemma dump_queue_family_spec qfp family q :
  nth_error qfp (Z.to_nat family) = Some q ->
  dump_queue_family qfp family EmptyString = queue_family_line family q.
Proof.
  intros Hq. unfold dump_queue_family, index. rewrite Hq, bind_ret_l.
  rewrite queue_flags_loop_spec
    by (pose proof (scan_length (Z.testbit (to_int32 (queueFlags q))) 32 0);
        unfold bit_positions; lia).
  rewrite bit_positions_to_int32.
  unfold queue_family_line, capability_string, capability_labels.
  destruct (all_some _) as [ls|]; [|reflexivity].
  rewrite bind_ret_l. cbn [option_map]. rewrite join_from_concat.
  destruct (supportsTimestamps q =? 0); reflexivity.
Qed.

End QueueFlags.

(** ** Counted loops *)

Lemma indices_from_In (n : nat) : forall i k,
  In k (indices_from n i) <-> i <= k < i + Z.of_nat n.
Proof.
  induction n as [|n IH]; intros i k; cbn [indices_from In].
  - split; [tauto | lia].
  - rewrite IH. lia.
Qed.

Lemma indices_In (count k : Z) :
  In k (indices count) <-> 0 <= k < count.
Proof. unfold indices. rewrite indices_from_In. lia. Qed.

(** A loop whose body only prints, and hands the local state on unchanged,
    prints the lines of its iterations in order. *)
Lemma for_from_pure {St : Type} (body : Z -> St -> run St)
  (lines : Z -> list stdout_line) (s : St) (n : nat) : forall i,
  (forall k, In k (indices_from n i) ->
             body k s = mkRun [] (lines k) [] (Normal s)) ->
  for_from n i body s =
  mkRun [] (flat_map lines (indices_from n i)) [] (Normal s).
Proof.
  induction n as [|n IH]; intros i H; cbn [for_from indices_from flat_map].
  - reflexivity.
  - rewrite (H i) by (left; reflexivity).
    rewrite bind_pure, IH by (intros k Hk; apply H; right; exact Hk).
    reflexivity.
Qed.

(** A loop whose body either prints and hands the local state on unchanged,
    or meets undefined behaviour, prints only lines of its iterations. *)
Lemma for_from_lines {St : Type} (body : Z -> St -> run St)
  (lines : Z -> list stdout_line) (s : St) (n : nat) : forall i,
  (forall k, In k (indices_from n i) ->
             body k s = mkRun [] (lines k) [] (Normal s) \/
             body k s = undefined) ->
  forall l, In l (out (for_from n i body s)) ->
            exists k, In k (indices_from n i) /\ In l (lines k).
Proof.
  induction n as [|n IH]; intros i H l Hl; cbn [for_from indices_from] in *.
  - destruct Hl.
  - destruct (H i (or_introl eq_refl)) as [E|E]; rewrite E in Hl.
    + rewrite bind_pure in Hl. cbn [out] in Hl.
      apply in_app_or in Hl. destruct Hl as [Hl|Hl].
      * exists i. split; [left; reflexivity | exact Hl].
      * destruct (IH (i + 1) (fun k Hk => H k (or_intror Hk)) l Hl)
          as (k & Hk & Hin).
        exists k. split; [right; exact Hk | exact Hin].
    + rewrite bind_undefined in Hl. destruct Hl.
Qed.

Lemma In_out_bind {A B : Type} (m : run A) (f : A -> run B)
  (l : stdout_line) :
  In l (out (bind m f)) ->
  In l (out m) \/ exists a, res m = Normal a /\ In l (out (f a)).
Proof.
  unfold bind. destruct (res m) as [a| | |]; cbn [stop out]; intros H;
    try (left; exact H).
  apply in_app_or in H. destruct H as [H|H]; [left; exact H|].
  right. exists a. split; [reflexivity | exact H].
Qed.

Lemma out_bind_ret {A B : Type} (m : run A) (b : B) :
  out (bind m (fun _ => ret b)) = out m.
Proof.
  unfold bind. destruct (res m); cbn [stop out ret]; try reflexivity.
  apply app_nil_r.
Qed.

Lemma err_bind_ret {A B : Type} (m : run A) (b : B) :
  err (bind m (fun _ => ret b)) = err m.
Proof.
  unfold bind. destruct (res m); cbn [stop err ret]; try reflexivity.
  apply app_nil_r.
Qed.

(** ** The memory report *)

Section Memory.

Context {hdr : VulkanHeader}.

Lemma memory_type_flags_spec (f : Z) :
  memory_type_flags f EmptyString = flag_string f.
Proof.
  unfold memory_type_flags, flag_string, memory_flag_checks.
  cbn [filter fst snd map].
  destruct (f =? VK_MEMORY_PROPERTY_DEVICE_ONLY);
    destruct (Z.land f VK_MEMORY_PROPERTY_HOST_VISIBLE_BIT =? 0);
    destruct (Z.land f VK_MEMORY_PROPERTY_HOST_NON_COHERENT_BIT =? 0);
    destruct (Z.land f VK_MEMORY_PROPERTY_HOST_UNCACHED_BIT =? 0);
    destruct (Z.land f VK_MEMORY_PROPERTY_HOST_WRITE_COMBINED_BIT =? 0);
    destruct (Z.land f VK_MEMORY_PROPERTY_LAZILY_ALLOCATED_BIT =? 0);
    reflexivity.
Qed.

Lemma nth_error_within {A : Type} (l : list A) (count k : Z) :
  0 <= count <= Z.of_nat (List.length l) -> 0 <= k < count ->
  exists a, nth_error l (Z.to_nat k) = Some a.
Proof.
  intros Hc Hk. destruct (nth_error l (Z.to_nat k)) as [a|] eqn:E.
  - exists a. reflexivity.
  - apply nth_error_None in E. lia.
Qed.

Lemma dump_memory_type_spec mp h t :
  memory_within mp -> 0 <= t < memoryTypeCount mp ->
  dump_memory_type mp h t EmptyString =
  mkRun [] (type_line mp h t) [] (Normal EmptyString).
Proof.
  intros [Hw _] Ht.
  destruct (nth_error_within (memoryTypes mp) _ t Hw Ht) as [mt Hmt].
  unfold dump_memory_type, type_line, index. rewrite Hmt, bind_ret_l.
  destruct (heapIndex mt =? h); [|reflexivity].
  rewrite memory_type_flags_spec. reflexivity.
Qed.

Lemma dump_memory_heap_spec mp h :
  memory_within mp -> 0 <= h < memoryHeapCount mp ->
  dump_memory_heap mp h EmptyString =
  mkRun [] (heap_block mp h) [] (Normal EmptyString).
Proof.
  intros Hw Hh. pose proof Hw as [_ Hwh].
  destruct (nth_error_within (memoryHeaps mp) _ h Hwh Hh) as [mh Hmh].
  unfold dump_memory_heap, heap_block, index. rewrite Hmh, bind_ret_l.
  unfold for_upto.
  rewrite (for_from_pure (dump_memory_type mp h) (type_line mp h)).
  - destruct (Z.land (flags mh) VK_MEMORY_HEAP_HOST_LOCAL_BIT =? 0);
      reflexivity.
  - intros k Hk. apply dump_memory_type_spec; [exact Hw|].
    apply indices_In. exact Hk.
Qed.

(** The memory loops print the memory report, write nothing to standard
    error and run to their end. *)
Lemma dump_memory_spec mp :
  memory_within mp ->
  dump_memory mp EmptyString =
  mkRun [] (memory_report mp) [] (Normal EmptyString).
Proof.
  intros Hw. unfold dump_memory, memory_report, for_upto.
  apply for_from_pure. intros k Hk.
  apply dump_memory_heap_spec; [exact Hw|]. apply indices_In. exact Hk.
Qed.

End Memory.

(** ** The fail-fast discipline *)

Section FailFast.

Context {hdr : VulkanHeader}.

Lemma fail_fast_ret {A : Type} (a : A) : fail_fast [] (ret a).
Proof. apply ff_completed with (a := a); [constructor | reflexivity..]. Qed.

Lemma fail_fast_printf (l : stdout_line) : fail_fast [] (printf l).
Proof. apply ff_completed with (a := tt); [constructor | reflexivity..]. Qed.

Lemma fail_fast_eprintf (l : stderr_line) : fail_fast [l] (eprintf l).
Proof. apply ff_completed with (a := tt); [constructor | reflexivity..]. Qed.

Lemma fail_fast_undefined {A : Type} : fail_fast [] (@undefined A).
Proof. apply ff_undefined with (w2 := []); [constructor | reflexivity..]. Qed.

Lemma fail_fast_driver_ (c : driver_call) : fail_fast [] (driver_ c).
Proof.
  apply ff_completed with (a := tt); [|reflexivity..].
  constructor; [|constructor]. intros code H. discriminate H.
Qed.

Lemma fail_fast_checked (c : driver_call) (result : Z) :
  fail_fast [] (checked c result (proc_name c)).
Proof.
  unfold checked, driver, die. 
  destruct (Z.eqb_spec result VK_SUCCESS) as [E|E].
  - apply ff_completed with (a := tt);
      unfold bind; cbn [res calls err out negb]; rewrite ?E, Z.eqb_refl;
      try reflexivity.
    constructor; [|constructor]. intros code H. injection H as <-.
    reflexivity.
  - assert (Hb : (result =? VK_SUCCESS) = false) by (apply Z.eqb_neq; exact E).
    apply ff_died with (pre := []) (c := c) (code := result) (w1 := [])
                       (w2 := []);
      unfold bind; cbn [res calls err out negb]; rewrite ?Hb;
      try reflexivity; try assumption.
    constructor.
Qed.

Lemma fail_fast_bind {A B : Type} (w1 w2 : list stderr_line) (m : run A)
  (f : A -> run B) :
  fail_fast w1 m -> (forall a, fail_fast w2 (f a)) ->
  fail_fast (w1 ++ w2) (bind m f).
Proof.
  intros Hm Hf. destruct Hm as [a Hc He Hr | w' Hc He Hr
                               | pre c code wa wb Hc Hp Hn Hw He Hr].
  - rewrite (bind_normal m f a Hr).
    destruct (Hf a) as [b Hc' He' Hr' | w' Hc' He' Hr'
                       | pre c code wa wb Hc' Hp' Hn' Hw' He' Hr'].
    + apply ff_completed with (a := b); cbn [calls err res].
      * apply Forall_app. split; assumption.
      * rewrite He, He'. reflexivity.
      * exact Hr'.
    + apply ff_undefined with (w2 := w'); cbn [calls err res].
      * apply Forall_app. split; assumption.
      * rewrite He, He', app_assoc. reflexivity.
      * exact Hr'.
    + apply ff_died with (pre := calls m ++ pre) (c := c) (code := code)
                         (w1 := w1 ++ wa) (w2 := wb); cbn [calls err res].
      * rewrite Hc', app_assoc. reflexivity.
      * apply Forall_app. split; assumption.
      * exact Hn'.
      * rewrite Hw', app_assoc. reflexivity.
      * rewrite He, He', app_assoc. reflexivity.
      * exact Hr'.
  - unfold bind. rewrite Hr.
    apply ff_undefined with (w2 := w' ++ w2); cbn [stop calls err res].
    + exact Hc.
    + rewrite He, app_assoc. reflexivity.
    + reflexivity.
  - unfold bind. rewrite Hr.
    apply ff_died with (pre := pre) (c := c) (code := code)
                       (w1 := wa) (w2 := wb ++ w2); cbn [stop calls err res].
    + exact Hc.
    + exact Hp.
    + exact Hn.
    + rewrite Hw, app_assoc. reflexivity.
    + exact He.
    + reflexivity.
Qed.

Lemma fail_fast_bind_nil {A B : Type} (m : run A) (f : A -> run B) :
  fail_fast [] m -> (forall a, fail_fast [] (f a)) ->
  fail_fast [] (bind m f).
Proof. intros Hm Hf. apply (fail_fast_bind [] [] m f Hm Hf). Qed.

Lemma fail_fast_for_from {St : Type} (body : Z -> St -> run St) (n : nat) :
  (forall i s, fail_fast [] (body i s)) ->
  forall i s, fail_fast [] (for_from n i body s).
Proof.
  intros Hb. induction n as [|n IH]; intros i s; cbn [for_from].
  - apply fail_fast_ret.
  - apply fail_fast_bind_nil; [apply Hb | intros s'; apply IH].
Qed.

Lemma fail_fast_index {A : Type} (l : list A) (i : Z) :
  fail_fast [] (index l i).
Proof.
  unfold index. destruct (nth_error l (Z.to_nat i)).
  - apply fail_fast_ret.
  - apply fail_fast_undefined.
Qed.

(** Thirty-three iterations are enough for any flag word, so the loop
    never stops for lack of fuel. *)
Lemma fail_fast_queue_flags_loop (x : Z) (sep strbuf : string) :
  fail_fast [] (queue_flags_loop 33 x sep strbuf).
Proof.
  rewrite queue_flags_loop_spec
    by (pose proof (scan_length (Z.testbit x) 32 0);
        unfold bit_positions; lia).
  destruct (all_some _).
  - apply fail_fast_ret.
  - apply fail_fast_undefined.
Qed.

Lemma fail_fast_dump_queue_family qfp family strbuf :
  fail_fast [] (dump_queue_family qfp family strbuf).
Proof.
  unfold dump_queue_family.
  apply fail_fast_bind_nil; [apply fail_fast_index | intros q].
  apply fail_fast_bind_nil; [apply fail_fast_queue_flags_loop | intros s].
  apply fail_fast_bind_nil; [apply fail_fast_printf | intros _].
  apply fail_fast_ret.
Qed.

Lemma fail_fast_dump_queue_families pdev d strbuf :
  fail_fast [] (dump_queue_families pdev d strbuf).
Proof.
  unfold dump_queue_families.
  apply fail_fast_bind_nil;
    [apply (fail_fast_checked
              (GetPhysicalDeviceQueueFamilyPropertiesCount pdev))
    | intros _].
  apply fail_fast_bind_nil;
    [apply (fail_fast_checked
              (GetPhysicalDeviceQueueFamilyPropertiesValues pdev))
    | intros _].
  apply fail_fast_for_from. intros i s. apply fail_fast_dump_queue_family.
Qed.

Lemma fail_fast_dump_memory mp strbuf :
  fail_fast [] (dump_memory mp strbuf).
Proof.
  unfold dump_memory, for_upto. apply fail_fast_for_from. intros h s.
  unfold dump_memory_heap.
  apply fail_fast_bind_nil; [apply fail_fast_index | intros mh].
  apply fail_fast_bind_nil; [apply fail_fast_printf | intros _].
  apply fail_fast_for_from. intros t s'.
  unfold dump_memory_type.
  apply fail_fast_bind_nil; [apply fail_fast_index | intros mt].
  destruct (negb (heapIndex mt =? h)); [apply fail_fast_ret|].
  apply fail_fast_bind_nil; [apply fail_fast_printf | intros _].
  apply fail_fast_ret.
Qed.

Lemma fail_fast_DumpPhysicalDevice drv idx pdev :
  fail_fast [] (DumpPhysicalDevice drv idx pdev).
Proof.
  unfold DumpPhysicalDevice.
  apply fail_fast_bind_nil;
    [apply (fail_fast_checked (GetPhysicalDeviceProperties pdev))
    | intros _].
  apply fail_fast_bind_nil; [apply fail_fast_printf | intros _].
  apply fail_fast_bind_nil;
    [apply (fail_fast_checked (GetPhysicalDeviceMemoryProperties pdev))
    | intros _].
  apply fail_fast_bind_nil; [apply fail_fast_dump_memory | intros s].
  apply fail_fast_bind_nil; [apply fail_fast_dump_queue_families | intros s'].
  apply fail_fast_ret.
Qed.

Lemma fail_fast_main argc argv drv :
  fail_fast (decrease_warning drv) (main argc argv drv).
Proof.
  unfold main.
  apply (fail_fast_bind [] (decrease_warning drv));
    [apply (fail_fast_checked CreateInstance) | intros _].
  apply (fail_fast_bind [] (decrease_warning drv));
    [apply (fail_fast_checked EnumeratePhysicalDevicesCount) | intros _].
  apply (fail_fast_bind [] (decrease_warning drv));
    [apply (fail_fast_checked EnumeratePhysicalDevicesData) | intros _].
  rewrite <- (app_nil_r (decrease_warning drv)).
  apply fail_fast_bind.
  - unfold decrease_warning.
    destruct (enum_data_count drv =? _); cbn [negb].
    + apply fail_fast_ret.
    + apply (fail_fast_bind [_] []); [apply fail_fast_eprintf | intros _].
      apply fail_fast_ret.
  - intros physical_devices.
    apply fail_fast_bind_nil; [apply fail_fast_printf | intros _].
    apply fail_fast_bind_nil.
    + apply fail_fast_for_from. intros i s. unfold dump_device.
      apply fail_fast_bind_nil; [apply fail_fast_index | intros pdev].
      apply fail_fast_DumpPhysicalDevice.
    + intros _.
      apply fail_fast_bind_nil; [apply fail_fast_driver_ | intros _].
      apply fail_fast_ret.
Qed.

End FailFast.

(** ** Checked calls and the shape of a device dump *)

Section Shape.

Context {hdr : VulkanHeader}.

Lemma bind_checked_success {B : Type} c result proc (f : unit -> run B) :
  result = VK_SUCCESS ->
  bind (checked c result proc) f =
  mkRun ((c, Some result) :: calls (f tt)) (out (f tt)) (err (f tt))
    (res (f tt)).
Proof.
  intros E. unfold checked, driver.
  assert (Hb : (result =? VK_SUCCESS) = true) by (apply Z.eqb_eq; exact E).
  unfold bind at 2. cbn [res]. rewrite Hb. reflexivity.
Qed.

Lemma bind_checked_failure {B : Type} c result proc (f : unit -> run B) :
  result <> VK_SUCCESS ->
  bind (checked c result proc) f =
  mkRun [(c, Some result)] [] [ErrFailed proc (result_str result) result]
    (Exited 1).
Proof.
  intros E. unfold checked, driver.
  assert (Hb : (result =? VK_SUCCESS) = false) by (apply Z.eqb_neq; exact E).
  unfold bind at 2. cbn [res]. rewrite Hb. reflexivity.
Qed.

Lemma bind_printf {B : Type} (l : stdout_line) (f : unit -> run B) :
  bind (printf l) f =
  mkRun (calls (f tt)) (l :: out (f tt)) (err (f tt)) (res (f tt)).
Proof. reflexivity. Qed.

Lemma bind_eprintf {B : Type} (l : stderr_line) (f : unit -> run B) :
  bind (eprintf l) f =
  mkRun (calls (f tt)) (out (f tt)) (l :: err (f tt)) (res (f tt)).
Proof. reflexivity. Qed.

Lemma bind_warn {A B : Type} (l : stderr_line) (a : A) (f : A -> run B) :
  bind (eprintf l ;;; ret a) f =
  mkRun (calls (f a)) (out (f a)) (l :: err (f a)) (res (f a)).
Proof. reflexivity. Qed.

(** The first line a device dump prints, once the properties query
    succeeded, is the device line. *)
Lemma DumpPhysicalDevice_first_line drv idx pdev :
  props_result (device drv pdev) = VK_SUCCESS ->
  exists rest,
    out (DumpPhysicalDevice drv idx pdev) =
    OutDevice idx (deviceName (props_out (device drv pdev)))
      (VkPhysicalDeviceTypeStr (deviceType (props_out (device drv pdev))))
      (Z.land (Z.shiftr (apiVersion (props_out (device drv pdev))) 22) 1023)
      (Z.land (Z.shiftr (apiVersion (props_out (device drv pdev))) 12) 1023)
      (Z.land (Z.shiftr (apiVersion (props_out (device drv pdev))) 0) 4095)
      (driverVersion (props_out (device drv pdev)))
      (vendorId (props_out (device drv pdev)))
      (deviceId (props_out (device drv pdev)))
    :: rest.
Proof.
  intros E. unfold DumpPhysicalDevice.
  rewrite bind_checked_success by exact E.
  rewrite bind_printf. eexists. reflexivity.
Qed.

Lemma checked_success c result proc :
  result = VK_SUCCESS ->
  checked c result proc = mkRun [(c, Some result)] [] [] (Normal tt).
Proof.
  intros E. unfold checked, driver.
  assert (Hb : (result =? VK_SUCCESS) = true) by (apply Z.eqb_eq; exact E).
  unfold bind at 1. cbn [res]. rewrite Hb. reflexivity.
Qed.

Lemma checked_failure c result proc :
  result <> VK_SUCCESS ->
  checked c result proc =
  mkRun [(c, Some result)] [] [ErrFailed proc (result_str result) result]
    (Exited 1).
Proof.
  intros E. unfold checked, driver.
  assert (Hb : (result =? VK_SUCCESS) = false) by (apply Z.eqb_neq; exact E).
  unfold bind at 1. cbn [res]. rewrite Hb. reflexivity.
Qed.

Lemma out_checked c result proc : out (checked c result proc) = [].
Proof.
  destruct (Z.eq_dec result VK_SUCCESS) as [E|E].
  - rewrite (checked_success c result proc E). reflexivity.
  - rewrite (checked_failure c result proc E). reflexivity.
Qed.

Lemma queue_family_line_cases k q :
  queue_family_line k q =
    mkRun [] (out (queue_family_line k q)) [] (Normal EmptyString) \/
  queue_family_line k q = undefined.
Proof.
  unfold queue_family_line.
  generalize (capability_string (queueFlags q)). intros [str|].
  - left. reflexivity.
  - right. reflexivity.
Qed.

Lemma queue_family_line_In k q l :
  In l (out (queue_family_line k q)) ->
  exists str,
    capability_string (queueFlags q) = Some str /\
    l = OutQueueFamily k (queueCount q) str
          (if supportsTimestamps q =? 0 then "NO" else "YES").
Proof.
  unfold queue_family_line.
  remember (capability_string (queueFlags q)) as o eqn:Ho.
  destruct o as [str|]; intros H; [|destruct H].
  destruct H as [<-|[]]. exists str. split; reflexivity.
Qed.

Lemma dump_queue_family_cases buf k :
  dump_queue_family buf k EmptyString =
    mkRun [] (family_lines buf k) [] (Normal EmptyString) \/
  dump_queue_family buf k EmptyString = undefined.
Proof.
  unfold family_lines.
  destruct (nth_error buf (Z.to_nat k)) as [q|] eqn:E.
  - rewrite (dump_queue_family_spec _ _ _ E). apply queue_family_line_cases.
  - right. unfold dump_queue_family, index. rewrite E. apply bind_undefined.
Qed.

(** Every line the queue family enumeration of a device prints is the line
    of a family of the buffer, with its capability string. *)
Lemma dump_queue_families_In pdev d l :
  In l (out (dump_queue_families pdev d EmptyString)) ->
  exists family q str,
    0 <= family < queue_values_count d /\
    nth_error (queue_family_buffer d) (Z.to_nat family) = Some q /\
    capability_string (queueFlags q) = Some str /\
    l = OutQueueFamily family (queueCount q) str
          (if supportsTimestamps q =? 0 then "NO" else "YES").
Proof.
  unfold dump_queue_families. intros H.
  apply In_out_bind in H. rewrite out_checked in H.
  destruct H as [[]|(_ & _ & H)].
  apply In_out_bind in H. rewrite out_checked in H.
  destruct H as [[]|(_ & _ & H)].
  unfold for_upto in H.
  apply (for_from_lines _ (family_lines (queue_family_buffer d))) in H.
  - destruct H as (k & Hk & Hl). apply indices_In in Hk.
    unfold family_lines in Hl.
    destruct (nth_error (queue_family_buffer d) (Z.to_nat k)) as [q|] eqn:E;
      [|destruct Hl].
    apply queue_family_line_In in Hl. destruct Hl as (str & Hc & ->).
    exists k, q, str. repeat split; tauto.
  - intros k _. apply dump_queue_family_cases.
Qed.

(** A device dump whose properties and memory queries succeed prints the
    device line, then the memory report, then what the queue family
    enumeration prints, which starts from an empty string buffer. *)
Lemma DumpPhysicalDevice_shape drv idx pdev :
  props_result (device drv pdev) = VK_SUCCESS ->
  mem_result (device drv pdev) = VK_SUCCESS ->
  memory_within (mem_out (device drv pdev)) ->
  out (DumpPhysicalDevice drv idx pdev) =
    OutDevice idx (deviceName (props_out (device drv pdev)))
      (VkPhysicalDeviceTypeStr (deviceType (props_out (device drv pdev))))
      (Z.land (Z.shiftr (apiVersion (props_out (device drv pdev))) 22) 1023)
      (Z.land (Z.shiftr (apiVersion (props_out (device drv pdev))) 12) 1023)
      (Z.land (Z.shiftr (apiVersion (props_out (device drv pdev))) 0) 4095)
      (driverVersion (props_out (device drv pdev)))
      (vendorId (props_out (device drv pdev)))
      (deviceId (props_out (device drv pdev)))
    :: memory_report (mem_out (device drv pdev))
    ++ out (dump_queue_families pdev (device drv pdev) EmptyString) /\
  err (DumpPhysicalDevice drv idx pdev) =
    err (dump_queue_families pdev (device drv pdev) EmptyString).
Proof.
  intros H1 H2 Hw. unfold DumpPhysicalDevice.
  rewrite (bind_checked_success _ _ _ _ H1), bind_printf.
  rewrite (bind_checked_success _ _ _ _ H2).
  rewrite (dump_memory_spec _ Hw), bind_pure. cbn [out err].
  rewrite out_bind_ret, err_bind_ret. split; reflexivity.
Qed.

Lemma main_returns_zero argc argv drv c :
  res (main argc argv drv) = Normal c -> c = 0.
Proof.
  unfold main. intros H.
  repeat (apply res_bind_normal in H; destruct H as (? & _ & H)).
  injection H as <-. reflexivity.
Qed.

End Shape.

(** ** Extraction of bit fields *)

Lemma field_bits (v shift width i : Z) :
  0 <= shift -> 0 <= width -> 0 <= i ->
  Z.testbit (Z.land (Z.shiftr v shift) (Z.ones width)) i =
  Z.testbit v (i + shift) && (i <? width).
Proof.
  intros Hs Hw Hi.
  rewrite Z.land_spec, Z.shiftr_spec, Z.testbit_ones_nonneg by assumption.
  reflexivity.
Qed.

Lemma field_value (v shift width : Z) :
  0 <= shift -> 0 <= width ->
  Z.land (Z.shiftr v shift) (Z.ones width) = (v / 2 ^ shift) mod 2 ^ width.
Proof.
  intros Hs Hw. rewrite Z.land_ones, Z.shiftr_div_pow2 by assumption.
  reflexivity.
Qed.

Lemma version_recomposed (v : Z) :
  is_u32 v ->
  v = ((v / 2 ^ 22) mod 2 ^ 10) * 2 ^ 22
      + ((v / 2 ^ 12) mod 2 ^ 10) * 2 ^ 12
      + (v / 2 ^ 0) mod 2 ^ 12.
Proof.
  unfold is_u32. intros Hv.
  change (2 ^ 32) with 4294967296 in Hv.
  change (2 ^ 22) with 4194304. change (2 ^ 12) with 4096.
  change (2 ^ 10) with 1024. change (2 ^ 0) with 1.
  rewrite Z.div_1_r.
  pose proof (Z.div_mod v 4194304 ltac:(lia)) as H1.
  pose proof (Z.mod_pos_bound v 4194304 ltac:(lia)) as H1'.
  pose proof (Z.div_mod v 4096 ltac:(lia)) as H2.
  pose proof (Z.mod_pos_bound v 4096 ltac:(lia)) as H2'.
  pose proof (Z.div_mod (v / 4096) 1024 ltac:(lia)) as H3.
  pose proof (Z.mod_pos_bound (v / 4096) 1024 ltac:(lia)) as H3'.
  assert (H4 : v / 4096 / 1024 = v / 4194304)
    by (rewrite Z.div_div by lia; reflexivity).
  rewrite H4 in H3.
  assert (H5 : (v / 4194304) mod 1024 = v / 4194304)
    by (apply Z.mod_small; lia).
  rewrite H5. lia.
Qed.

(** * Properties of the specification *)

(** C8. The program consumes no command-line arguments: for any two argument
    vectors, two runs against the same driver responses write the same text
    to standard output and to standard error and end with the same exit
    code; indeed the two runs are the same run. *)
Theorem C8_arguments_not_consumed (hdr : VulkanHeader) (drv : Driver)
  (argc1 argc2 : Z) (argv1 argv2 : list string) :
  render_stdout (out (main argc1 argv1 drv)) =
  render_stdout (out (main argc2 argv2 drv)) /\
  render_stderr (err (main argc1 argv1 drv)) =
  render_stderr (err (main argc2 argv2 drv)) /\
  exit_code (main argc1 argv1 drv) = exit_code (main argc2 argv2 drv) /\
  main argc1 argv1 drv = main argc2 argv2 drv.
Proof. repeat split. Qed.

(** C4. For every packed 32-bit API version, the device line carries the
    three fields major = bits 31..22, minor = bits 21..12 and patch = bits
    11..0 of the version, which together make up the whole word, and prints
    them in decimal separated by dots; for the version 0x00401003 the triple
    is (1, 1, 3) and the text printed for it is 1.1.3. *)
Theorem C4_version_triple (hdr : VulkanHeader) (drv : Driver)
  (idx pdev : Z) :
  props_result (device drv pdev) = VK_SUCCESS ->
  is_u32 (apiVersion (props_out (device drv pdev))) ->
  exists major minor patch rest,
    out (DumpPhysicalDevice drv idx pdev) =
    OutDevice idx (deviceName (props_out (device drv pdev)))
      (VkPhysicalDeviceTypeStr (deviceType (props_out (device drv pdev))))
      major minor patch
      (driverVersion (props_out (device drv pdev)))
      (vendorId (props_out (device drv pdev)))
      (deviceId (props_out (device drv pdev)))
    :: rest /\
    (forall i, 0 <= i ->
       Z.testbit major i =
       Z.testbit (apiVersion (props_out (device drv pdev))) (i + 22)
       && (i <? 10)) /\
    (forall i, 0 <= i ->
       Z.testbit minor i =
       Z.testbit (apiVersion (props_out (device drv pdev))) (i + 12)
       && (i <? 10)) /\
    (forall i, 0 <= i ->
       Z.testbit patch i =
       Z.testbit (apiVersion (props_out (device drv pdev))) (i + 0)
       && (i <? 12)) /\
    apiVersion (props_out (device drv pdev)) =
    major * 2 ^ 22 + minor * 2 ^ 12 + patch /\
    (forall name type driver vendor dev,
       render_stdout_line
         (OutDevice idx name type major minor patch driver vendor dev) =
       "  " ^^ Fmt.dec_u idx ^^ ": " ^^ Fmt.dquote ^^ name ^^ Fmt.dquote
       ^^ " (" ^^ type ^^ ") "
       ^^ Fmt.dec_u major ^^ "." ^^ Fmt.dec_u minor ^^ "." ^^ Fmt.dec_u patch
       ^^ "/" ^^ Fmt.hex_alt driver
       ^^ " [" ^^ Fmt.hex04 vendor ^^ ":" ^^ Fmt.hex04 dev ^^ "]" ^^ Fmt.nl) /\
    (apiVersion (props_out (device drv pdev)) = 4198403 ->
     (major, minor, patch) = (1, 1, 3) /\
     Fmt.dec_u major ^^ "." ^^ Fmt.dec_u minor ^^ "." ^^ Fmt.dec_u patch
     = "1.1.3"%string).
Proof.
  intros Hok Hv.
  destruct (DumpPhysicalDevice_first_line drv idx pdev Hok) as [rest Hout].
  eexists _, _, _, rest. split; [exact Hout|].
  change 1023 with (Z.ones 10). change 4095 with (Z.ones 12).
  split; [intros i Hi; apply field_bits; lia|].
  split; [intros i Hi; apply field_bits; lia|].
  split; [intros i Hi; apply field_bits; lia|].
  split; [rewrite !field_value by lia; apply version_recomposed; exact Hv|].
  split; [intros name type driver vendor dev; reflexivity|].
  intros E. rewrite E. split; reflexivity.
Qed.

(** The device line of the first sample device. *)
Lemma C4_version_triple_witness :
  props_result (device Sample.steady 10) = VK_SUCCESS (VulkanHeader := vulkan_h)
  /\ is_u32 (apiVersion (props_out (device Sample.steady 10)))
  /\ exists major minor patch rest,
       out (DumpPhysicalDevice (hdr := vulkan_h) Sample.steady 0 10) =
       OutDevice 0 "gpu" "DISCRETE_GPU" major minor patch 17 4098 171 :: rest
       /\ (major, minor, patch) = (1, 1, 3).
Proof.
  split; [reflexivity|]. split; [unfold is_u32; simpl; lia|].
  destruct (C4_version_triple vulkan_h Sample.steady 0 10)
    as (major & minor & patch & rest & Hout & _ & _ & _ & _ & _ & Hex).
  - reflexivity.
  - unfold is_u32; simpl; lia.
  - exists major, minor, patch, rest. split; [exact Hout|].
    apply Hex. reflexivity.
Defined.

(** ** Facts about the memory report *)

Section MemoryReport.

Context {hdr : VulkanHeader}.

Variable mp : VkPhysicalDeviceMemoryProperties.
Hypothesis within : memory_within mp.

Lemma type_line_In h t' t str :
  In (OutType t str) (type_line mp h t') ->
  t' = t /\
  exists mt, nth_error (memoryTypes mp) (Z.to_nat t) = Some mt /\
             heapIndex mt = h /\ str = flag_string (propertyFlags mt).
Proof.
  unfold type_line.
  destruct (nth_error (memoryTypes mp) (Z.to_nat t')) as [mt|] eqn:E;
    [|intros []].
  destruct (Z.eqb_spec (heapIndex mt) h) as [Eh|Eh]; [|intros []].
  intros [H|[]]. injection H as <- <-.
  split; [reflexivity|]. exists mt. repeat split; assumption.
Qed.

Lemma heap_block_In h t str :
  In (OutType t str) (heap_block mp h) ->
  0 <= t < memoryTypeCount mp /\
  exists mt, nth_error (memoryTypes mp) (Z.to_nat t) = Some mt /\
             heapIndex mt = h /\ str = flag_string (propertyFlags mt).
Proof.
  unfold heap_block.
  destruct (nth_error (memoryHeaps mp) (Z.to_nat h)); [|intros []].
  intros [H|H]; [discriminate H|].
  apply in_flat_map in H. destruct H as (t' & Ht' & H).
  apply type_line_In in H. destruct H as [<- H].
  split; [apply indices_In; exact Ht' | exact H].
Qed.

(** The type lines of the report are those of the types that name a heap
    of the device, each with the flag string of its type. *)
Lemma memory_report_In t str :
  In (OutType t str) (memory_report mp) <->
  0 <= t < memoryTypeCount mp /\
  exists mt, nth_error (memoryTypes mp) (Z.to_nat t) = Some mt /\
             0 <= heapIndex mt < memoryHeapCount mp /\
             str = flag_string (propertyFlags mt).
Proof.
  unfold memory_report. rewrite in_flat_map. split.
  - intros (h & Hh & H). apply indices_In in Hh.
    apply heap_block_In in H. destruct H as (Ht & mt & Hmt & E & Hs).
    split; [exact Ht|]. exists mt. subst h. repeat split; tauto.
  - intros (Ht & mt & Hmt & Hh & Hs). exists (heapIndex mt).
    split; [apply indices_In; exact Hh|].
    destruct within as [_ Hwh].
    destruct (nth_error_within (memoryHeaps mp) _ _ Hwh Hh) as [mh Hmh].
    unfold heap_block. rewrite Hmh. right.
    apply in_flat_map. exists t. split; [apply indices_In; exact Ht|].
    unfold type_line. rewrite Hmt, Z.eqb_refl, Hs. left. reflexivity.
Qed.

Lemma type_indices_app l1 l2 :
  type_indices (l1 ++ l2) = type_indices l1 ++ type_indices l2.
Proof. apply flat_map_app. Qed.

Lemma type_indices_type_lines h (n : nat) : forall i,
  type_indices (flat_map (type_line mp h) (indices_from n i)) =
  filter (owned_by mp h) (indices_from n i).
Proof.
  induction n as [|n IH]; intros i; cbn [indices_from flat_map filter];
    [reflexivity|].
  rewrite type_indices_app, IH. unfold type_line, owned_by.
  destruct (nth_error (memoryTypes mp) (Z.to_nat i)) as [mt|];
    [|reflexivity].
  destruct (heapIndex mt =? h); reflexivity.
Qed.

Lemma heap_indices_type_lines h (l : list Z) :
  heap_indices (flat_map (type_line mp h) l) = [].
Proof.
  unfold heap_indices. induction l as [|t l IH]; [reflexivity|].
  cbn [flat_map]. rewrite flat_map_app, IH, app_nil_r. unfold type_line.
  destruct (nth_error (memoryTypes mp) (Z.to_nat t)) as [mt|];
    [|reflexivity].
  destruct (heapIndex mt =? h); reflexivity.
Qed.

Lemma heap_block_defined h :
  0 <= h < memoryHeapCount mp ->
  exists mh,
    nth_error (memoryHeaps mp) (Z.to_nat h) = Some mh /\
    heap_block mp h =
    OutHeap h (size mh)
      (if Z.land (flags mh) VK_MEMORY_HEAP_HOST_LOCAL_BIT =? 0
       then EmptyString else "HOST_LOCAL")
    :: flat_map (type_line mp h) (indices (memoryTypeCount mp)).
Proof.
  intros Hh. destruct within as [_ Hwh].
  destruct (nth_error_within (memoryHeaps mp) _ h Hwh Hh) as [mh Hmh].
  exists mh. split; [exact Hmh|]. unfold heap_block. rewrite Hmh.
  reflexivity.
Qed.

Lemma heap_indices_blocks (n : nat) : forall i,
  0 <= i -> i + Z.of_nat n <= memoryHeapCount mp ->
  heap_indices (flat_map (heap_block mp) (indices_from n i)) =
  indices_from n i.
Proof.
  induction n as [|n IH]; intros i Hi Hn; cbn [indices_from flat_map];
    [reflexivity|].
  destruct (heap_block_defined i ltac:(lia)) as (mh & _ & Hb).
  rewrite Hb. unfold heap_indices in *.
  rewrite flat_map_app, IH by lia. cbn [flat_map app].
  rewrite (heap_indices_type_lines i). reflexivity.
Qed.

Lemma count_type_lines h t mt (n : nat) :
  nth_error (memoryTypes mp) (Z.to_nat t) = Some mt ->
  forall i, 0 <= i ->
  List.length
    (filter (is_type_line t) (flat_map (type_line mp h) (indices_from n i)))
  = if (i <=? t) && (t <? i + Z.of_nat n) && (heapIndex mt =? h)
    then 1%nat else 0%nat.
Proof.
  intros Hmt. induction n as [|n IH]; intros i Hi;
    cbn [indices_from flat_map].
  - case_bools.
  - rewrite filter_app, length_app, IH by lia.
    unfold type_line at 1.
    destruct (Z.eq_dec i t) as [->|Hne].
    + rewrite Hmt. destruct (Z.eqb_spec (heapIndex mt) h) as [Eh|Eh].
      * cbn [filter is_type_line]. rewrite Z.eqb_refl. case_bools.
      * case_bools.
    + assert (Hskip :
        List.length
          (filter (is_type_line t)
             match nth_error (memoryTypes mp) (Z.to_nat i) with
             | Some mt0 =>
                 if heapIndex mt0 =? h
                 then [OutType i (flag_string (propertyFlags mt0))]
                 else []
             | None => []
             end) = 0%nat).
      { destruct (nth_error (memoryTypes mp) (Z.to_nat i)) as [mt'|];
          [|reflexivity].
        destruct (heapIndex mt' =? h); [|reflexivity].
        cbn [filter is_type_line].
        destruct (Z.eqb_spec i t); [contradiction | reflexivity]. }
      rewrite Hskip. case_bools.
Qed.

(** Heap [h] carries the line of a type once if the type names it, and
    not at all otherwise. *)
Lemma count_heap_block h t mt :
  0 <= h < memoryHeapCount mp ->
  0 <= t < memoryTypeCount mp ->
  nth_error (memoryTypes mp) (Z.to_nat t) = Some mt ->
  List.length (filter (is_type_line t) (heap_block mp h)) =
  if heapIndex mt =? h then 1%nat else 0%nat.
Proof.
  intros Hh Ht Hmt. destruct (heap_block_defined h Hh) as (mh & _ & Hb).
  rewrite Hb. cbn [filter is_type_line]. unfold indices.
  rewrite (count_type_lines h t mt) by (assumption || lia).
  case_bools.
Qed.

Lemma count_blocks t mt (n : nat) :
  0 <= t < memoryTypeCount mp ->
  nth_error (memoryTypes mp) (Z.to_nat t) = Some mt ->
  forall i, 0 <= i -> i + Z.of_nat n <= memoryHeapCount mp ->
  List.length
    (filter (is_type_line t) (flat_map (heap_block mp) (indices_from n i)))
  = if (i <=? heapIndex mt) && (heapIndex mt <? i + Z.of_nat n)
    then 1%nat else 0%nat.
Proof.
  intros Ht Hmt. induction n as [|n IH]; intros i Hi Hn;
    cbn [indices_from flat_map].
  - case_bools.
  - rewrite filter_app, length_app, IH by lia.
    rewrite (count_heap_block i t mt) by (assumption || lia).
    case_bools.
Qed.

End MemoryReport.

(** ** Single bits *)

Lemma land_pow2 (a b : Z) :
  0 <= a -> 0 <= b ->
  Z.land (2 ^ a) (2 ^ b) = if a =? b then 2 ^ a else 0.
Proof.
  intros Ha Hb. destruct (Z.eqb_spec a b) as [->|Hne].
  - apply Z.land_diag.
  - apply Z.bits_inj'. intros n Hn.
    rewrite Z.land_spec, !Z.pow2_bits_eqb, Z.bits_0 by assumption.
    destruct (Z.eqb_spec a n), (Z.eqb_spec b n); try reflexivity. lia.
Qed.

Lemma land_two_bits (a b c : Z) :
  0 <= a -> 0 <= b -> 0 <= c ->
  Z.land (Z.lor (2 ^ a) (2 ^ b)) (2 ^ c) =
  if (a =? c) || (b =? c) then 2 ^ c else 0.
Proof.
  intros Ha Hb Hc. rewrite Z.land_lor_distr_l, !land_pow2 by assumption.
  destruct (Z.eqb_spec a c) as [->|], (Z.eqb_spec b c) as [->|];
    cbn [orb]; try reflexivity.
  - apply Z.lor_diag.
  - apply Z.lor_0_r.
Qed.

Lemma pow2_nonzero (a : Z) : 0 <= a -> 2 ^ a <> 0.
Proof. intros Ha. pose proof (Z.pow_pos_nonneg 2 a). lia. Qed.

Lemma lor_pow2_nonzero (a b : Z) : 0 <= a -> Z.lor (2 ^ a) (2 ^ b) <> 0.
Proof.
  intros Ha H. apply Z.lor_eq_0_iff in H. destruct H as [H _].
  exact (pow2_nonzero a Ha H).
Qed.

(** ** Replacing an entry of a list *)

Lemma flat_map_ext_In {A B : Type} (f g : A -> list B) (l : list A) :
  (forall a, In a l -> f a = g a) -> flat_map f l = flat_map g l.
Proof.
  induction l as [|a l IH]; intros H; [reflexivity|].
  cbn [flat_map]. rewrite (H a) by (left; reflexivity).
  rewrite IH by (intros b Hb; apply H; right; exact Hb). reflexivity.
Qed.

Lemma update_nth_cons {A : Type} (n : nat) (a x : A) (l : list A) :
  update_nth (S n) a (x :: l) = x :: update_nth n a l.
Proof. reflexivity. Qed.

Lemma nth_error_update_nth {A : Type} (a : A) (l : list A) : forall n k,
  (n < List.length l)%nat ->
  nth_error (update_nth n a l) k =
  if (k =? n)%nat then Some a else nth_error l k.
Proof.
  induction l as [|x l IH]; intros n k Hn; [simpl in Hn; lia|].
  destruct n as [|n].
  - destruct k; reflexivity.
  - rewrite update_nth_cons. destruct k as [|k]; [reflexivity|].
    cbn [nth_error Nat.eqb]. apply IH. simpl in Hn. lia.
Qed.

Lemma length_update_nth {A : Type} (a : A) (l : list A) : forall n,
  (n < List.length l)%nat -> List.length (update_nth n a l) = List.length l.
Proof.
  induction l as [|x l IH]; intros n Hn; [simpl in Hn; lia|].
  destruct n as [|n]; [reflexivity|].
  rewrite update_nth_cons. cbn [List.length]. rewrite IH; [reflexivity|].
  simpl in Hn. lia.
Qed.

Section MemoryClaims.

Context {hdr : VulkanHeader}.

Lemma flag_string_host_visible_non_coherent :
  VK_MEMORY_PROPERTY_DEVICE_ONLY = 0 ->
  distinct_bits
    [ VK_MEMORY_PROPERTY_HOST_VISIBLE_BIT;
      VK_MEMORY_PROPERTY_HOST_NON_COHERENT_BIT;
      VK_MEMORY_PROPERTY_HOST_UNCACHED_BIT;
      VK_MEMORY_PROPERTY_HOST_WRITE_COMBINED_BIT;
      VK_MEMORY_PROPERTY_LAZILY_ALLOCATED_BIT ] ->
  flag_string
    (Z.lor VK_MEMORY_PROPERTY_HOST_VISIBLE_BIT
       VK_MEMORY_PROPERTY_HOST_NON_COHERENT_BIT)
  = "HOST_VISIBLE NON_COHERENT"%string.
Proof.
  intros Hd (ks & Hks & Hnd & Hpos).
  destruct ks as [|a [|b [|c [|d [|e [|? ?]]]]]]; try discriminate Hks.
  injection Hks as Ha Hb Hc Hd' He.
  repeat match goal with
         | H : Forall _ (_ :: _) |- _ => inversion H; clear H; subst
         | H : NoDup (_ :: _) |- _ => inversion H; clear H; subst
         end.
  repeat match goal with
         | H : ~ In _ _ |- _ => cbn [In] in H
         end.
  rewrite <- memory_type_flags_spec. unfold memory_type_flags.
  rewrite Hd, Ha, Hb, Hc, Hd', He.
  rewrite !land_two_bits by assumption.
  destruct (Z.eqb_spec (Z.lor (2 ^ a) (2 ^ b)) 0) as [E|_];
    [exfalso; exact (lor_pow2_nonzero a b ltac:(assumption) E)|].
  rewrite !Z.eqb_refl, orb_true_r. cbn [orb].
  destruct (Z.eqb_spec (2 ^ a) 0) as [E|_];
    [exfalso; exact (pow2_nonzero a ltac:(assumption) E)|].
  destruct (Z.eqb_spec (2 ^ b) 0) as [E|_];
    [exfalso; exact (pow2_nonzero b ltac:(assumption) E)|].
  destruct (Z.eqb_spec a c); [subst; tauto|].
  destruct (Z.eqb_spec b c); [subst; tauto|].
  destruct (Z.eqb_spec a d); [subst; tauto|].
  destruct (Z.eqb_spec b d); [subst; tauto|].
  destruct (Z.eqb_spec a e); [subst; tauto|].
  destruct (Z.eqb_spec b e); [subst; tauto|].
  reflexivity.
Qed.

Lemma memory_within_replace mp t mt :
  memory_within mp -> 0 <= t < memoryTypeCount mp ->
  memory_within (replace_memory_type mp t mt).
Proof.
  intros [Hwt Hwh] Ht. split; cbn [replace_memory_type memoryTypeCount
    memoryTypes memoryHeapCount memoryHeaps]; [|exact Hwh].
  rewrite length_update_nth by lia. exact Hwt.
Qed.

(** Replacing a type that names no heap of the device by another such
    type leaves the report as it is. *)
Lemma memory_report_replace mp t mt mt' :
  memory_within mp -> 0 <= t < memoryTypeCount mp ->
  nth_error (memoryTypes mp) (Z.to_nat t) = Some mt ->
  ~ 0 <= heapIndex mt < memoryHeapCount mp ->
  ~ 0 <= heapIndex mt' < memoryHeapCount mp ->
  memory_report (replace_memory_type mp t mt') = memory_report mp.
Proof.
  intros [Hwt Hwh] Ht Hmt Ho Ho'. unfold memory_report.
  cbn [replace_memory_type memoryHeapCount].
  apply flat_map_ext_In. intros h Hh. apply indices_In in Hh.
  unfold heap_block. cbn [replace_memory_type memoryHeaps memoryTypeCount].
  destruct (nth_error (memoryHeaps mp) (Z.to_nat h)); [|reflexivity].
  f_equal. apply flat_map_ext_In. intros t' Ht'. apply indices_In in Ht'.
  unfold type_line. cbn [replace_memory_type memoryTypes].
  rewrite nth_error_update_nth by lia.
  destruct (Nat.eqb_spec (Z.to_nat t') (Z.to_nat t)) as [E|E];
    [|reflexivity].
  rewrite E, Hmt.
  destruct (Z.eqb_spec (heapIndex mt') h); [lia|].
  destruct (Z.eqb_spec (heapIndex mt) h); [lia|]. reflexivity.
Qed.

End MemoryClaims.

(** C5. For every memory type the flag string printed on its line is built
    by the fixed order of checks: DEVICE_ONLY by exact equality first, then
    HOST_VISIBLE, NON_COHERENT, UNCACHED, WRITE_COMBINED and LAZILY_ALLOCATED,
    each appended only if its bit is set.  When DEVICE_ONLY is the empty flag
    word and the five flags are distinct single bits, a memory type with flags
    HOST_VISIBLE | HOST_NON_COHERENT is printed with exactly the string
    HOST_VISIBLE NON_COHERENT. *)
Theorem C5_memory_type_flag_string (hdr : VulkanHeader)
  (mp : VkPhysicalDeviceMemoryProperties) :
  memory_within mp ->
  (forall t str,
     In (OutType t str) (out (dump_memory mp EmptyString)) ->
     exists mt,
       nth_error (memoryTypes mp) (Z.to_nat t) = Some mt /\
       str = memory_type_flags (propertyFlags mt) EmptyString /\
       str = String.concat EmptyString
               (map snd
                  (filter (fun c => fst c (propertyFlags mt))
                     memory_flag_checks))) /\
  (VK_MEMORY_PROPERTY_DEVICE_ONLY = 0 ->
   distinct_bits
     [ VK_MEMORY_PROPERTY_HOST_VISIBLE_BIT;
       VK_MEMORY_PROPERTY_HOST_NON_COHERENT_BIT;
       VK_MEMORY_PROPERTY_HOST_UNCACHED_BIT;
       VK_MEMORY_PROPERTY_HOST_WRITE_COMBINED_BIT;
       VK_MEMORY_PROPERTY_LAZILY_ALLOCATED_BIT ] ->
   forall t mt,
     0 <= t < memoryTypeCount mp ->
     nth_error (memoryTypes mp) (Z.to_nat t) = Some mt ->
     0 <= heapIndex mt < memoryHeapCount mp ->
     propertyFlags mt =
       Z.lor VK_MEMORY_PROPERTY_HOST_VISIBLE_BIT
         VK_MEMORY_PROPERTY_HOST_NON_COHERENT_BIT ->
     In (OutType t "HOST_VISIBLE NON_COHERENT")
        (out (dump_memory mp EmptyString)) /\
     forall str,
       In (OutType t str) (out (dump_memory mp EmptyString)) ->
       str = "HOST_VISIBLE NON_COHERENT"%string).
Proof.
  intros Hw. rewrite (dump_memory_spec mp Hw). cbn [out]. split.
  - intros t str H. apply (memory_report_In mp Hw) in H.
    destruct H as (_ & mt & Hmt & _ & Hs). exists mt.
    split; [exact Hmt|]. split; [|exact Hs].
    rewrite memory_type_flags_spec. exact Hs.
  - intros Hd Hbits t mt Ht Hmt Hh Hf. split.
    + apply (memory_report_In mp Hw). split; [exact Ht|]. exists mt.
      split; [exact Hmt|]. split; [exact Hh|].
      rewrite Hf. symmetry.
      apply flag_string_host_visible_non_coherent; assumption.
    + intros str H. apply (memory_report_In mp Hw) in H.
      destruct H as (_ & mt' & Hmt' & _ & Hs).
      rewrite Hmt in Hmt'. injection Hmt' as <-. rewrite Hs, Hf.
      apply flag_string_host_visible_non_coherent; assumption.
Qed.

(** Memory type 0 of the sample device has the flags HOST_VISIBLE |
    HOST_NON_COHERENT. *)
Lemma C5_memory_type_flag_string_witness :
  memory_within Sample.mem /\
  In (OutType 0 "HOST_VISIBLE NON_COHERENT")
     (out (dump_memory (hdr := vulkan_h) Sample.mem EmptyString)).
Proof.
  assert (Hw : memory_within Sample.mem)
    by (unfold memory_within; simpl; lia).
  split; [exact Hw|].
  destruct (C5_memory_type_flag_string vulkan_h Sample.mem Hw) as [_ Hex].
  refine (proj1 (Hex eq_refl _ 0 {| propertyFlags := 3; heapIndex := 1 |}
                   _ eq_refl _ eq_refl)).
  - exists [0; 1; 2; 3; 4]. split; [reflexivity|]. split.
    + repeat constructor; simpl; lia.
    + repeat constructor; lia.
  - simpl; lia.
  - simpl; lia.
Defined.

(** C9. A memory type whose heap index is not in the range [0, heap count)
    of its device is silently left out of the memory report: no type line is
    printed for its index, nothing is written to standard error and the report
    runs to its end, and the report is the same whatever such a type holds,
    so that every other line is as it would be without it. *)
Theorem C9_orphan_type_omitted (hdr : VulkanHeader)
  (mp : VkPhysicalDeviceMemoryProperties) (t : Z) (mt : VkMemoryType) :
  memory_within mp ->
  0 <= t < memoryTypeCount mp ->
  nth_error (memoryTypes mp) (Z.to_nat t) = Some mt ->
  ~ 0 <= heapIndex mt < memoryHeapCount mp ->
  (forall str, ~ In (OutType t str) (out (dump_memory mp EmptyString))) /\
  err (dump_memory mp EmptyString) = [] /\
  res (dump_memory mp EmptyString) = Normal EmptyString /\
  (forall mt',
     ~ 0 <= heapIndex mt' < memoryHeapCount mp ->
     dump_memory (replace_memory_type mp t mt') EmptyString =
     dump_memory mp EmptyString).
Proof.
  intros Hw Ht Hmt Ho. rewrite (dump_memory_spec mp Hw). cbn [out err res].
  split; [|split; [reflexivity|split; [reflexivity|]]].
  - intros str H. apply (memory_report_In mp Hw) in H.
    destruct H as (_ & mt' & Hmt' & Hh & _).
    rewrite Hmt in Hmt'. injection Hmt' as <-. exact (Ho Hh).
  - intros mt' Ho'.
    rewrite (dump_memory_spec _ (memory_within_replace mp t mt' Hw Ht)).
    rewrite (memory_report_replace mp t mt mt' Hw Ht Hmt Ho Ho').
    reflexivity.
Qed.

(** Memory type 2 of the sample device names heap 7 of two. *)
Lemma C9_orphan_type_omitted_witness :
  memory_within Sample.mem /\
  (forall str,
     ~ In (OutType 2 str)
          (out (dump_memory (hdr := vulkan_h) Sample.mem EmptyString))) /\
  err (dump_memory (hdr := vulkan_h) Sample.mem EmptyString) = [].
Proof.
  assert (Hw : memory_within Sample.mem)
    by (unfold memory_within; simpl; lia).
  split; [exact Hw|].
  destruct (C9_orphan_type_omitted vulkan_h Sample.mem 2
              {| propertyFlags := 1; heapIndex := 7 |} Hw)
    as (Hnone & Herr & _).
  - simpl; lia.
  - reflexivity.
  - simpl; lia.
  - split; [exact Hnone | exact Herr].
Defined.

(** C10. Within one device's memory report the heaps appear in ascending
    index order, each heap line is followed by the lines of the types that
    name this heap, in ascending type index, and the line of a memory type
    appears exactly once, under the heap it names, when its heap index is
    valid, and under no heap otherwise. *)
Theorem C10_types_nested_under_heaps (hdr : VulkanHeader)
  (mp : VkPhysicalDeviceMemoryProperties) :
  memory_within mp ->
  out (dump_memory mp EmptyString) =
    flat_map (heap_block mp) (indices (memoryHeapCount mp)) /\
  heap_indices (out (dump_memory mp EmptyString)) =
    indices (memoryHeapCount mp) /\
  (forall h, 0 <= h < memoryHeapCount mp ->
     (exists mh, nth_error (memoryHeaps mp) (Z.to_nat h) = Some mh /\
        heap_block mp h =
        OutHeap h (size mh)
          (if Z.land (flags mh) VK_MEMORY_HEAP_HOST_LOCAL_BIT =? 0
           then EmptyString else "HOST_LOCAL")
        :: flat_map (type_line mp h) (indices (memoryTypeCount mp))) /\
     type_indices (heap_block mp h) =
       filter (owned_by mp h) (indices (memoryTypeCount mp))) /\
  (forall t mt,
     0 <= t < memoryTypeCount mp ->
     nth_error (memoryTypes mp) (Z.to_nat t) = Some mt ->
     List.length
       (filter (is_type_line t) (out (dump_memory mp EmptyString))) =
       (if (0 <=? heapIndex mt) && (heapIndex mt <? memoryHeapCount mp)
        then 1%nat else 0%nat) /\
     forall h, 0 <= h < memoryHeapCount mp ->
       List.length (filter (is_type_line t) (heap_block mp h)) =
       if heapIndex mt =? h then 1%nat else 0%nat) /\
  (forall drv idx pdev,
     props_result (device drv pdev) = VK_SUCCESS ->
     mem_result (device drv pdev) = VK_SUCCESS ->
     mem_out (device drv pdev) = mp ->
     exists device_line,
       out (DumpPhysicalDevice drv idx pdev) =
       device_line :: out (dump_memory mp EmptyString)
       ++ out (dump_queue_families pdev (device drv pdev) EmptyString)).
Proof.
  intros Hw. rewrite (dump_memory_spec mp Hw). cbn [out].
  split; [reflexivity|]. pose proof Hw as [Hwt Hwh].
  split; [|split; [|split]].
  - unfold memory_report, indices. apply (heap_indices_blocks mp Hw); lia.
  - intros h Hh. split; [exact (heap_block_defined mp Hw h Hh)|].
    destruct (heap_block_defined mp Hw h Hh) as (mh & _ & Hb).
    rewrite Hb. unfold type_indices. cbn [flat_map app].
    apply (type_indices_type_lines mp).
  - intros t mt Ht Hmt. split.
    + unfold memory_report, indices.
      rewrite (count_blocks mp Hw t mt _ Ht Hmt) by lia.
      replace (0 + Z.of_nat (Z.to_nat (memoryHeapCount mp)))
        with (memoryHeapCount mp) by lia.
      reflexivity.
    + intros h Hh. exact (count_heap_block mp Hw h t mt Hh Ht Hmt).
  - intros drv idx pdev H1 H2 Hmp. rewrite <- Hmp in Hw |- *.
    eexists. exact (proj1 (DumpPhysicalDevice_shape drv idx pdev H1 H2 Hw)).
Qed.

(** The memory report of the sample device. *)
Lemma C10_types_nested_under_heaps_witness :
  memory_within Sample.mem /\
  out (dump_memory (hdr := vulkan_h) Sample.mem EmptyString) =
  [ OutHeap 0 268435456 EmptyString; OutType 1 "DEVICE_ONLY";
    OutHeap 1 4096 "HOST_LOCAL"; OutType 0 "HOST_VISIBLE NON_COHERENT";
    OutType 3 "HOST_VISIBLE WRITE_COMBINED" ].
Proof.
  assert (Hw : memory_within Sample.mem)
    by (unfold memory_within; simpl; lia).
  split; [exact Hw|].
  rewrite (proj1 (C10_types_nested_under_heaps vulkan_h Sample.mem Hw)).
  reflexivity.
Defined.

(** ** Set bits in ascending order *)

Lemma scan_sorted (f : Z -> bool) (n : nat) : forall i,
  StronglySorted Z.lt (scan f n i).
Proof.
  induction n as [|n IH]; intros i; cbn [scan]; [constructor|].
  destruct (f i); [|apply IH].
  constructor; [apply IH|].
  apply Forall_forall. intros k Hk. apply scan_In in Hk. lia.
Qed.

Lemma bit_positions_In (x k : Z) :
  In k (bit_positions x) <-> 0 <= k < 32 /\ Z.testbit x k = true.
Proof.
  unfold bit_positions. rewrite scan_In. simpl Z.of_nat.
  split; intros [H1 H2]; (split; [lia | exact H2]).
Qed.

Lemma to_int32_small (x : Z) :
  - 2 ^ 31 <= x < 2 ^ 31 -> to_int32 x = x.
Proof.
  intros Hx. unfold to_int32.
  change (2 ^ 31) with 2147483648 in *. change (2 ^ 32) with 4294967296.
  rewrite Z.mod_small by lia. lia.
Qed.

Lemma two_bits_testbit (i j k : Z) :
  0 <= i -> 0 <= j ->
  Z.testbit (Z.lor (2 ^ i) (2 ^ j)) k = (i =? k) || (j =? k).
Proof.
  intros Hi Hj. rewrite Z.lor_spec, !Z.pow2_bits_eqb by assumption.
  reflexivity.
Qed.

(** A word with two bits set has the lower position first. *)
Lemma bit_positions_two_bits (i j : Z) :
  0 <= i < j -> j < 32 ->
  bit_positions (Z.lor (2 ^ i) (2 ^ j)) = [i; j].
Proof.
  intros Hij Hj. unfold bit_positions.
  rewrite (scan_first _ 32 0 i).
  - f_equal. rewrite (scan_first _ _ (i + 1) j).
    + f_equal. apply scan_none. intros k Hk.
      rewrite two_bits_testbit by lia. case_bools.
    + lia.
    + rewrite two_bits_testbit by lia. case_bools.
    + intros k Hk. rewrite two_bits_testbit by lia. case_bools.
  - simpl Z.of_nat. lia.
  - rewrite two_bits_testbit by lia. case_bools.
  - intros k Hk. rewrite two_bits_testbit by lia. case_bools.
Qed.

(** A word with one bit set has the position of that bit alone. *)
Lemma bit_positions_one_bit (k : Z) :
  0 <= k < 32 -> bit_positions (2 ^ k) = [k].
Proof.
  intros Hk. unfold bit_positions.
  rewrite (scan_first _ 32 0 k).
  - f_equal. apply scan_none. intros j Hj.
    rewrite Z.pow2_bits_eqb by lia. case_bools.
  - simpl Z.of_nat. lia.
  - apply Z.pow2_bits_true. lia.
  - intros j Hj. apply Z.pow2_bits_false. lia.
Qed.

Section QueueClaims.

Context {hdr : VulkanHeader}.

Lemma capability_string_graphics_compute (i j : Z) :
  0 <= i < j -> j < 31 ->
  VK_QUEUE_GRAPHICS_BIT = 2 ^ i ->
  VK_QUEUE_COMPUTE_BIT = 2 ^ j ->
  capability_string (Z.lor VK_QUEUE_GRAPHICS_BIT VK_QUEUE_COMPUTE_BIT) =
  Some "GRAPHICS+COMPUTE"%string.
Proof.
  intros Hij Hj Hg Hc. unfold capability_string, capability_labels.
  rewrite Hg, Hc, bit_positions_two_bits by lia.
  cbn [map]. rewrite !all_some_cons.
  assert (Hi31 : 2 ^ i < 2 ^ 31) by (apply Z.pow_lt_mono_r; lia).
  assert (Hj31 : 2 ^ j < 2 ^ 31) by (apply Z.pow_lt_mono_r; lia).
  pose proof (Z.pow_pos_nonneg 2 i ltac:(lia) ltac:(lia)) as Hi0.
  pose proof (Z.pow_pos_nonneg 2 j ltac:(lia) ltac:(lia)) as Hj0.
  rewrite !Z.shiftl_1_l, !to_int32_small by lia.
  unfold VkQueueFlagBitStr. rewrite Hg, Hc, !Z.eqb_refl.
  destruct (Z.eqb_spec (2 ^ j) (2 ^ i)) as [E|_].
  - apply Z.pow_inj_r in E; lia.
  - reflexivity.
Qed.

Lemma capability_string_unfold (queueFlags : Z) :
  capability_string queueFlags =
  option_map (String.concat "+")
    (all_some
       (map (fun k => VkQueueFlagBitStr (to_int32 (Z.shiftl 1 k)))
          (bit_positions queueFlags))).
Proof. reflexivity. Qed.

Lemma VkQueueFlagBitStr_named (bit : Z) (label : string) :
  VkQueueFlagBitStr bit = Some label ->
  bit = VK_QUEUE_GRAPHICS_BIT \/ bit = VK_QUEUE_COMPUTE_BIT \/
  bit = VK_QUEUE_DMA_BIT \/ bit = VK_QUEUE_SPARSE_MEMMGR_BIT \/
  bit = VK_QUEUE_EXTENDED_BIT.
Proof.
  unfold VkQueueFlagBitStr.
  destruct (Z.eqb_spec bit VK_QUEUE_GRAPHICS_BIT); [tauto|].
  destruct (Z.eqb_spec bit VK_QUEUE_COMPUTE_BIT); [tauto|].
  destruct (Z.eqb_spec bit VK_QUEUE_DMA_BIT); [tauto|].
  destruct (Z.eqb_spec bit VK_QUEUE_SPARSE_MEMMGR_BIT); [tauto|].
  destruct (Z.eqb_spec bit VK_QUEUE_EXTENDED_BIT); [tauto|].
  discriminate.
Qed.

(** Five flags cannot name six bits: whatever the header, one of the six
    lowest bits has no label. *)
Lemma some_bit_has_no_label :
  exists k, 0 <= k < 6 /\ VkQueueFlagBitStr (2 ^ k) = None.
Proof.
  destruct (VkQueueFlagBitStr (2 ^ 0)) as [l0|] eqn:E0;
    [apply VkQueueFlagBitStr_named in E0 | exists 0; split; [lia | exact E0]].
  destruct (VkQueueFlagBitStr (2 ^ 1)) as [l1|] eqn:E1;
    [apply VkQueueFlagBitStr_named in E1 | exists 1; split; [lia | exact E1]].
  destruct (VkQueueFlagBitStr (2 ^ 2)) as [l2|] eqn:E2;
    [apply VkQueueFlagBitStr_named in E2 | exists 2; split; [lia | exact E2]].
  destruct (VkQueueFlagBitStr (2 ^ 3)) as [l3|] eqn:E3;
    [apply VkQueueFlagBitStr_named in E3 | exists 3; split; [lia | exact E3]].
  destruct (VkQueueFlagBitStr (2 ^ 4)) as [l4|] eqn:E4;
    [apply VkQueueFlagBitStr_named in E4 | exists 4; split; [lia | exact E4]].
  destruct (VkQueueFlagBitStr (2 ^ 5)) as [l5|] eqn:E5;
    [apply VkQueueFlagBitStr_named in E5 | exists 5; split; [lia | exact E5]].
  exfalso.
  change (2 ^ 0) with 1 in E0. change (2 ^ 1) with 2 in E1.
  change (2 ^ 2) with 4 in E2. change (2 ^ 3) with 8 in E3.
  change (2 ^ 4) with 16 in E4. change (2 ^ 5) with 32 in E5.
  destruct E0 as [E0|[E0|[E0|[E0|E0]]]];
    destruct E1 as [E1|[E1|[E1|[E1|E1]]]]; try lia;
    destruct E2 as [E2|[E2|[E2|[E2|E2]]]]; try lia;
    destruct E3 as [E3|[E3|[E3|[E3|E3]]]]; try lia;
    destruct E4 as [E4|[E4|[E4|[E4|E4]]]]; try lia;
    destruct E5 as [E5|[E5|[E5|[E5|E5]]]]; lia.
Qed.

(** A family whose flag word is a single bit without a label makes the
    loop body undefined. *)
Lemma dump_queue_family_unnamed_bit (k : Z) (q : VkQueueFamilyProperties) :
  0 <= k < 31 ->
  VkQueueFlagBitStr (2 ^ k) = None ->
  queueFlags q = 2 ^ k ->
  dump_queue_family [q] 0 EmptyString = undefined.
Proof.
  intros Hk Hnone Hf.
  rewrite (dump_queue_family_spec [q] 0 q eq_refl).
  unfold queue_family_line, capability_string, capability_labels.
  rewrite Hf, bit_positions_one_bit by lia. cbn [map].
  assert (H31 : 2 ^ k < 2 ^ 31) by (apply Z.pow_lt_mono_r; lia).
  pose proof (Z.pow_pos_nonneg 2 k ltac:(lia) ltac:(lia)) as H0.
  rewrite Z.shiftl_1_l, to_int32_small by lia.
  rewrite all_some_cons, Hnone. reflexivity.
Qed.

End QueueClaims.

(** ** The lines of a whole enumeration of queue families *)

Lemma all_some_map {A B : Type} (f : A -> option B) :
  forall (l : list A) (ls : list B),
    all_some (map f l) = Some ls ->
    List.length ls = List.length l /\
    forall j x, nth_error l j = Some x ->
                exists y, f x = Some y /\ nth_error ls j = Some y.
Proof.
  induction l as [|a l IH]; intros ls H.
  - injection H as <-. split; [reflexivity|].
    intros [|j] x Hx; discriminate Hx.
  - rewrite map_cons, all_some_cons in H.
    destruct (f a) as [y|] eqn:Ea; [|discriminate H].
    destruct (all_some (map f l)) as [r|]; [|discriminate H].
    injection H as <-. destruct (IH r eq_refl) as [Hlen Hnth].
    split; [cbn [List.length]; rewrite Hlen; reflexivity|].
    intros [|j] x Hx; cbn [nth_error] in *.
    + injection Hx as <-. exists y. split; [exact Ea | reflexivity].
    + apply Hnth. exact Hx.
Qed.

Lemma length_indices_from (n : nat) : forall i,
  List.length (indices_from n i) = n.
Proof.
  induction n as [|n IH]; intros i; cbn [indices_from List.length];
    [reflexivity|].
  rewrite IH. reflexivity.
Qed.

Lemma nth_error_indices_from (n : nat) : forall i j,
  (j < n)%nat -> nth_error (indices_from n i) j = Some (i + Z.of_nat j).
Proof.
  induction n as [|n IH]; intros i j Hj; [lia|].
  destruct j as [|j]; cbn [indices_from nth_error].
  - f_equal. lia.
  - rewrite IH by lia. f_equal. lia.
Qed.

Section FamilyReport.

Context {hdr : VulkanHeader}.

(** The loop over the families prints the line of each entry, in order. *)
Lemma family_loop_report (buf : list VkQueueFamilyProperties) (n : nat) :
  forall i ls,
    all_some (map (family_line buf) (indices_from n i)) = Some ls ->
    for_from n i (dump_queue_family buf) EmptyString =
    mkRun [] ls [] (Normal EmptyString).
Proof.
  induction n as [|n IH]; intros i ls H; cbn [indices_from] in H;
    cbn [for_from].
  - injection H as <-. reflexivity.
  - rewrite map_cons, all_some_cons in H. unfold family_line at 1 in H.
    destruct (nth_error buf (Z.to_nat i)) as [q|] eqn:E; [|discriminate H].
    rewrite (dump_queue_family_spec buf i q E). unfold queue_family_line.
    generalize dependent (capability_string (queueFlags q)).
    intros [str|] H; cbn [option_map] in H; [|discriminate H].
    destruct (all_some (map (family_line buf) (indices_from n (i + 1))))
      as [r|] eqn:Er; [|discriminate H].
    injection H as <-. rewrite bind_pure, (IH (i + 1) r Er). reflexivity.
Qed.

(** A whole enumeration: the two queries, then one line per family. *)
Lemma dump_queue_families_report pdev d ls :
  queue_count_result d = VK_SUCCESS ->
  queue_values_result d = VK_SUCCESS ->
  family_report d = Some ls ->
  dump_queue_families pdev d EmptyString =
  mkRun
    [ (GetPhysicalDeviceQueueFamilyPropertiesCount pdev,
       Some (queue_count_result d));
      (GetPhysicalDeviceQueueFamilyPropertiesValues pdev,
       Some (queue_values_result d)) ]
    ls [] (Normal EmptyString).
Proof.
  intros H1 H2 Hls. unfold dump_queue_families.
  rewrite (bind_checked_success _ _ _ _ H1).
  rewrite (bind_checked_success _ _ _ _ H2).
  unfold family_report, indices, queue_family_buffer in Hls.
  cbv zeta. unfold for_upto.
  rewrite (family_loop_report _ _ _ _ Hls). reflexivity.
Qed.

(** A report has one line for each family counted by the values query, the
    line of family [k] at position [k]. *)
Lemma family_report_lines d ls :
  family_report d = Some ls ->
  List.length ls = Z.to_nat (queue_values_count d) /\
  forall k,
    0 <= k < queue_values_count d ->
    exists q str,
      nth_error (queue_family_buffer d) (Z.to_nat k) = Some q /\
      capability_string (queueFlags q) = Some str /\
      nth_error ls (Z.to_nat k) =
        Some (OutQueueFamily k (queueCount q) str
                (if supportsTimestamps q =? 0 then "NO" else "YES")).
Proof.
  intros Hls. unfold family_report, indices in Hls.
  destruct (all_some_map _ _ _ Hls) as [Hlen Hnth].
  rewrite length_indices_from in Hlen. split; [exact Hlen|].
  intros k Hk.
  destruct (Hnth (Z.to_nat k) k) as (y & Hy & Hpos).
  { rewrite nth_error_indices_from by lia. f_equal. lia. }
  unfold family_line in Hy.
  destruct (nth_error (queue_family_buffer d) (Z.to_nat k)) as [q|];
    [|discriminate Hy].
  remember (capability_string (queueFlags q)) as c eqn:Ec.
  destruct c as [str|]; [|discriminate Hy].
  injection Hy as <-. exists q, str.
  split; [reflexivity|]. split; [symmetry; exact Ec | exact Hpos].
Qed.

(** The report is there as soon as every family counted is in the buffer
    with a capability string. *)
Lemma all_some_map_defined {A B : Type} (f : A -> option B) :
  forall l : list A,
    (forall x, In x l -> exists y, f x = Some y) ->
    exists ls, all_some (map f l) = Some ls.
Proof.
  induction l as [|a l IH]; intros H.
  - exists []. reflexivity.
  - destruct (H a (or_introl eq_refl)) as (y & Hy).
    destruct (IH (fun x Hx => H x (or_intror Hx))) as (r & Hr).
    exists (y :: r). rewrite map_cons, all_some_cons, Hy, Hr. reflexivity.
Qed.

Lemma family_report_defined d :
  (forall k, 0 <= k < queue_values_count d ->
             exists q str,
               nth_error (queue_family_buffer d) (Z.to_nat k) = Some q /\
               capability_string (queueFlags q) = Some str) ->
  exists ls, family_report d = Some ls.
Proof.
  intros Hall. unfold family_report. apply all_some_map_defined.
  intros k Hk. apply indices_In in Hk.
  destruct (Hall k Hk) as (q & str & Hq & Hstr).
  unfold family_line. rewrite Hq, Hstr. eexists. reflexivity.
Qed.

End FamilyReport.

(** C6. For every queue family the printed capability string is the
    plus-joined sequence of the labels of the set bits of its flag word, taken
    lowest bit first, so that the labels follow ascending bit position, and
    it is followed by the timestamp flag printed as YES or NO; a flag word
    with a bit that has no label has no capability string, and then nothing is
    printed for the family.  When GRAPHICS and COMPUTE are single bits,
    GRAPHICS the lower, the capability string of GRAPHICS | COMPUTE is exactly
    GRAPHICS+COMPUTE.  The enumeration of a device prints these lines and no
    other: when its two queries succeed and every family the values query
    counted is in the buffer with a capability string, it prints exactly one
    line for each of them, the line of family k at position k, and ends
    normally. *)
Theorem C6_queue_capability_string (hdr : VulkanHeader)
  (queue_family_properties : list VkQueueFamilyProperties) (family : Z)
  (q : VkQueueFamilyProperties) :
  nth_error queue_family_properties (Z.to_nat family) = Some q ->
  dump_queue_family queue_family_properties family EmptyString =
    match capability_string (queueFlags q) with
    | Some str =>
        mkRun [] [OutQueueFamily family (queueCount q) str
                    (if supportsTimestamps q =? 0 then "NO" else "YES")]
          [] (Normal EmptyString)
    | None => undefined
    end /\
  capability_string (queueFlags q) =
    option_map (String.concat "+")
      (all_some
         (map (fun k => VkQueueFlagBitStr (to_int32 (Z.shiftl 1 k)))
            (bit_positions (queueFlags q)))) /\
  (forall k, In k (bit_positions (queueFlags q)) <->
             0 <= k < 32 /\ Z.testbit (queueFlags q) k = true) /\
  StronglySorted Z.lt (bit_positions (queueFlags q)) /\
  (forall i j,
     0 <= i < j -> j < 31 ->
     VK_QUEUE_GRAPHICS_BIT = 2 ^ i ->
     VK_QUEUE_COMPUTE_BIT = 2 ^ j ->
     queueFlags q = Z.lor VK_QUEUE_GRAPHICS_BIT VK_QUEUE_COMPUTE_BIT ->
     out (dump_queue_family queue_family_properties family EmptyString) =
     [OutQueueFamily family (queueCount q) "GRAPHICS+COMPUTE"
        (if supportsTimestamps q =? 0 then "NO" else "YES")]) /\
  (forall pdev d l,
     In l (out (dump_queue_families pdev d EmptyString)) ->
     exists family' q' str,
       0 <= family' < queue_values_count d /\
       nth_error (queue_family_buffer d) (Z.to_nat family') = Some q' /\
       capability_string (queueFlags q') = Some str /\
       l = OutQueueFamily family' (queueCount q') str
             (if supportsTimestamps q' =? 0 then "NO" else "YES")) /\
  (forall pdev d,
     queue_count_result d = VK_SUCCESS ->
     queue_values_result d = VK_SUCCESS ->
     (forall k, 0 <= k < queue_values_count d ->
                exists q' str,
                  nth_error (queue_family_buffer d) (Z.to_nat k) = Some q' /\
                  capability_string (queueFlags q') = Some str) ->
     res (dump_queue_families pdev d EmptyString) = Normal EmptyString /\
     err (dump_queue_families pdev d EmptyString) = [] /\
     List.length (out (dump_queue_families pdev d EmptyString)) =
       Z.to_nat (queue_values_count d) /\
     forall k,
       0 <= k < queue_values_count d ->
       exists q' str,
         nth_error (queue_family_buffer d) (Z.to_nat k) = Some q' /\
         capability_string (queueFlags q') = Some str /\
         nth_error (out (dump_queue_families pdev d EmptyString))
           (Z.to_nat k) =
           Some (OutQueueFamily k (queueCount q') str
                   (if supportsTimestamps q' =? 0 then "NO" else "YES"))).
Proof.
  intros Hq. rewrite (dump_queue_family_spec _ _ _ Hq).
  split; [reflexivity|]. split; [apply capability_string_unfold|].
  split; [apply bit_positions_In|]. split; [apply scan_sorted|].
  split; [|split].
  - intros i j Hij Hj Hg Hc Hf. unfold queue_family_line.
    rewrite Hf, (capability_string_graphics_compute i j Hij Hj Hg Hc).
    reflexivity.
  - intros pdev d l. apply dump_queue_families_In.
  - intros pdev d H1 H2 Hall.
    destruct (family_report_defined d Hall) as (ls & Hls).
    rewrite (dump_queue_families_report pdev d ls H1 H2 Hls).
    cbn [res err out].
    destruct (family_report_lines d ls Hls) as [Hlen Hnth].
    repeat split; [exact Hlen | exact Hnth].
Qed.

(** The first queue family of the sample device, and the enumeration of
    its two families. *)
Lemma C6_queue_capability_string_witness :
  nth_error [Sample.graphics_compute; Sample.dma_only] (Z.to_nat 0) =
    Some Sample.graphics_compute /\
  out (dump_queue_family (hdr := vulkan_h)
         [Sample.graphics_compute; Sample.dma_only] 0 EmptyString) =
  [OutQueueFamily 0 4 "GRAPHICS+COMPUTE" "YES"] /\
  List.length
    (out (dump_queue_families (hdr := vulkan_h) 10 Sample.gpu EmptyString)) =
  2%nat /\
  nth_error
    (out (dump_queue_families (hdr := vulkan_h) 10 Sample.gpu EmptyString))
    1 = Some (OutQueueFamily 1 1 "DMA" "NO").
Proof.
  split; [reflexivity|].
  destruct (C6_queue_capability_string vulkan_h
              [Sample.graphics_compute; Sample.dma_only] 0
              Sample.graphics_compute eq_refl)
    as (_ & _ & _ & _ & Hex & _ & Hall).
  split; [apply (Hex 0 1);
          [lia | lia | reflexivity | reflexivity | reflexivity]|].
  destruct (Hall 10 Sample.gpu eq_refl eq_refl) as (_ & _ & Hlen & Hnth).
  - intros k Hk. assert (Hcases : k = 0 \/ k = 1) by (simpl in Hk; lia).
    destruct Hcases as [-> | ->].
    + exists Sample.graphics_compute, "GRAPHICS+COMPUTE"%string.
      split; vm_compute; reflexivity.
    + exists Sample.dma_only, "DMA"%string.
      split; vm_compute; reflexivity.
  - split; [exact Hlen|].
    destruct (Hnth 1) as (q' & str & Hq' & Hstr & Hline);
      [simpl; lia|].
    vm_compute in Hq'. injection Hq' as <-.
    vm_compute in Hstr. injection Hstr as <-.
    exact Hline.
Defined.

(** ** The run of [main] after a successful enumeration *)

Lemma length_overwrite {A : Type} (written buf : list A) :
  List.length (overwrite written buf) = List.length buf.
Proof.
  unfold overwrite. rewrite length_firstn, length_app, length_skipn. lia.
Qed.

Lemma skipn_nth_error {A : Type} (l : list A) : forall i a,
  nth_error l i = Some a -> skipn i l = a :: skipn (S i) l.
Proof.
  induction l as [|x l IH]; intros [|i] a H; try discriminate H.
  - injection H as <-. reflexivity.
  - cbn [nth_error] in H. rewrite skipn_cons, (IH i a H). reflexivity.
Qed.

Section MainShape.

Context {hdr : VulkanHeader}.

Lemma fail_fast_nil_normal {A : Type} (r : run A) (a : A) :
  fail_fast [] r -> res r = Normal a -> err r = [].
Proof.
  intros [b _ He _ | w2 _ _ Hr | pre c code w1 w2 _ _ _ _ _ Hr] H.
  - exact He.
  - rewrite Hr in H. discriminate H.
  - rewrite Hr in H. discriminate H.
Qed.

(** A run that keeps the fail-fast discipline with nothing to warn about
    writes only failure lines to standard error. *)
Lemma fail_fast_nil_err {A : Type} (r : run A) (l : stderr_line) :
  fail_fast [] r -> In l (err r) -> is_failure l = true.
Proof.
  intros [b _ He _ | w2 _ Hw _ | pre c code w1 w2 _ _ _ Hw He _] H.
  - rewrite He in H. destruct H.
  - symmetry in Hw. apply app_eq_nil in Hw. destruct Hw as [Hw _].
    rewrite Hw in H. destruct H.
  - symmetry in Hw. apply app_eq_nil in Hw. destruct Hw as [-> _].
    rewrite He in H. destruct H as [<-|[]]. reflexivity.
Qed.

Lemma main_after_enumeration argc argv drv :
  create_result drv = VK_SUCCESS ->
  enum_count_result drv = VK_SUCCESS ->
  enum_data_result drv = VK_SUCCESS ->
  main argc argv drv =
  mkRun
    ((CreateInstance, Some (create_result drv))
     :: (EnumeratePhysicalDevicesCount, Some (enum_count_result drv))
     :: (EnumeratePhysicalDevicesData, Some (enum_data_result drv))
     :: calls (report_devices drv))
    (out (report_devices drv))
    (decrease_warning drv ++ err (report_devices drv))
    (res (report_devices drv)).
Proof.
  intros H1 H2 H3. unfold main.
  rewrite (bind_checked_success _ _ _ _ H1).
  rewrite (bind_checked_success _ _ _ _ H2).
  rewrite (bind_checked_success _ _ _ _ H3).
  unfold report_devices, working_devices, decrease_warning.
  destruct (enum_data_count drv =? _); cbn [negb].
  - rewrite bind_ret_l. reflexivity.
  - rewrite bind_warn. reflexivity.
Qed.

Lemma devices_loop drv (physical_devices : list Z) :
  (forall k pdev,
     nth_error physical_devices k = Some pdev ->
     res (DumpPhysicalDevice drv (Z.of_nat k) pdev) = Normal tt) ->
  forall n i,
    (i + n = List.length physical_devices)%nat ->
    res (for_from n (Z.of_nat i) (dump_device drv physical_devices) tt) =
      Normal tt /\
    out (for_from n (Z.of_nat i) (dump_device drv physical_devices) tt) =
      device_reports drv (Z.of_nat i) (skipn i physical_devices) /\
    err (for_from n (Z.of_nat i) (dump_device drv physical_devices) tt) =
      [].
Proof.
  intros Hok. induction n as [|n IH]; intros i Hlen; cbn [for_from].
  - rewrite skipn_all2 by lia. repeat split.
  - destruct (nth_error physical_devices i) as [pdev|] eqn:E;
      [|apply nth_error_None in E; lia].
    assert (Hbody : dump_device drv physical_devices (Z.of_nat i) tt =
                    DumpPhysicalDevice drv (Z.of_nat i) pdev).
    { unfold dump_device, index. rewrite Nat2Z.id, E. apply bind_ret_l. }
    rewrite Hbody, (bind_normal _ _ tt (Hok i pdev E)). cbn [res out err].
    replace (Z.of_nat i + 1) with (Z.of_nat (S i)) by lia.
    destruct (IH (S i) ltac:(lia)) as (Hr & Ho & He).
    rewrite Hr, Ho, He, (skipn_nth_error _ _ _ E). cbn [device_reports].
    rewrite (fail_fast_nil_normal _ tt
               (fail_fast_DumpPhysicalDevice drv (Z.of_nat i) pdev)
               (Hok i pdev E)).
    replace (Z.of_nat i + 1) with (Z.of_nat (S i)) by lia.
    repeat split.
Qed.

(** When every device of the working list is dumped to its end, the rest
    of [main] prints the header and the device reports and returns 0. *)
Lemma report_devices_spec drv :
  (forall k pdev,
     nth_error (working_devices drv) k = Some pdev ->
     res (DumpPhysicalDevice drv (Z.of_nat k) pdev) = Normal tt) ->
  res (report_devices drv) = Normal 0 /\
  out (report_devices drv) =
    OutPhysicalDevices :: device_reports drv 0 (working_devices drv) /\
  err (report_devices drv) = [].
Proof.
  intros Hok. unfold report_devices, for_upto.
  rewrite bind_printf, Nat2Z.id. cbn [res out err].
  destruct (devices_loop drv (working_devices drv) Hok
              (List.length (working_devices drv)) 0 eq_refl)
    as (Hr & Ho & He).
  change (Z.of_nat 0) with 0 in *. cbn [skipn] in Ho.
  rewrite (bind_normal _ _ tt Hr). cbn [res out err].
  rewrite Ho, He, app_nil_r. repeat split.
Qed.

End MainShape.

(** ** Failing calls *)

Lemma last_call_split {A : Type} (pre pre' post : list A) (x y : A) :
  pre' ++ [x] = pre ++ y :: post ->
  (post = [] /\ pre = pre' /\ y = x) \/ In y pre'.
Proof.
  intros H. destruct (exists_last (l := y :: post)) as (l & z & E);
    [discriminate|].
  destruct post as [|p post].
  - left. apply app_inj_tail in H. destruct H as [-> ->].
    repeat split.
  - right. rewrite E, app_assoc in H. apply app_inj_tail in H.
    destruct H as [-> _].
    destruct l as [|y' l]; [discriminate E|].
    injection E as <- _. apply in_or_app. right. left. reflexivity.
Qed.

Section Failing.

Context {hdr : VulkanHeader}.

Lemma result_str_table (code : Z) :
  result_str code = lookup_status status_table "<unknown VkResult>" code.
Proof. reflexivity. Qed.

Lemma lookup_status_fallback (table : list (Z * string))
  (fallback : string) (code : Z) :
  ~ In code (map fst table) -> lookup_status table fallback code = fallback.
Proof.
  induction table as [|[c label] table IH]; intros H; [reflexivity|].
  cbn [lookup_status]. cbn [map fst In] in H.
  destruct (Z.eqb_spec code c) as [->|_]; [tauto|].
  apply IH. tauto.
Qed.

(** A logged call with a status other than success is the last call of a
    run that keeps the fail-fast discipline, and the run died of it. *)
Lemma fail_fast_failing_call {A : Type} (w : list stderr_line) (r : run A)
  pre c code post :
  fail_fast w r ->
  calls r = pre ++ (c, Some code) :: post ->
  code <> VK_SUCCESS ->
  post = [] /\
  (exists w1 w2,
     w = w1 ++ w2 /\
     err r = w1 ++ [ErrFailed (proc_name c) (result_str code) code]) /\
  res r = Exited 1.
Proof.
  intros Hff Hc Hn.
  assert (Hbad : ~ Forall succeeded (pre ++ (c, Some code) :: post)).
  { intros H. rewrite Forall_forall in H.
    apply Hn, (H (c, Some code)); [|reflexivity].
    apply in_or_app. right. left. reflexivity. }
  destruct Hff as [a Hs _ _ | w2 Hs _ _
                  | pre' c' code' w1 w2 Hc' Hs Hn' Hw He Hr].
  - rewrite Hc in Hs. contradiction.
  - rewrite Hc in Hs. contradiction.
  - rewrite Hc in Hc'. symmetry in Hc'.
    apply last_call_split in Hc'. destruct Hc' as [(-> & -> & E)|Hin].
    + injection E as <- <-. split; [reflexivity|].
      split; [|exact Hr]. exists w1, w2. split; assumption.
    + rewrite Forall_forall in Hs. exfalso.
      apply Hn, (Hs _ Hin). reflexivity.
Qed.

End Failing.

(** C3, as the code has it.  For every driver call whose status the program
    reads, a status other than success makes that call the last driver call
    of the run, makes the run write one line to standard error, after at most
    the device-count warning, holding the call's name, the label of the
    status and the raw code in decimal, and ends the run with exit code 1.
    The label comes from the fixed table of the fifteen status codes the tool
    knows, and is the text <unknown VkResult> for any other code.  When every
    status read was success and the behaviour of the run is defined, the run
    returns 0, having written to standard error at most the device-count
    warning.  No exit code other than 0 and 1 is possible, and the run never
    stops for lack of fuel in the model. *)
Theorem C3_fail_fast (hdr : VulkanHeader) (drv : Driver) (argc : Z)
  (argv : list string) :
  (forall pre c code post,
     calls (main argc argv drv) = pre ++ (c, Some code) :: post ->
     code <> VK_SUCCESS ->
     post = [] /\
     (exists w1 w2,
        decrease_warning drv = w1 ++ w2 /\
        err (main argc argv drv) =
        w1 ++ [ErrFailed (proc_name c) (result_str code) code]) /\
     render_stderr_line (ErrFailed (proc_name c) (result_str code) code) =
       proc_name c ^^ " failed: " ^^ result_str code ^^ " ("
       ^^ Fmt.dec_d code ^^ ")" ^^ Fmt.nl /\
     res (main argc argv drv) = Exited 1 /\
     exit_code (main argc argv drv) = Some 1) /\
  (forall code,
     result_str code = lookup_status status_table "<unknown VkResult>" code) /\
  (forall code,
     ~ In code (map fst status_table) ->
     result_str code = "<unknown VkResult>"%string) /\
  ((forall c code,
      In (c, Some code) (calls (main argc argv drv)) -> code = VK_SUCCESS) ->
   res (main argc argv drv) <> Undefined ->
   res (main argc argv drv) = Normal 0 /\
   exit_code (main argc argv drv) = Some 0 /\
   err (main argc argv drv) = decrease_warning drv) /\
  (forall code,
     exit_code (main argc argv drv) = Some code -> code = 0 \/ code = 1) /\
  res (main argc argv drv) <> OutOfFuel /\
  (decrease_warning drv = [] \/
   exists old new, decrease_warning drv = [ErrDecreased old new]).
Proof.
  pose proof (fail_fast_main argc argv drv) as Hff.
  split; [|split; [|split; [|split; [|split; [|split]]]]].
  - intros pre c code post Hc Hn.
    destruct (fail_fast_failing_call _ _ pre c code post Hff Hc Hn)
      as (Hp & Hw & Hr).
    split; [exact Hp|]. split; [exact Hw|]. split; [reflexivity|].
    split; [exact Hr|]. unfold exit_code. rewrite Hr. reflexivity.
  - intros code. apply result_str_table.
  - intros code H. rewrite result_str_table.
    apply lookup_status_fallback. exact H.
  - intros Hall Hdef.
    destruct Hff as [a _ He Hr | w2 _ _ Hr
                    | pre c code w1 w2 Hc _ Hn _ _ _].
    + rewrite (main_returns_zero argc argv drv a Hr) in Hr.
      unfold exit_code. rewrite Hr. repeat split. exact He.
    + contradiction.
    + exfalso. apply Hn, (Hall c). rewrite Hc.
      apply in_or_app. right. left. reflexivity.
  - intros code H. unfold exit_code in H.
    destruct Hff as [a _ _ Hr | w2 _ _ Hr | pre c code' w1 w2 _ _ _ _ _ Hr];
      rewrite Hr in H.
    + rewrite (main_returns_zero argc argv drv a Hr) in H.
      injection H as <-. left. reflexivity.
    + discriminate H.
    + injection H as <-. right. reflexivity.
  - destruct Hff as [a _ _ Hr | w2 _ _ Hr | pre c code' w1 w2 _ _ _ _ _ Hr];
      rewrite Hr; discriminate.
  - unfold decrease_warning. destruct (enum_data_count drv =? _).
    + left. reflexivity.
    + right. eexists _, _. reflexivity.
Qed.

(** Instance creation failing with the status 99. *)
Lemma C3_fail_fast_witness :
  calls (main (hdr := vulkan_h) 1 ["vkinfo"%string] Sample.failing_create)
  = [] ++ (CreateInstance, Some 99) :: [] /\
  99 <> VK_SUCCESS (VulkanHeader := vulkan_h) /\
  err (main (hdr := vulkan_h) 1 ["vkinfo"%string] Sample.failing_create)
  = [ErrFailed "vkCreateInstance" "<unknown VkResult>" 99] /\
  exit_code (main (hdr := vulkan_h) 1 ["vkinfo"%string]
               Sample.failing_create)
  = Some 1.
Proof.
  split; [reflexivity|]. split; [discriminate|]. split; [reflexivity|].
  destruct (C3_fail_fast vulkan_h Sample.failing_create 1 ["vkinfo"%string])
    as (Hfail & _).
  destruct (Hfail [] CreateInstance 99 [] eq_refl ltac:(discriminate))
    as (_ & _ & _ & _ & Hexit).
  exact Hexit.
Defined.

(** C3, as the spec has it, fails on the fallback label: a failing call
    with a status outside the known set is reported with the label
    <unknown VkResult>, not with the label <unknown>. *)
Lemma C3_unknown_label_counterexample :
  ~ In 99 (map fst (status_table (hdr := vulkan_h))) /\
  create_result Sample.failing_create = 99 /\
  99 <> VK_SUCCESS (VulkanHeader := vulkan_h) /\
  render_stderr
    (err (main (hdr := vulkan_h) 1 ["vkinfo"%string] Sample.failing_create))
  = "vkCreateInstance failed: <unknown VkResult> (99)" ^^ Fmt.nl /\
  render_stderr
    (err (main (hdr := vulkan_h) 1 ["vkinfo"%string] Sample.failing_create))
  <> "vkCreateInstance failed: <unknown> (99)" ^^ Fmt.nl /\
  result_str (hdr := vulkan_h) 99 <> "<unknown>"%string.
Proof.
  split; [simpl; lia|]. split; [reflexivity|]. split; [discriminate|].
  split; [reflexivity|]. split; [vm_compute; discriminate|].
  vm_compute; discriminate.
Qed.

(** C1.  The two enumerations treat a shrinking count differently.  When the
    queue-family values query reports one family where the count query
    reported two, the tool prints the one family and writes nothing to
    standard error; no run of the queue-family enumeration ever writes the
    decrease diagnostic.  When the device values query reports two devices
    where the count query reported three, the diagnostic is written. *)
Theorem C1_queue_families_shrink_silently :
  queue_count_out (device Sample.queue_shrinking 12) = 2 /\
  queue_values_count (device Sample.queue_shrinking 12) = 1 /\
  err (main (hdr := vulkan_h) 1 ["vkinfo"%string] Sample.queue_shrinking)
  = [] /\
  filter (fun l => match l with OutQueueFamily _ _ _ _ => true | _ => false end)
    (out (main (hdr := vulkan_h) 1 ["vkinfo"%string] Sample.queue_shrinking))
  = [OutQueueFamily 0 4 "GRAPHICS+COMPUTE" "YES"] /\
  res (main (hdr := vulkan_h) 1 ["vkinfo"%string] Sample.queue_shrinking)
  = Normal 0 /\
  (forall (hdr : VulkanHeader) pdev d strbuf old new,
     ~ In (ErrDecreased old new) (err (dump_queue_families pdev d strbuf))) /\
  err (main (hdr := vulkan_h) 1 ["vkinfo"%string] Sample.shrinking)
  = [ErrDecreased 3 2].
Proof.
  split; [reflexivity|]. split; [reflexivity|]. split; [reflexivity|].
  split; [reflexivity|]. split; [reflexivity|]. split; [|reflexivity].
  intros hdr pdev d strbuf old new H.
  pose proof (fail_fast_nil_err _ _
                (fail_fast_dump_queue_families pdev d strbuf) H) as Hf.
  discriminate Hf.
Qed.

(** C2.  A queue family whose flag word has a set bit outside the five
    flags the tool knows reaches the label lookup, which has no answer for
    it: control flows off the end of the function.  The run does not fail
    fast: it has undefined behaviour, with no exit code and no failure line,
    after the lines of the memory report.  The same holds, whatever the
    header, for any single bit that is none of its five flags, and every
    header leaves such a bit among the six lowest. *)
Theorem C2_unnamed_bit_is_undefined :
  queueFlags Sample.unnamed_bit = 16 /\
  builtin_ffs (to_int32 16) = 5 /\
  to_int32 (Z.shiftl 1 (5 - 1)) = 16 /\
  VkQueueFlagBitStr (hdr := vulkan_h) 16 = None /\
  dump_queue_family (hdr := vulkan_h) [Sample.unnamed_bit] 0 EmptyString
  = undefined /\
  res (main (hdr := vulkan_h) 1 ["vkinfo"%string] Sample.with_unnamed_bit)
  = Undefined /\
  exit_code (main (hdr := vulkan_h) 1 ["vkinfo"%string]
               Sample.with_unnamed_bit)
  = None /\
  err (main (hdr := vulkan_h) 1 ["vkinfo"%string] Sample.with_unnamed_bit)
  = [] /\
  (forall (hdr : VulkanHeader) (k : Z) (q : VkQueueFamilyProperties),
     0 <= k < 31 ->
     VkQueueFlagBitStr (2 ^ k) = None ->
     queueFlags q = 2 ^ k ->
     dump_queue_family [q] 0 EmptyString = undefined) /\
  (forall hdr : VulkanHeader,
     exists k, 0 <= k < 6 /\ VkQueueFlagBitStr (2 ^ k) = None).
Proof.
  split; [reflexivity|]. split; [reflexivity|]. split; [reflexivity|].
  split; [reflexivity|]. split; [reflexivity|]. split; [reflexivity|].
  split; [reflexivity|]. split; [reflexivity|]. split.
  - intros hdr k q. apply dump_queue_family_unnamed_bit.
  - intros hdr. apply some_bit_has_no_label.
Qed.

(** * Further properties of the tool *)

(** ** Label tables *)

Lemma lookup_status_In (table : list (Z * string)) (fallback : string) :
  NoDup (map fst table) ->
  forall code label,
    In (code, label) table -> lookup_status table fallback code = label.
Proof.
  induction table as [|[c l] table IH]; intros Hnd code label Hin;
    [destruct Hin|].
  cbn [lookup_status]. cbn [map fst] in Hnd.
  inversion Hnd as [|? ? Hfresh Hnd']; subst.
  destruct Hin as [E|Hin].
  - injection E as -> ->. rewrite Z.eqb_refl. reflexivity.
  - destruct (Z.eqb_spec code c) as [->|_]; [|exact (IH Hnd' code label Hin)].
    exfalso. apply Hfresh.
    change c with (fst (c, label)). apply in_map. exact Hin.
Qed.

Lemma lookup_status_known (table : list (Z * string)) (fallback : string)
  (code : Z) :
  In code (map fst table) ->
  In (lookup_status table fallback code) (map snd table).
Proof.
  induction table as [|[c l] table IH]; intros Hin; [destruct Hin|].
  cbn [lookup_status map snd]. cbn [map fst In] in Hin.
  destruct (Z.eqb_spec code c) as [->|Hne]; [left; reflexivity|].
  right. apply IH. destruct Hin as [E|Hin]; [congruence | exact Hin].
Qed.

Section Labels.

Context {hdr : VulkanHeader}.

Lemma VkPhysicalDeviceTypeStr_table (type : Z) :
  VkPhysicalDeviceTypeStr type =
  lookup_status device_type_table "<UNKNOWN>" type.
Proof. reflexivity. Qed.

Lemma status_fallback_is_no_label :
  ~ In "<unknown VkResult>"%string (map snd status_table).
Proof. cbn [map snd status_table In]. intuition discriminate. Qed.

Lemma type_fallback_is_no_label :
  ~ In "<UNKNOWN>"%string (map snd device_type_table).
Proof. cbn [map snd device_type_table In]. intuition discriminate. Qed.

End Labels.

(** X1.  The label [die] prints for a status.  When the fifteen status codes
    of the header are pairwise distinct, each of them is printed under its
    own name; whatever the header, the text <unknown VkResult> is printed
    exactly for the codes outside the fifteen. *)
Theorem X1_status_labels (hdr : VulkanHeader) :
  NoDup (map fst status_table) ->
  (forall code label,
     In (code, label) status_table -> result_str code = label) /\
  (forall code,
     result_str code = "<unknown VkResult>"%string <->
     ~ In code (map fst status_table)).
Proof.
  intros Hnd. split.
  - intros code label Hin. rewrite result_str_table.
    apply lookup_status_In; assumption.
  - intros code. rewrite result_str_table. split.
    + intros E Hin.
      apply (lookup_status_known _ "<unknown VkResult>") in Hin.
      rewrite E in Hin. exact (status_fallback_is_no_label Hin).
    + apply lookup_status_fallback.
Qed.

(** The header whose codes count up from zero and down from minus one. *)
Lemma X1_status_labels_witness :
  NoDup (map fst (status_table (hdr := vulkan_h))) /\
  result_str (hdr := vulkan_h) (-4) = "VK_ERROR_DEVICE_LOST"%string.
Proof.
  assert (Hnd : NoDup (map fst (status_table (hdr := vulkan_h)))).
  { cbn [map fst status_table]. repeat constructor; simpl; lia. }
  split; [exact Hnd|].
  apply (proj1 (X1_status_labels vulkan_h Hnd)).
  simpl. tauto.
Defined.

(** X2.  The label of a device type.  When the five device types of the
    header are pairwise distinct, each is printed under its own name;
    whatever the header, the placeholder <UNKNOWN> is printed exactly for the
    values outside the five, and the device line carries this label. *)
Theorem X2_device_type_labels (hdr : VulkanHeader) :
  NoDup (map fst device_type_table) ->
  (forall type label,
     In (type, label) device_type_table ->
     VkPhysicalDeviceTypeStr type = label) /\
  (forall type,
     VkPhysicalDeviceTypeStr type = "<UNKNOWN>"%string <->
     ~ In type (map fst device_type_table)) /\
  (forall drv idx pdev,
     props_result (device drv pdev) = VK_SUCCESS ->
     ~ In (deviceType (props_out (device drv pdev)))
          (map fst device_type_table) ->
     exists major minor patch rest,
       out (DumpPhysicalDevice drv idx pdev) =
       OutDevice idx (deviceName (props_out (device drv pdev))) "<UNKNOWN>"
         major minor patch
         (driverVersion (props_out (device drv pdev)))
         (vendorId (props_out (device drv pdev)))
         (deviceId (props_out (device drv pdev)))
       :: rest).
Proof.
  intros Hnd.
  assert (Hunknown : forall type,
            VkPhysicalDeviceTypeStr type = "<UNKNOWN>"%string <->
            ~ In type (map fst device_type_table)).
  { intros type. rewrite VkPhysicalDeviceTypeStr_table. split.
    - intros E Hin. apply (lookup_status_known _ "<UNKNOWN>") in Hin.
      rewrite E in Hin. exact (type_fallback_is_no_label Hin).
    - apply lookup_status_fallback. }
  split; [|split; [exact Hunknown|]].
  - intros type label Hin. rewrite VkPhysicalDeviceTypeStr_table.
    apply lookup_status_In; assumption.
  - intros drv idx pdev Hok Hout.
    destruct (DumpPhysicalDevice_first_line drv idx pdev Hok) as [rest E].
    apply Hunknown in Hout. rewrite Hout in E.
    eexists _, _, _, rest. exact E.
Qed.

Lemma X2_device_type_labels_witness :
  NoDup (map fst (device_type_table (hdr := vulkan_h))) /\
  VkPhysicalDeviceTypeStr (hdr := vulkan_h) 3 = "VIRTUAL_GPU"%string /\
  VkPhysicalDeviceTypeStr (hdr := vulkan_h) 9 = "<UNKNOWN>"%string.
Proof.
  assert (Hnd : NoDup (map fst (device_type_table (hdr := vulkan_h)))).
  { cbn [map fst device_type_table]. repeat constructor; simpl; lia. }
  split; [exact Hnd|].
  destruct (X2_device_type_labels vulkan_h Hnd) as (Hknown & Hunknown & _).
  split.
  - apply Hknown. simpl. tauto.
  - apply Hunknown. simpl. lia.
Defined.

(** ** When a queue family has a line *)

Lemma all_some_None_iff {A : Type} (l : list (option A)) :
  all_some l = None <-> In None l.
Proof.
  induction l as [|[a|] l IH]; cbn [all_some In].
  - split; [discriminate | tauto].
  - destruct (all_some l) as [r|].
    + split; [discriminate|]. intros [E|H]; [discriminate|].
      apply IH in H. discriminate H.
    + split; [intros _; right; apply IH; reflexivity | reflexivity].
  - split; [intros _; left; reflexivity | reflexivity].
Qed.

Section QueueLabels.

Context {hdr : VulkanHeader}.

Lemma VkQueueFlagBitStr_labelled (bit : Z) :
  (exists label, VkQueueFlagBitStr bit = Some label) <->
  In bit queue_flag_bits.
Proof.
  split.
  - intros [label H]. apply VkQueueFlagBitStr_named in H.
    unfold queue_flag_bits. cbn [In]. intuition congruence.
  - unfold queue_flag_bits, VkQueueFlagBitStr. cbn [In]. intros H.
    destruct (Z.eqb_spec bit VK_QUEUE_GRAPHICS_BIT); [eexists; reflexivity|].
    destruct (Z.eqb_spec bit VK_QUEUE_COMPUTE_BIT); [eexists; reflexivity|].
    destruct (Z.eqb_spec bit VK_QUEUE_DMA_BIT); [eexists; reflexivity|].
    destruct (Z.eqb_spec bit VK_QUEUE_SPARSE_MEMMGR_BIT);
      [eexists; reflexivity|].
    destruct (Z.eqb_spec bit VK_QUEUE_EXTENDED_BIT); [eexists; reflexivity|].
    exfalso. intuition congruence.
Qed.

(** A flag word has a capability string exactly when each of its set bits
    has a label. *)
Lemma capability_string_None_iff (queueFlags : Z) :
  capability_string queueFlags = None <->
  exists k, 0 <= k < 32 /\ Z.testbit queueFlags k = true /\
            ~ In (to_int32 (Z.shiftl 1 k)) queue_flag_bits.
Proof.
  rewrite capability_string_unfold.
  assert (Hmap : forall o : option (list string),
            option_map (String.concat "+") o = None <-> o = None).
  { intros [r|]; cbn [option_map]; split; intros H;
      try discriminate H; reflexivity. }
  rewrite Hmap, all_some_None_iff, in_map_iff. split.
  - intros (k & Hk & Hin). apply bit_positions_In in Hin.
    exists k. split; [tauto|]. split; [tauto|].
    intros Hl. apply VkQueueFlagBitStr_labelled in Hl.
    destruct Hl as [label Hl]. rewrite Hl in Hk. discriminate Hk.
  - intros (k & Hk & Hbit & Hno). exists k.
    split; [|apply bit_positions_In; tauto].
    remember (VkQueueFlagBitStr (to_int32 (Z.shiftl 1 k))) as o eqn:Ho.
    destruct o as [label|]; [|reflexivity].
    exfalso. apply Hno, VkQueueFlagBitStr_labelled. exists label.
    symmetry. exact Ho.
Qed.

Lemma capability_string_no_bits (queueFlags : Z) :
  (forall k, 0 <= k < 32 -> Z.testbit queueFlags k = false) ->
  capability_string queueFlags = Some EmptyString.
Proof.
  intros H. rewrite capability_string_unfold.
  assert (Hnil : bit_positions queueFlags = []).
  { apply scan_none. intros k Hk. apply H. simpl Z.of_nat in Hk. lia. }
  rewrite Hnil. reflexivity.
Qed.

End QueueLabels.

(** X3.  A queue family has a line exactly when every set bit of its flag
    word is one of the five flags with a label: then the body of the family
    loop prints one line and nothing else, and when some set bit is none of
    the five the body has undefined behaviour and prints nothing.  A family
    with no bit set is printed with an empty capability string. *)
Theorem X3_queue_family_line_defined (hdr : VulkanHeader)
  (queue_family_properties : list VkQueueFamilyProperties) (family : Z)
  (q : VkQueueFamilyProperties) :
  nth_error queue_family_properties (Z.to_nat family) = Some q ->
  (forall bit,
     (exists label, VkQueueFlagBitStr bit = Some label) <->
     In bit queue_flag_bits) /\
  ((forall k, 0 <= k < 32 -> Z.testbit (queueFlags q) k = true ->
              In (to_int32 (Z.shiftl 1 k)) queue_flag_bits) ->
   exists str,
     dump_queue_family queue_family_properties family EmptyString =
     mkRun [] [OutQueueFamily family (queueCount q) str
                 (if supportsTimestamps q =? 0 then "NO" else "YES")]
       [] (Normal EmptyString)) /\
  (forall k, 0 <= k < 32 -> Z.testbit (queueFlags q) k = true ->
             ~ In (to_int32 (Z.shiftl 1 k)) queue_flag_bits ->
             dump_queue_family queue_family_properties family EmptyString =
             undefined) /\
  ((forall k, 0 <= k < 32 -> Z.testbit (queueFlags q) k = false) ->
   dump_queue_family queue_family_properties family EmptyString =
   mkRun [] [OutQueueFamily family (queueCount q) EmptyString
               (if supportsTimestamps q =? 0 then "NO" else "YES")]
     [] (Normal EmptyString)).
Proof.
  intros Hq. rewrite (dump_queue_family_spec _ _ _ Hq).
  unfold queue_family_line.
  split; [exact VkQueueFlagBitStr_labelled|]. split; [|split].
  - intros Hall.
    remember (capability_string (queueFlags q)) as o eqn:Ho.
    destruct o as [str|]; [exists str; reflexivity|].
    exfalso. symmetry in Ho. apply capability_string_None_iff in Ho.
    destruct Ho as (k & Hk & Hbit & Hno). exact (Hno (Hall k Hk Hbit)).
  - intros k Hk Hbit Hno.
    assert (E : capability_string (queueFlags q) = None)
      by (apply capability_string_None_iff; exists k; tauto).
    rewrite E. reflexivity.
  - intros Hnone. rewrite (capability_string_no_bits _ Hnone). reflexivity.
Qed.

Lemma X3_queue_family_line_defined_witness :
  nth_error [Sample.dma_only] (Z.to_nat 0) = Some Sample.dma_only /\
  exists str,
    dump_queue_family (hdr := vulkan_h) [Sample.dma_only] 0 EmptyString =
    mkRun [] [OutQueueFamily 0 1 str "NO"] [] (Normal EmptyString).
Proof.
  split; [reflexivity|].
  destruct (X3_queue_family_line_defined vulkan_h [Sample.dma_only] 0
              Sample.dma_only eq_refl) as (_ & Hdef & _).
  apply Hdef. intros k Hk Hbit.
  assert (Hin : In k (bit_positions 4)) by (apply bit_positions_In; tauto).
  vm_compute in Hin. destruct Hin as [<-|[]]. vm_compute. tauto.
Defined.

(** ** Packed versions *)

Lemma version_fields (major minor patch : Z) :
  0 <= major < 1024 -> 0 <= minor < 1024 -> 0 <= patch < 4096 ->
  Z.land (Z.shiftr (major * 2 ^ 22 + minor * 2 ^ 12 + patch) 22) 1023 = major
  /\
  Z.land (Z.shiftr (major * 2 ^ 22 + minor * 2 ^ 12 + patch) 12) 1023 = minor
  /\
  Z.land (Z.shiftr (major * 2 ^ 22 + minor * 2 ^ 12 + patch) 0) 4095 = patch.
Proof.
  intros Hmajor Hminor Hpatch.
  change 1023 with (Z.ones 10). change 4095 with (Z.ones 12).
  rewrite !field_value by lia.
  change (2 ^ 22) with 4194304. change (2 ^ 12) with 4096.
  change (2 ^ 10) with 1024. change (2 ^ 0) with 1.
  set (v := major * 4194304 + minor * 4096 + patch).
  assert (H22 : v / 4194304 = major).
  { symmetry. apply (Z.div_unique v 4194304 major (minor * 4096 + patch));
      unfold v; lia. }
  assert (H12 : v / 4096 = major * 1024 + minor).
  { symmetry. apply (Z.div_unique v 4096 _ patch); unfold v; lia. }
  rewrite H22, H12, Z.div_1_r. repeat split.
  - apply Z.mod_small. lia.
  - symmetry. apply (Z.mod_unique _ 1024 major minor); lia.
  - symmetry. apply (Z.mod_unique v 4096 (major * 1024 + minor) patch);
      unfold v; lia.
Qed.

(** X4.  Every version triple within the field widths is printed as it was
    packed: for an API version major * 2^22 + minor * 2^12 + patch with major
    and minor below 2^10 and patch below 2^12, the device line carries
    exactly major, minor and patch. *)
Theorem X4_packed_version_is_printed (hdr : VulkanHeader) (drv : Driver)
  (idx pdev major minor patch : Z) :
  props_result (device drv pdev) = VK_SUCCESS ->
  0 <= major < 1024 -> 0 <= minor < 1024 -> 0 <= patch < 4096 ->
  apiVersion (props_out (device drv pdev)) =
    major * 2 ^ 22 + minor * 2 ^ 12 + patch ->
  exists rest,
    out (DumpPhysicalDevice drv idx pdev) =
    OutDevice idx (deviceName (props_out (device drv pdev)))
      (VkPhysicalDeviceTypeStr (deviceType (props_out (device drv pdev))))
      major minor patch
      (driverVersion (props_out (device drv pdev)))
      (vendorId (props_out (device drv pdev)))
      (deviceId (props_out (device drv pdev)))
    :: rest.
Proof.
  intros Hok Hmajor Hminor Hpatch Hv.
  destruct (DumpPhysicalDevice_first_line drv idx pdev Hok) as [rest E].
  rewrite Hv in E.
  destruct (version_fields major minor patch Hmajor Hminor Hpatch)
    as (E1 & E2 & E3).
  rewrite E1, E2, E3 in E. exists rest. exact E.
Qed.

Lemma X4_packed_version_is_printed_witness :
  props_result (device Sample.steady 10) = VK_SUCCESS (VulkanHeader := vulkan_h)
  /\ apiVersion (props_out (device Sample.steady 10)) =
     1 * 2 ^ 22 + 1 * 2 ^ 12 + 3
  /\ exists rest,
       out (DumpPhysicalDevice (hdr := vulkan_h) Sample.steady 7 10) =
       OutDevice 7 "gpu" "DISCRETE_GPU" 1 1 3 17 4098 171 :: rest.
Proof.
  split; [reflexivity|]. split; [reflexivity|].
  apply (X4_packed_version_is_printed vulkan_h Sample.steady 7 10 1 1 3);
    [reflexivity | lia | lia | lia | reflexivity].
Defined.

(** ** Flag words without a host flag *)

Section DeviceOnly.

Context {hdr : VulkanHeader}.

Lemma flag_string_device_only :
  VK_MEMORY_PROPERTY_DEVICE_ONLY = 0 ->
  flag_string 0 = "DEVICE_ONLY"%string.
Proof.
  intros Hd. rewrite <- memory_type_flags_spec. unfold memory_type_flags.
  rewrite Hd, !Z.land_0_l. reflexivity.
Qed.

Lemma flag_string_empty (f : Z) :
  f <> VK_MEMORY_PROPERTY_DEVICE_ONLY ->
  (forall b, In b memory_property_bits -> Z.land f b = 0) ->
  flag_string f = EmptyString.
Proof.
  intros Hd Hbits. rewrite <- memory_type_flags_spec. unfold memory_type_flags.
  assert (E0 : (f =? VK_MEMORY_PROPERTY_DEVICE_ONLY) = false)
    by (apply Z.eqb_neq; exact Hd).
  rewrite E0.
  rewrite !Hbits by (unfold memory_property_bits; cbn [In]; tauto).
  reflexivity.
Qed.

End DeviceOnly.

(** X5.  Memory types without a host flag.  When DEVICE_ONLY is the empty
    flag word, a memory type with no flag at all is printed with exactly the
    string DEVICE_ONLY.  A memory type whose flag word is not DEVICE_ONLY and
    has none of the five tested bits is printed with an empty string: bits
    the tool does not test leave no trace. *)
Theorem X5_flag_strings_without_host_flags (hdr : VulkanHeader)
  (mp : VkPhysicalDeviceMemoryProperties) (t : Z) (mt : VkMemoryType) :
  memory_within mp ->
  0 <= t < memoryTypeCount mp ->
  nth_error (memoryTypes mp) (Z.to_nat t) = Some mt ->
  0 <= heapIndex mt < memoryHeapCount mp ->
  (VK_MEMORY_PROPERTY_DEVICE_ONLY = 0 ->
   propertyFlags mt = 0 ->
   forall str,
     In (OutType t str) (out (dump_memory mp EmptyString)) <->
     str = "DEVICE_ONLY"%string) /\
  (propertyFlags mt <> VK_MEMORY_PROPERTY_DEVICE_ONLY ->
   (forall b, In b memory_property_bits ->
              Z.land (propertyFlags mt) b = 0) ->
   forall str,
     In (OutType t str) (out (dump_memory mp EmptyString)) <->
     str = EmptyString).
Proof.
  intros Hw Ht Hmt Hh. rewrite (dump_memory_spec mp Hw). cbn [out].
  assert (Hline : forall str,
            In (OutType t str) (memory_report mp) <->
            str = flag_string (propertyFlags mt)).
  { intros str. rewrite (memory_report_In mp Hw). split.
    - intros (_ & mt' & Hmt' & _ & Hs).
      rewrite Hmt in Hmt'. injection Hmt' as <-. exact Hs.
    - intros Hs. split; [exact Ht|]. exists mt. tauto. }
  split.
  - intros Hd Hf str. rewrite Hline, Hf, (flag_string_device_only Hd).
    reflexivity.
  - intros Hd Hbits str.
    rewrite Hline, (flag_string_empty _ Hd Hbits). reflexivity.
Qed.

(** Memory type 1 of the sample device has no flag. *)
Lemma X5_flag_strings_without_host_flags_witness :
  memory_within Sample.mem /\
  In (OutType 1 "DEVICE_ONLY")
     (out (dump_memory (hdr := vulkan_h) Sample.mem EmptyString)).
Proof.
  assert (Hw : memory_within Sample.mem)
    by (unfold memory_within; simpl; lia).
  split; [exact Hw|].
  destruct (X5_flag_strings_without_host_flags vulkan_h Sample.mem 1
              {| propertyFlags := 0; heapIndex := 0 |} Hw) as [Hdev _].
  - simpl; lia.
  - reflexivity.
  - simpl; lia.
  - apply (Hdev eq_refl eq_refl). reflexivity.
Defined.

(** ** What the printing loops never do *)

Lemma calls_bind {A B : Type} (m : run A) (f : A -> run B) :
  calls (bind m f) =
  calls m ++ match res m with
             | Normal a => calls (f a)
             | _ => []
             end.
Proof.
  unfold bind. destruct (res m); cbn [stop calls]; try reflexivity;
    symmetry; apply app_nil_r.
Qed.

Lemma res_bind {A B : Type} (m : run A) (f : A -> run B) :
  res (bind m f) =
  match res m with
  | Normal a => res (f a)
  | Exited c => Exited c
  | Undefined => Undefined
  | OutOfFuel => OutOfFuel
  end.
Proof. unfold bind. destruct (res m); reflexivity. Qed.

Lemma out_bind {A B : Type} (m : run A) (f : A -> run B) :
  out (bind m f) =
  out m ++ match res m with
           | Normal a => out (f a)
           | _ => []
           end.
Proof.
  unfold bind. destruct (res m); cbn [stop out]; try reflexivity;
    symmetry; apply app_nil_r.
Qed.

Lemma err_bind {A B : Type} (m : run A) (f : A -> run B) :
  err (bind m f) =
  err m ++ match res m with
           | Normal a => err (f a)
           | _ => []
           end.
Proof.
  unfold bind. destruct (res m); cbn [stop err]; try reflexivity;
    symmetry; apply app_nil_r.
Qed.

Lemma calls_for_from {St : Type} (body : Z -> St -> run St) (n : nat) :
  (forall k s, calls (body k s) = []) ->
  forall i s, calls (for_from n i body s) = [].
Proof.
  intros Hb. induction n as [|n IH]; intros i s; cbn [for_from];
    [reflexivity|].
  rewrite calls_bind, Hb. destruct (res (body i s)); try reflexivity.
  apply IH.
Qed.

Lemma calls_index {A : Type} (l : list A) (i : Z) : calls (index l i) = [].
Proof. unfold index. destruct (nth_error l (Z.to_nat i)); reflexivity. Qed.

(** A loop stops with undefined behaviour when one of its iterations always
    does and no iteration can exit. *)
Lemma for_from_undefined {St : Type} (body : Z -> St -> run St) (j : Z) :
  (forall k s, (exists s', res (body k s) = Normal s') \/
               res (body k s) = Undefined) ->
  (forall s, res (body j s) = Undefined) ->
  forall n i s,
    i <= j < i + Z.of_nat n ->
    res (for_from n i body s) = Undefined.
Proof.
  intros Hb Hj. induction n as [|n IH]; intros i s Hr; [simpl in Hr; lia|].
  cbn [for_from]. rewrite res_bind.
  destruct (Hb i s) as [[s' E]|E]; rewrite E; [|reflexivity].
  destruct (Z.eq_dec i j) as [->|Hne].
  - rewrite Hj in E. discriminate E.
  - apply IH. lia.
Qed.

Section Loops.

Context {hdr : VulkanHeader}.

Lemma no_calls_no_exit {A : Type} (r : run A) :
  fail_fast [] r -> calls r = [] ->
  err r = [] /\ ((exists a, res r = Normal a) \/ res r = Undefined).
Proof.
  intros [a _ He Hr | w2 _ Hw Hr | pre c code w1 w2 Hc _ _ _ _ _] Hn.
  - split; [exact He|]. left. exists a. exact Hr.
  - symmetry in Hw. apply app_eq_nil in Hw. split; [tauto|].
    right. exact Hr.
  - rewrite Hn in Hc. symmetry in Hc. apply app_eq_nil in Hc.
    destruct Hc as [_ Hc]. discriminate Hc.
Qed.

Lemma calls_queue_flags_loop (x : Z) (sep strbuf : string) :
  calls (queue_flags_loop 33 x sep strbuf) = [].
Proof.
  rewrite queue_flags_loop_spec
    by (pose proof (scan_length (Z.testbit x) 32 0);
        unfold bit_positions; lia).
  generalize (all_some
                (map (fun k => VkQueueFlagBitStr (to_int32 (Z.shiftl 1 k)))
                   (bit_positions x))).
  intros [ls|]; reflexivity.
Qed.

Lemma calls_dump_queue_family qfp family strbuf :
  calls (dump_queue_family qfp family strbuf) = [].
Proof.
  unfold dump_queue_family. rewrite calls_bind, calls_index.
  destruct (res (index qfp family)) as [q| | |]; try reflexivity.
  rewrite calls_bind, calls_queue_flags_loop.
  destruct (res (queue_flags_loop 33 _ _ _)); reflexivity.
Qed.

Lemma calls_dump_memory_type mp h t strbuf :
  calls (dump_memory_type mp h t strbuf) = [].
Proof.
  unfold dump_memory_type. rewrite calls_bind, calls_index.
  destruct (res (index (memoryTypes mp) t)) as [mt| | |]; try reflexivity.
  destruct (negb (heapIndex mt =? h)); reflexivity.
Qed.

Lemma calls_dump_memory_heap mp h strbuf :
  calls (dump_memory_heap mp h strbuf) = [].
Proof.
  unfold dump_memory_heap. rewrite calls_bind, calls_index.
  destruct (res (index (memoryHeaps mp) h)) as [mh| | |]; try reflexivity.
  rewrite bind_printf. cbn [calls app]. unfold for_upto.
  apply calls_for_from. intros k s. apply calls_dump_memory_type.
Qed.

Lemma calls_dump_memory mp strbuf : calls (dump_memory mp strbuf) = [].
Proof.
  unfold dump_memory, for_upto. apply calls_for_from.
  intros k s. apply calls_dump_memory_heap.
Qed.

Lemma fail_fast_dump_memory_type mp h t strbuf :
  fail_fast [] (dump_memory_type mp h t strbuf).
Proof.
  unfold dump_memory_type.
  apply fail_fast_bind_nil; [apply fail_fast_index | intros mt].
  destruct (negb (heapIndex mt =? h)); [apply fail_fast_ret|].
  apply fail_fast_bind_nil; [apply fail_fast_printf | intros _].
  apply fail_fast_ret.
Qed.

Lemma fail_fast_dump_memory_heap mp h strbuf :
  fail_fast [] (dump_memory_heap mp h strbuf).
Proof.
  unfold dump_memory_heap.
  apply fail_fast_bind_nil; [apply fail_fast_index | intros mh].
  apply fail_fast_bind_nil; [apply fail_fast_printf | intros _].
  apply fail_fast_for_from. intros t s. apply fail_fast_dump_memory_type.
Qed.

Lemma index_past_end {A : Type} (l : list A) (i : Z) :
  Z.of_nat (List.length l) <= i -> index l i = undefined.
Proof.
  intros H. unfold index.
  destruct (nth_error l (Z.to_nat i)) as [a|] eqn:E; [|reflexivity].
  assert (Hlt : (Z.to_nat i < List.length l)%nat)
    by (apply nth_error_Some; congruence).
  lia.
Qed.

(** The loop over the memory types stops with undefined behaviour when the
    type count is past the array. *)
Lemma memory_types_overrun mp h strbuf :
  Z.of_nat (List.length (memoryTypes mp)) < memoryTypeCount mp ->
  res (for_upto (memoryTypeCount mp) (dump_memory_type mp h) strbuf) =
  Undefined.
Proof.
  intros H. unfold for_upto.
  apply (for_from_undefined _ (Z.of_nat (List.length (memoryTypes mp)))).
  - intros k s.
    apply (no_calls_no_exit _ (fail_fast_dump_memory_type mp h k s)
             (calls_dump_memory_type mp h k s)).
  - intros s. unfold dump_memory_type.
    rewrite index_past_end by lia. reflexivity.
  - lia.
Qed.

Lemma dump_memory_heap_types_overrun mp strbuf :
  Z.of_nat (List.length (memoryTypes mp)) < memoryTypeCount mp ->
  res (dump_memory_heap mp 0 strbuf) = Undefined.
Proof.
  intros H. unfold dump_memory_heap. rewrite res_bind.
  destruct (nth_error (memoryHeaps mp) (Z.to_nat 0)) as [mh|] eqn:E.
  - unfold index. rewrite E. cbn [ret res]. rewrite bind_printf. cbn [res].
    apply memory_types_overrun. exact H.
  - unfold index. rewrite E. reflexivity.
Qed.

End Loops.

(** X6.  The memory loops trust the two counts.  The struct holds both
    arrays at their full capacity.  Counts within the capacities are printed
    as they are, whatever part of the arrays the driver filled.  When the
    device has a heap and the heap count or the type count is larger than the
    capacity of the array it indexes, the loops read past the end of that
    array: the behaviour is undefined, and the tool neither exits nor writes
    a diagnostic nor calls the driver. *)
Theorem X6_memory_counts_past_the_arrays (hdr : VulkanHeader)
  (lim : VulkanLimits) (mp : VkPhysicalDeviceMemoryProperties) :
  memory_arrays_full mp ->
  (0 <= memoryTypeCount mp <= Z.of_nat VK_MAX_MEMORY_TYPES ->
   0 <= memoryHeapCount mp <= Z.of_nat VK_MAX_MEMORY_HEAPS ->
   dump_memory mp EmptyString =
     mkRun [] (memory_report mp) [] (Normal EmptyString)) /\
  (0 < memoryHeapCount mp ->
   Z.of_nat VK_MAX_MEMORY_HEAPS < memoryHeapCount mp \/
   Z.of_nat VK_MAX_MEMORY_TYPES < memoryTypeCount mp ->
   forall strbuf,
     res (dump_memory mp strbuf) = Undefined /\
     err (dump_memory mp strbuf) = [] /\
     calls (dump_memory mp strbuf) = []).
Proof.
  intros [Htypes_full Hheaps_full]. split.
  - intros Ht Hh. apply dump_memory_spec. unfold memory_within.
    rewrite Htypes_full, Hheaps_full. split; assumption.
  - intros Hpos Hover strbuf.
    rewrite <- Htypes_full, <- Hheaps_full in Hover.
    destruct (no_calls_no_exit _ (fail_fast_dump_memory mp strbuf)
                (calls_dump_memory mp strbuf)) as [He _].
    split; [|split; [exact He | apply calls_dump_memory]].
    unfold dump_memory, for_upto.
    assert (Hbody : forall k s,
              (exists s', res (dump_memory_heap mp k s) = Normal s') \/
              res (dump_memory_heap mp k s) = Undefined).
    { intros k s.
      apply (no_calls_no_exit _ (fail_fast_dump_memory_heap mp k s)
               (calls_dump_memory_heap mp k s)). }
    destruct Hover as [Hheaps|Htypes].
    + apply (for_from_undefined _
               (Z.of_nat (List.length (memoryHeaps mp))));
        [exact Hbody | | lia].
      intros s. unfold dump_memory_heap.
      rewrite index_past_end by lia. reflexivity.
    + apply (for_from_undefined _ 0); [exact Hbody | | lia].
      intros s. apply dump_memory_heap_types_overrun. exact Htypes.
Qed.

(** Thirty-three types counted in the array of thirty-two are past it; five
    are not, and the fifth entry is printed although the sample filled
    four. *)
Lemma X6_memory_counts_past_the_arrays_witness :
  memory_arrays_full (lim := vulkan_h_limits) Scripts.mem_overrun /\
  Z.of_nat (VK_MAX_MEMORY_TYPES (VulkanLimits := vulkan_h_limits)) <
    memoryTypeCount Scripts.mem_overrun /\
  res (dump_memory (hdr := vulkan_h) Scripts.mem_overrun EmptyString) =
    Undefined /\
  In (OutType 4 "DEVICE_ONLY")
    (out (dump_memory (hdr := vulkan_h) Scripts.mem_spare EmptyString)).
Proof.
  split; [split; reflexivity|]. split; [simpl; lia|]. split.
  - apply (X6_memory_counts_past_the_arrays vulkan_h vulkan_h_limits
             Scripts.mem_overrun);
      [split; reflexivity | simpl; lia | right; simpl; lia].
  - destruct (X6_memory_counts_past_the_arrays vulkan_h vulkan_h_limits
                Scripts.mem_spare) as [Hwithin _]; [split; reflexivity|].
    rewrite Hwithin by (simpl; lia). vm_compute.
    repeat (first [left; reflexivity | right]).
Defined.

(** ** The queue family enumeration and its buffer *)

Section QueueBuffer.

Context {hdr : VulkanHeader}.

Lemma length_queue_family_buffer (d : DeviceScript) :
  List.length (queue_family_buffer d) = Z.to_nat (queue_count_out d).
Proof.
  unfold queue_family_buffer. rewrite length_overwrite, repeat_length.
  reflexivity.
Qed.

(** Once its two queries succeeded, the enumeration is the loop over the
    families, run on the buffer. *)
Lemma dump_queue_families_queried pdev d strbuf :
  queue_count_result d = VK_SUCCESS ->
  queue_values_result d = VK_SUCCESS ->
  dump_queue_families pdev d strbuf =
  mkRun
    [ (GetPhysicalDeviceQueueFamilyPropertiesCount pdev,
       Some (queue_count_result d));
      (GetPhysicalDeviceQueueFamilyPropertiesValues pdev,
       Some (queue_values_result d)) ]
    (out (for_upto (queue_values_count d)
            (dump_queue_family (queue_family_buffer d)) strbuf))
    (err (for_upto (queue_values_count d)
            (dump_queue_family (queue_family_buffer d)) strbuf))
    (res (for_upto (queue_values_count d)
            (dump_queue_family (queue_family_buffer d)) strbuf)).
Proof.
  intros H1 H2. unfold dump_queue_families.
  rewrite (bind_checked_success _ _ _ _ H1).
  rewrite (bind_checked_success _ _ _ _ H2).
  cbn [calls out err res]. unfold for_upto.
  rewrite (calls_for_from _ _ (calls_dump_queue_family _)).
  reflexivity.
Qed.

Lemma family_loop_quiet qfp count strbuf :
  err (for_upto count (dump_queue_family qfp) strbuf) = [] /\
  ((exists s, res (for_upto count (dump_queue_family qfp) strbuf) = Normal s)
   \/ res (for_upto count (dump_queue_family qfp) strbuf) = Undefined).
Proof.
  apply no_calls_no_exit.
  - unfold for_upto. apply fail_fast_for_from. intros i s.
    apply fail_fast_dump_queue_family.
  - unfold for_upto. apply calls_for_from. apply calls_dump_queue_family.
Qed.

End QueueBuffer.

(** X7.  The queue family loop trusts the count of the values query.  When
    that query reports more families than the count query did, the loop
    reads past the end of the buffer sized by the count query: the behaviour
    is undefined, with no diagnostic, no exit and no further driver call. *)
Theorem X7_queue_family_count_grows (hdr : VulkanHeader) (pdev : Z)
  (d : DeviceScript) (strbuf : string) :
  queue_count_result d = VK_SUCCESS ->
  queue_values_result d = VK_SUCCESS ->
  Z.of_nat (Z.to_nat (queue_count_out d)) < queue_values_count d ->
  res (dump_queue_families pdev d strbuf) = Undefined /\
  err (dump_queue_families pdev d strbuf) = [] /\
  calls (dump_queue_families pdev d strbuf) =
    [ (GetPhysicalDeviceQueueFamilyPropertiesCount pdev,
       Some (queue_count_result d));
      (GetPhysicalDeviceQueueFamilyPropertiesValues pdev,
       Some (queue_values_result d)) ].
Proof.
  intros H1 H2 Hgrow. rewrite (dump_queue_families_queried pdev d strbuf H1 H2).
  cbn [calls err res].
  split; [|split; [apply family_loop_quiet | reflexivity]].
  unfold for_upto.
  apply (for_from_undefined _
           (Z.of_nat (List.length (queue_family_buffer d)))).
  - intros k s.
    apply (no_calls_no_exit _ (fail_fast_dump_queue_family _ k s)
             (calls_dump_queue_family _ k s)).
  - intros s. unfold dump_queue_family.
    rewrite index_past_end by lia. reflexivity.
  - rewrite length_queue_family_buffer. lia.
Qed.

(** One family counted, two reported. *)
Lemma X7_queue_family_count_grows_witness :
  queue_count_out Scripts.gpu_queue_growing = 1 /\
  queue_values_count Scripts.gpu_queue_growing = 2 /\
  res (dump_queue_families (hdr := vulkan_h) 30 Scripts.gpu_queue_growing
         EmptyString) = Undefined.
Proof.
  split; [reflexivity|]. split; [reflexivity|].
  apply (X7_queue_family_count_grows vulkan_h 30 Scripts.gpu_queue_growing
           EmptyString); [reflexivity | reflexivity | simpl; lia].
Defined.

(** ** The queries of a device dump *)

Lemma bind_exited {A B : Type} cs os es (c : Z) (f : A -> run B) :
  bind (mkRun cs os es (Exited c)) f = mkRun cs os es (Exited c).
Proof. reflexivity. Qed.

Section DeviceQueries.

Context {hdr : VulkanHeader}.

(** The enumeration of the queue families makes its two queries in order,
    and both when it ends normally. *)
Lemma calls_dump_queue_families pdev d strbuf :
  exists n,
    calls (dump_queue_families pdev d strbuf) =
    firstn n
      [ (GetPhysicalDeviceQueueFamilyPropertiesCount pdev,
         Some (queue_count_result d));
        (GetPhysicalDeviceQueueFamilyPropertiesValues pdev,
         Some (queue_values_result d)) ] /\
    (forall s, res (dump_queue_families pdev d strbuf) = Normal s ->
               n = 2%nat).
Proof.
  destruct (Z.eq_dec (queue_count_result d) VK_SUCCESS) as [H1|H1].
  - destruct (Z.eq_dec (queue_values_result d) VK_SUCCESS) as [H2|H2].
    + exists 2%nat. rewrite (dump_queue_families_queried pdev d strbuf H1 H2).
      split; [reflexivity | intros; reflexivity].
    + exists 2%nat. unfold dump_queue_families.
      rewrite (bind_checked_success _ _ _ _ H1).
      rewrite (bind_checked_failure _ _ _ _ H2).
      split; [reflexivity | intros; reflexivity].
  - exists 1%nat. unfold dump_queue_families.
    rewrite (bind_checked_failure _ _ _ _ H1).
    split; [reflexivity | intros s H; discriminate H].
Qed.

Lemma calls_DumpPhysicalDevice drv idx pdev :
  exists n,
    calls (DumpPhysicalDevice drv idx pdev) =
    firstn n (device_queries pdev (device drv pdev)) /\
    (forall a, res (DumpPhysicalDevice drv idx pdev) = Normal a ->
               n = 4%nat).
Proof.
  unfold DumpPhysicalDevice, device_queries.
  destruct (Z.eq_dec (props_result (device drv pdev)) VK_SUCCESS) as [H1|H1].
  - rewrite (bind_checked_success _ _ _ _ H1), bind_printf.
    destruct (Z.eq_dec (mem_result (device drv pdev)) VK_SUCCESS) as [H2|H2].
    + rewrite (bind_checked_success _ _ _ _ H2). cbn [calls res].
      rewrite calls_bind, calls_dump_memory, res_bind. cbn [app].
      destruct (res (dump_memory (mem_out (device drv pdev)) EmptyString))
        as [s| | |].
      * rewrite calls_bind, res_bind.
        destruct (calls_dump_queue_families pdev (device drv pdev) s)
          as (n & Hn & Hfull).
        rewrite Hn.
        destruct (res (dump_queue_families pdev (device drv pdev) s))
          as [s'| | |].
        -- exists 4%nat. rewrite (Hfull s' eq_refl).
           split; [reflexivity | intros; reflexivity].
        -- exists (2 + Nat.min n 2)%nat. rewrite app_nil_r.
           split; [|intros a H; discriminate H].
           destruct n as [|[|[|n]]]; reflexivity.
        -- exists (2 + Nat.min n 2)%nat. rewrite app_nil_r.
           split; [|intros a H; discriminate H].
           destruct n as [|[|[|n]]]; reflexivity.
        -- exists (2 + Nat.min n 2)%nat. rewrite app_nil_r.
           split; [|intros a H; discriminate H].
           destruct n as [|[|[|n]]]; reflexivity.
      * exists 2%nat. split; [reflexivity | intros a H; discriminate H].
      * exists 2%nat. split; [reflexivity | intros a H; discriminate H].
      * exists 2%nat. split; [reflexivity | intros a H; discriminate H].
    + rewrite (bind_checked_failure _ _ _ _ H2). exists 2%nat.
      split; [reflexivity | intros a H; discriminate H].
  - rewrite (bind_checked_failure _ _ _ _ H1). exists 1%nat.
    split; [reflexivity | intros a H; discriminate H].
Qed.

End DeviceQueries.

(** X8.  The driver calls of a device dump.  Whatever the driver answers,
    the calls made are an initial part of the four queries on that device, in
    the order properties, memory properties, queue family count, queue family
    values: no query is repeated, none is made on another device and none is
    made from the printing loops.  A dump that runs to its end made all four,
    and each returned success. *)
Theorem X8_device_dump_queries (hdr : VulkanHeader) (drv : Driver)
  (idx pdev : Z) :
  (exists n,
     calls (DumpPhysicalDevice drv idx pdev) =
     firstn n (device_queries pdev (device drv pdev))) /\
  (forall a,
     res (DumpPhysicalDevice drv idx pdev) = Normal a ->
     calls (DumpPhysicalDevice drv idx pdev) =
       device_queries pdev (device drv pdev) /\
     props_result (device drv pdev) = VK_SUCCESS /\
     mem_result (device drv pdev) = VK_SUCCESS /\
     queue_count_result (device drv pdev) = VK_SUCCESS /\
     queue_values_result (device drv pdev) = VK_SUCCESS).
Proof.
  destruct (calls_DumpPhysicalDevice drv idx pdev) as (n & Hn & Hfull).
  split; [exists n; exact Hn|].
  intros a Hr. rewrite (Hfull a Hr) in Hn.
  assert (Hc : calls (DumpPhysicalDevice drv idx pdev) =
               device_queries pdev (device drv pdev)) by exact Hn.
  split; [exact Hc|].
  destruct (fail_fast_DumpPhysicalDevice drv idx pdev)
    as [b Hs _ _ | w2 _ _ Hu | pre c code w1 w2 _ _ _ _ _ He].
  - rewrite Hc in Hs. unfold device_queries in Hs.
    repeat match goal with
           | H : Forall _ (_ :: _) |- _ => inversion H; clear H; subst
           end.
    repeat split;
      match goal with
      | H : succeeded (_, Some ?r) |- ?r = _ => exact (H r eq_refl)
      end.
  - rewrite Hu in Hr. discriminate Hr.
  - rewrite He in Hr. discriminate Hr.
Qed.

(** The first sample device: its dump returns, so all four queries were
    made. *)
Lemma X8_device_dump_queries_witness :
  calls (DumpPhysicalDevice (hdr := vulkan_h) Sample.steady 0 10) =
    device_queries 10 Sample.gpu.
Proof.
  destruct (X8_device_dump_queries vulkan_h Sample.steady 0 10)
    as (_ & Hfull).
  destruct (Hfull tt) as (Hcalls & _).
  - vm_compute. reflexivity.
  - rewrite Hcalls. reflexivity.
Defined.

(** X9.  What a failing device dump has printed.  A failing properties
    query leaves nothing of the device on standard output; a failing memory
    query leaves the device line; a failing queue family query, count or
    values, leaves the device line and the whole memory report and no queue
    family line.  In each case the failure line names the failing query and
    the dump exits with status 1 right after it. *)
Theorem X9_output_of_a_failing_dump (hdr : VulkanHeader) (drv : Driver)
  (idx pdev : Z) :
  (props_result (device drv pdev) <> VK_SUCCESS ->
   DumpPhysicalDevice drv idx pdev =
   mkRun (firstn 1 (device_queries pdev (device drv pdev))) []
     [ErrFailed "vkGetPhysicalDeviceProperties"
        (result_str (props_result (device drv pdev)))
        (props_result (device drv pdev))]
     (Exited 1)) /\
  (props_result (device drv pdev) = VK_SUCCESS ->
   mem_result (device drv pdev) <> VK_SUCCESS ->
   DumpPhysicalDevice drv idx pdev =
   mkRun (firstn 2 (device_queries pdev (device drv pdev)))
     [device_line idx (props_out (device drv pdev))]
     [ErrFailed "vkGetPhysicalDeviceMemoryProperties"
        (result_str (mem_result (device drv pdev)))
        (mem_result (device drv pdev))]
     (Exited 1)) /\
  (props_result (device drv pdev) = VK_SUCCESS ->
   mem_result (device drv pdev) = VK_SUCCESS ->
   memory_within (mem_out (device drv pdev)) ->
   queue_count_result (device drv pdev) <> VK_SUCCESS ->
   DumpPhysicalDevice drv idx pdev =
   mkRun (firstn 3 (device_queries pdev (device drv pdev)))
     (device_line idx (props_out (device drv pdev))
      :: memory_report (mem_out (device drv pdev)))
     [ErrFailed "vkGetPhysicalDeviceQueueFamilyProperties (count)"
        (result_str (queue_count_result (device drv pdev)))
        (queue_count_result (device drv pdev))]
     (Exited 1)) /\
  (props_result (device drv pdev) = VK_SUCCESS ->
   mem_result (device drv pdev) = VK_SUCCESS ->
   memory_within (mem_out (device drv pdev)) ->
   queue_count_result (device drv pdev) = VK_SUCCESS ->
   queue_values_result (device drv pdev) <> VK_SUCCESS ->
   DumpPhysicalDevice drv idx pdev =
   mkRun (device_queries pdev (device drv pdev))
     (device_line idx (props_out (device drv pdev))
      :: memory_report (mem_out (device drv pdev)))
     [ErrFailed "vkGetPhysicalDeviceQueueFamilyProperties (values)"
        (result_str (queue_values_result (device drv pdev)))
        (queue_values_result (device drv pdev))]
     (Exited 1)).
Proof.
  unfold DumpPhysicalDevice, device_queries, device_line.
  split; [|split; [|split]].
  - intros H1. rewrite (bind_checked_failure _ _ _ _ H1). reflexivity.
  - intros H1 H2. rewrite (bind_checked_success _ _ _ _ H1), bind_printf.
    rewrite (bind_checked_failure _ _ _ _ H2). reflexivity.
  - intros H1 H2 Hw H3.
    rewrite (bind_checked_success _ _ _ _ H1), bind_printf.
    rewrite (bind_checked_success _ _ _ _ H2).
    rewrite (dump_memory_spec _ Hw), bind_pure.
    unfold dump_queue_families.
    rewrite (bind_checked_failure _ _ _ _ H3), bind_exited.
    cbn [calls out err res firstn]. rewrite app_nil_r. reflexivity.
  - intros H1 H2 Hw H3 H4.
    rewrite (bind_checked_success _ _ _ _ H1), bind_printf.
    rewrite (bind_checked_success _ _ _ _ H2).
    rewrite (dump_memory_spec _ Hw), bind_pure.
    unfold dump_queue_families.
    rewrite (bind_checked_success _ _ _ _ H3).
    rewrite (bind_checked_failure _ _ _ _ H4).
    cbn [calls out err res]. rewrite bind_exited.
    cbn [calls out err res]. rewrite app_nil_r. reflexivity.
Qed.

(** The memory query of device 20 fails: its device line stands alone. *)
Lemma X9_output_of_a_failing_dump_witness :
  out (DumpPhysicalDevice (hdr := vulkan_h) Scripts.second_fails 1 20) =
    [device_line (hdr := vulkan_h) 1 Sample.props] /\
  res (DumpPhysicalDevice (hdr := vulkan_h) Scripts.second_fails 1 20) =
    Exited 1.
Proof.
  destruct (X9_output_of_a_failing_dump vulkan_h Scripts.second_fails 1 20)
    as (_ & Hmem & _).
  rewrite Hmem.
  - split; reflexivity.
  - reflexivity.
  - vm_compute. discriminate.
Defined.

(** ** The working list of devices *)

Lemma In_firstn {A : Type} (n : nat) (l : list A) (x : A) :
  In x (firstn n l) -> In x l.
Proof.
  intros H. rewrite <- (firstn_skipn n l). apply in_or_app. left. exact H.
Qed.

Lemma In_skipn {A : Type} (n : nat) (l : list A) (x : A) :
  In x (skipn n l) -> In x l.
Proof.
  intros H. rewrite <- (firstn_skipn n l). apply in_or_app. right. exact H.
Qed.

Lemma In_overwrite {A : Type} (written buf : list A) (x : A) :
  In x (overwrite written buf) -> In x written \/ In x buf.
Proof.
  unfold overwrite. intros H. apply In_firstn in H.
  apply in_app_or in H. destruct H as [H|H]; [left; exact H|].
  right. exact (In_skipn _ _ _ H).
Qed.

Lemma nth_error_overwrite {A : Type} (written buf : list A) (i : nat) :
  (i < List.length written)%nat -> (i < List.length buf)%nat ->
  nth_error (overwrite written buf) i = nth_error written i.
Proof.
  intros Hw Hb. unfold overwrite. rewrite nth_error_firstn.
  destruct (Nat.ltb_spec i (List.length buf)); [|lia].
  apply nth_error_app1. exact Hw.
Qed.

Lemma length_resize {A : Type} (n : nat) (dflt : A) (l : list A) :
  List.length (resize n dflt l) = n.
Proof.
  unfold resize. rewrite length_app, length_firstn, repeat_length. lia.
Qed.

Section WorkingList.

Context {hdr : VulkanHeader}.

Lemma length_device_buffer (drv : Driver) :
  List.length
    (overwrite (enum_data_out drv)
       (repeat VK_NULL_HANDLE (Z.to_nat (enum_count_out drv)))) =
  Z.to_nat (enum_count_out drv).
Proof. rewrite length_overwrite, repeat_length. reflexivity. Qed.

Lemma length_working_devices (drv : Driver) :
  List.length (working_devices drv) = Z.to_nat (enum_data_count drv).
Proof.
  unfold working_devices. rewrite length_device_buffer.
  destruct (Z.eqb_spec (enum_data_count drv)
              (Z.of_nat (Z.to_nat (enum_count_out drv)))) as [E|E].
  - rewrite length_device_buffer. lia.
  - apply length_resize.
Qed.

Lemma In_working_devices (drv : Driver) (pdev : Z) :
  In pdev (working_devices drv) ->
  In pdev (enum_data_out drv) \/ pdev = VK_NULL_HANDLE.
Proof.
  assert (Hbuf : forall x,
            In x (overwrite (enum_data_out drv)
                    (repeat VK_NULL_HANDLE (Z.to_nat (enum_count_out drv)))) ->
            In x (enum_data_out drv) \/ x = VK_NULL_HANDLE).
  { intros x H. apply In_overwrite in H. destruct H as [H|H]; [tauto|].
    right. exact (repeat_spec _ _ _ H). }
  unfold working_devices.
  destruct (enum_data_count drv =? _); [apply Hbuf|].
  unfold resize. intros H. apply in_app_or in H. destruct H as [H|H].
  - apply Hbuf. exact (In_firstn _ _ _ H).
  - right. exact (repeat_spec _ _ _ H).
Qed.

Lemma nth_error_working_devices (drv : Driver) (i : nat) :
  (i < List.length (enum_data_out drv))%nat ->
  (i < Z.to_nat (enum_count_out drv))%nat ->
  (i < Z.to_nat (enum_data_count drv))%nat ->
  nth_error (working_devices drv) i = nth_error (enum_data_out drv) i.
Proof.
  intros Hw Hn Hm. unfold working_devices.
  destruct (enum_data_count drv =? _).
  - apply nth_error_overwrite; [exact Hw|].
    rewrite repeat_length. exact Hn.
  - unfold resize. rewrite nth_error_app1
      by (rewrite length_firstn, length_device_buffer; lia).
    rewrite nth_error_firstn.
    destruct (Nat.ltb_spec i (Z.to_nat (enum_data_count drv))); [|lia].
    apply nth_error_overwrite; [exact Hw|].
    rewrite repeat_length. exact Hn.
Qed.

End WorkingList.

(** X10.  The devices that are dumped.  Once the enumeration succeeded, the
    devices dumped are as many as the values query reported; each handle is
    one the driver wrote into the buffer or the null handle the buffer was
    filled with, and the entries the driver wrote come first, in order.  Any
    difference between the two counts writes the decrease line, also when the
    count grew: the list is then padded with null handles, which are dumped
    like any other. *)
Theorem X10_working_list_of_devices (hdr : VulkanHeader) (drv : Driver)
  (argc : Z) (argv : list string) :
  create_result drv = VK_SUCCESS ->
  enum_count_result drv = VK_SUCCESS ->
  enum_data_result drv = VK_SUCCESS ->
  main argc argv drv =
    mkRun
      (enumeration_calls drv ++ calls (report_devices drv))
      (out (report_devices drv))
      (decrease_warning drv ++ err (report_devices drv))
      (res (report_devices drv)) /\
  List.length (working_devices drv) = Z.to_nat (enum_data_count drv) /\
  (forall pdev,
     In pdev (working_devices drv) ->
     In pdev (enum_data_out drv) \/ pdev = VK_NULL_HANDLE) /\
  (forall i,
     (i < List.length (enum_data_out drv))%nat ->
     (i < Z.to_nat (enum_count_out drv))%nat ->
     (i < Z.to_nat (enum_data_count drv))%nat ->
     nth_error (working_devices drv) i = nth_error (enum_data_out drv) i) /\
  (0 <= enum_count_out drv ->
   enum_data_count drv <> enum_count_out drv ->
   decrease_warning drv =
     [ErrDecreased (enum_count_out drv) (enum_data_count drv)]) /\
  (0 <= enum_count_out drv < enum_data_count drv ->
   working_devices drv =
     overwrite (enum_data_out drv)
       (repeat VK_NULL_HANDLE (Z.to_nat (enum_count_out drv)))
     ++ repeat VK_NULL_HANDLE
          (Z.to_nat (enum_data_count drv - enum_count_out drv))).
Proof.
  intros H1 H2 H3.
  split; [exact (main_after_enumeration argc argv drv H1 H2 H3)|].
  split; [apply length_working_devices|].
  split; [apply In_working_devices|].
  split; [apply nth_error_working_devices|]. split.
  - intros Hn Hne. unfold decrease_warning. rewrite length_device_buffer.
    destruct (Z.eqb_spec (enum_data_count drv)
                (Z.of_nat (Z.to_nat (enum_count_out drv)))); [lia|].
    rewrite Z2Nat.id by lia. reflexivity.
  - intros Hgrow. unfold working_devices. rewrite length_device_buffer.
    destruct (Z.eqb_spec (enum_data_count drv)
                (Z.of_nat (Z.to_nat (enum_count_out drv)))); [lia|].
    unfold resize. rewrite length_device_buffer.
    rewrite firstn_all2 by (rewrite length_device_buffer; lia).
    do 2 f_equal. lia.
Qed.

(** One device counted, two reported: the second handle is null. *)
Lemma X10_working_list_of_devices_witness :
  enum_count_out Scripts.growing = 1 /\
  enum_data_count Scripts.growing = 2 /\
  working_devices (hdr := vulkan_h) Scripts.growing = [10; 0] /\
  err (main (hdr := vulkan_h) 1 ["vkinfo"%string] Scripts.growing) =
    [ErrDecreased 1 2].
Proof.
  split; [reflexivity|]. split; [reflexivity|]. split; [reflexivity|].
  destruct (X10_working_list_of_devices vulkan_h Scripts.growing 1
              ["vkinfo"%string] eq_refl eq_refl eq_refl)
    as (Hmain & _ & _ & _ & Hwarn & _).
  rewrite Hmain. cbn [err]. rewrite Hwarn by (simpl; lia). reflexivity.
Defined.

(** ** The instance is destroyed on the way out *)

Lemma Forall_calls_for_from {St : Type} (P : call_record -> Prop)
  (body : Z -> St -> run St) (n : nat) :
  (forall k s, Forall P (calls (body k s))) ->
  forall i s, Forall P (calls (for_from n i body s)).
Proof.
  intros Hb. induction n as [|n IH]; intros i s; cbn [for_from].
  - constructor.
  - rewrite calls_bind. apply Forall_app. split; [apply Hb|].
    destruct (res (body i s)); try constructor. apply IH.
Qed.

Section Teardown.

Context {hdr : VulkanHeader}.

Lemma queries_keep_instance pdev d :
  Forall (fun cr => is_destroy cr = false) (device_queries pdev d).
Proof. unfold device_queries. repeat constructor. Qed.

Lemma DumpPhysicalDevice_keeps_instance drv idx pdev :
  Forall (fun cr => is_destroy cr = false)
    (calls (DumpPhysicalDevice drv idx pdev)).
Proof.
  destruct (calls_DumpPhysicalDevice drv idx pdev) as (n & -> & _).
  apply Forall_forall. intros cr H. apply In_firstn in H.
  revert cr H. apply Forall_forall. apply queries_keep_instance.
Qed.

Lemma dump_device_keeps_instance drv physical_devices i u :
  Forall (fun cr => is_destroy cr = false)
    (calls (dump_device drv physical_devices i u)).
Proof.
  unfold dump_device. rewrite calls_bind, calls_index. cbn [app].
  destruct (res (index physical_devices i)); try constructor.
  apply DumpPhysicalDevice_keeps_instance.
Qed.

(** The tail of [main]: the destroy call is made after the loop, and only
    when the loop came to its end. *)
Lemma report_devices_teardown drv :
  exists loop_calls,
    Forall (fun cr => is_destroy cr = false) loop_calls /\
    ((exists c, res (report_devices drv) = Normal c) /\
     res (report_devices drv) = Normal 0 /\
     calls (report_devices drv) = loop_calls ++ [(DestroyInstance, None)]
     \/
     (forall c, res (report_devices drv) <> Normal c) /\
     calls (report_devices drv) = loop_calls).
Proof.
  unfold report_devices. rewrite bind_printf. cbn [calls res].
  pose proof (Forall_calls_for_from (fun cr => is_destroy cr = false)
                (dump_device drv (working_devices drv))
                (Z.to_nat (Z.of_nat (List.length (working_devices drv))))
                (dump_device_keeps_instance drv (working_devices drv))
                0 tt) as Hloop.
  fold (for_upto (Z.of_nat (List.length (working_devices drv)))
          (dump_device drv (working_devices drv)) tt) in Hloop.
  remember (for_upto (Z.of_nat (List.length (working_devices drv)))
              (dump_device drv (working_devices drv)) tt) as L eqn:EL.
  clear EL. exists (calls L). split; [exact Hloop|].
  rewrite calls_bind, res_bind.
  destruct (res L) as [[]|c| |].
  - left. split; [exists 0; reflexivity|]. split; reflexivity.
  - right. split; [intros c' H; discriminate H | apply app_nil_r].
  - right. split; [intros c' H; discriminate H | apply app_nil_r].
  - right. split; [intros c' H; discriminate H | apply app_nil_r].
Qed.

End Teardown.

(** X11.  The instance is destroyed exactly when the program returns.  When
    [main] returns, [vkDestroyInstance] is its last driver call and the only
    such call, and the value returned is 0; on every other way out (a failing
    call, undefined behaviour) the call is never made. *)
Theorem X11_instance_destroyed_iff_main_returns (hdr : VulkanHeader)
  (drv : Driver) (argc : Z) (argv : list string) :
  ((exists c, res (main argc argv drv) = Normal c) ->
   res (main argc argv drv) = Normal 0 /\
   exists pre,
     calls (main argc argv drv) = pre ++ [(DestroyInstance, None)] /\
     Forall (fun cr => is_destroy cr = false) pre) /\
  ((forall c, res (main argc argv drv) <> Normal c) ->
   Forall (fun cr => is_destroy cr = false) (calls (main argc argv drv))).
Proof.
  destruct (Z.eq_dec (create_result drv) VK_SUCCESS) as [H1|H1];
    [destruct (Z.eq_dec (enum_count_result drv) VK_SUCCESS) as [H2|H2];
     [destruct (Z.eq_dec (enum_data_result drv) VK_SUCCESS) as [H3|H3]|]|].
  - rewrite (main_after_enumeration argc argv drv H1 H2 H3). cbn [calls res].
    destruct (report_devices_teardown drv)
      as (loop_calls & Hloop & [(_ & Hr & Hc)|(Hr & Hc)]); rewrite Hc.
    + split.
      * intros _. split; [exact Hr|].
        exists ((CreateInstance, Some (create_result drv))
                :: (EnumeratePhysicalDevicesCount,
                    Some (enum_count_result drv))
                :: (EnumeratePhysicalDevicesData,
                    Some (enum_data_result drv))
                :: loop_calls).
        split; [reflexivity|]. repeat constructor. exact Hloop.
      * intros Hn. destruct (Hn 0 Hr).
    + split.
      * intros [c Hn]. destruct (Hr c Hn).
      * intros _. repeat constructor. exact Hloop.
  - unfold main. rewrite (bind_checked_success _ _ _ _ H1).
    rewrite (bind_checked_success _ _ _ _ H2).
    rewrite (bind_checked_failure _ _ _ _ H3). cbn [calls res]. split.
    + intros [c Hn]. discriminate Hn.
    + intros _. repeat constructor.
  - unfold main. rewrite (bind_checked_success _ _ _ _ H1).
    rewrite (bind_checked_failure _ _ _ _ H2). cbn [calls res]. split.
    + intros [c Hn]. discriminate Hn.
    + intros _. repeat constructor.
  - unfold main. rewrite (bind_checked_failure _ _ _ _ H1). cbn [calls res].
    split.
    + intros [c Hn]. discriminate Hn.
    + intros _. repeat constructor.
Qed.

(** The run on two healthy devices returns, and ends with the destroy
    call. *)
Lemma X11_instance_destroyed_iff_main_returns_witness :
  exists pre,
    calls (main (hdr := vulkan_h) 1 ["vkinfo"%string] Sample.steady) =
      pre ++ [(DestroyInstance, None)].
Proof.
  destruct (X11_instance_destroyed_iff_main_returns vulkan_h Sample.steady 1
              ["vkinfo"%string]) as (Hreturns & _).
  destruct Hreturns as (_ & pre & Hcalls & _).
  - exists 0. vm_compute. reflexivity.
  - exists pre. exact Hcalls.
Defined.

(** X12.  A failure before the device loop.  When instance creation, the
    count query or the values query of the enumeration fails, the program
    makes no later call, prints nothing to standard output, writes the one
    line naming that procedure to standard error and exits with code 1.
    Standard output is empty in these cases only: otherwise it starts with
    the header line. *)
Theorem X12_failure_before_the_device_loop (hdr : VulkanHeader)
  (drv : Driver) (argc : Z) (argv : list string) :
  (create_result drv <> VK_SUCCESS ->
   main argc argv drv =
     mkRun (firstn 1 (enumeration_calls drv)) []
       [ErrFailed "vkCreateInstance" (result_str (create_result drv))
          (create_result drv)]
       (Exited 1)) /\
  (create_result drv = VK_SUCCESS ->
   enum_count_result drv <> VK_SUCCESS ->
   main argc argv drv =
     mkRun (firstn 2 (enumeration_calls drv)) []
       [ErrFailed "vkEnumeratePhysicalDevices (count)"
          (result_str (enum_count_result drv)) (enum_count_result drv)]
       (Exited 1)) /\
  (create_result drv = VK_SUCCESS ->
   enum_count_result drv = VK_SUCCESS ->
   enum_data_result drv <> VK_SUCCESS ->
   main argc argv drv =
     mkRun (enumeration_calls drv) []
       [ErrFailed "vkEnumeratePhysicalDevices (data)"
          (result_str (enum_data_result drv)) (enum_data_result drv)]
       (Exited 1)) /\
  (create_result drv = VK_SUCCESS ->
   enum_count_result drv = VK_SUCCESS ->
   enum_data_result drv = VK_SUCCESS ->
   exists rest, out (main argc argv drv) = OutPhysicalDevices :: rest) /\
  (out (main argc argv drv) = [] <->
   ~ (create_result drv = VK_SUCCESS /\
      enum_count_result drv = VK_SUCCESS /\
      enum_data_result drv = VK_SUCCESS)).
Proof.
  assert (F1 : create_result drv <> VK_SUCCESS ->
               main argc argv drv =
               mkRun (firstn 1 (enumeration_calls drv)) []
                 [ErrFailed "vkCreateInstance"
                    (result_str (create_result drv)) (create_result drv)]
                 (Exited 1)).
  { intros H1. unfold main. rewrite (bind_checked_failure _ _ _ _ H1).
    reflexivity. }
  assert (F2 : create_result drv = VK_SUCCESS ->
               enum_count_result drv <> VK_SUCCESS ->
               main argc argv drv =
               mkRun (firstn 2 (enumeration_calls drv)) []
                 [ErrFailed "vkEnumeratePhysicalDevices (count)"
                    (result_str (enum_count_result drv))
                    (enum_count_result drv)]
                 (Exited 1)).
  { intros H1 H2. unfold main. rewrite (bind_checked_success _ _ _ _ H1).
    rewrite (bind_checked_failure _ _ _ _ H2). reflexivity. }
  assert (F3 : create_result drv = VK_SUCCESS ->
               enum_count_result drv = VK_SUCCESS ->
               enum_data_result drv <> VK_SUCCESS ->
               main argc argv drv =
               mkRun (enumeration_calls drv) []
                 [ErrFailed "vkEnumeratePhysicalDevices (data)"
                    (result_str (enum_data_result drv))
                    (enum_data_result drv)]
                 (Exited 1)).
  { intros H1 H2 H3. unfold main. rewrite (bind_checked_success _ _ _ _ H1).
    rewrite (bind_checked_success _ _ _ _ H2).
    rewrite (bind_checked_failure _ _ _ _ H3). reflexivity. }
  assert (F4 : create_result drv = VK_SUCCESS ->
               enum_count_result drv = VK_SUCCESS ->
               enum_data_result drv = VK_SUCCESS ->
               exists rest,
                 out (main argc argv drv) = OutPhysicalDevices :: rest).
  { intros H1 H2 H3. rewrite (main_after_enumeration argc argv drv H1 H2 H3).
    cbn [out]. unfold report_devices. rewrite bind_printf. cbn [out].
    eexists. reflexivity. }
  split; [exact F1|]. split; [exact F2|]. split; [exact F3|].
  split; [exact F4|]. split.
  - intros Hout (H1 & H2 & H3). destruct (F4 H1 H2 H3) as (rest & E).
    rewrite E in Hout. discriminate Hout.
  - intros Hn.
    destruct (Z.eq_dec (create_result drv) VK_SUCCESS) as [H1|H1];
      [|rewrite (F1 H1); reflexivity].
    destruct (Z.eq_dec (enum_count_result drv) VK_SUCCESS) as [H2|H2];
      [|rewrite (F2 H1 H2); reflexivity].
    destruct (Z.eq_dec (enum_data_result drv) VK_SUCCESS) as [H3|H3];
      [|rewrite (F3 H1 H2 H3); reflexivity].
    destruct Hn. repeat split; assumption.
Qed.

(** The count query of the enumeration fails. *)
Lemma X12_failure_before_the_device_loop_witness :
  out (main (hdr := vulkan_h) 1 ["vkinfo"%string] Scripts.enumeration_fails)
    = [] /\
  exit_code
    (main (hdr := vulkan_h) 1 ["vkinfo"%string] Scripts.enumeration_fails)
    = Some 1.
Proof.
  destruct (X12_failure_before_the_device_loop vulkan_h
              Scripts.enumeration_fails 1 ["vkinfo"%string])
    as (_ & Hcount & _).
  rewrite Hcount.
  - split; reflexivity.
  - reflexivity.
  - vm_compute. discriminate.
Defined.

(** ** The driver calls of the device loop *)


Lemma length_flat_map_const {A B : Type} (f : A -> list B) (n : nat)
  (l : list A) :
  (forall a, List.length (f a) = n) ->
  List.length (flat_map f l) = (n * List.length l)%nat.
Proof.
  intros Hf. induction l as [|a l IH]; cbn [flat_map List.length]; [lia|].
  rewrite length_app, Hf, IH. lia.
Qed.

Section LoopCalls.

Context {hdr : VulkanHeader}.

Lemma calls_complete_dump drv idx pdev :
  res (DumpPhysicalDevice drv idx pdev) = Normal tt ->
  calls (DumpPhysicalDevice drv idx pdev) =
    device_queries pdev (device drv pdev).
Proof.
  intros H. destruct (calls_DumpPhysicalDevice drv idx pdev)
    as (n & Hc & Hn).
  rewrite Hc, (Hn tt H). reflexivity.
Qed.

Lemma dump_device_at drv (physical_devices : list Z) (i : nat) pdev :
  nth_error physical_devices i = Some pdev ->
  dump_device drv physical_devices (Z.of_nat i) tt =
    DumpPhysicalDevice drv (Z.of_nat i) pdev.
Proof.
  intros E. unfold dump_device, index. rewrite Nat2Z.id, E.
  apply bind_ret_l.
Qed.


(** The calls of the loop when every dump returns. *)
Lemma devices_loop_calls drv (physical_devices : list Z) :
  (forall k pdev,
     nth_error physical_devices k = Some pdev ->
     res (DumpPhysicalDevice drv (Z.of_nat k) pdev) = Normal tt) ->
  forall n i,
    (i + n = List.length physical_devices)%nat ->
    calls (for_from n (Z.of_nat i) (dump_device drv physical_devices) tt) =
      flat_map (fun p => device_queries p (device drv p))
        (skipn i physical_devices).
Proof.
  intros Hok. induction n as [|n IH]; intros i Hlen; cbn [for_from].
  - rewrite skipn_all2 by lia. reflexivity.
  - destruct (nth_error physical_devices i) as [p|] eqn:E;
      [|apply nth_error_None in E; lia].
    rewrite (dump_device_at drv physical_devices i p E).
    rewrite (bind_normal _ _ tt (Hok i p E)). cbn [calls].
    replace (Z.of_nat i + 1) with (Z.of_nat (S i)) by lia.
    rewrite (IH (S i) ltac:(lia)), (skipn_nth_error _ _ _ E).
    cbn [flat_map]. rewrite (calls_complete_dump _ _ _ (Hok i p E)).
    reflexivity.
Qed.

Lemma calls_teardown :
  calls (driver_ DestroyInstance ;;; ret 0) = [(DestroyInstance, None)].
Proof. reflexivity. Qed.

End LoopCalls.

(** ** The run on devices that answer well *)

Section HealthyDevices.

Context {hdr : VulkanHeader}.

(** The dump of a device that answers well: its four queries, its report,
    nothing on standard error. *)
Lemma DumpPhysicalDevice_answers_well drv idx pdev :
  answers_well (device drv pdev) ->
  DumpPhysicalDevice drv idx pdev =
  mkRun (device_queries pdev (device drv pdev))
    (device_report idx (device drv pdev)) [] (Normal tt).
Proof.
  intros (H1 & H2 & H3 & H4 & Hw & Hfam).
  destruct (family_report (device drv pdev)) as [ls|] eqn:Hls;
    [|destruct (Hfam eq_refl)].
  unfold DumpPhysicalDevice, device_report, device_line, device_queries.
  rewrite (bind_checked_success _ _ _ _ H1), bind_printf.
  rewrite (bind_checked_success _ _ _ _ H2).
  rewrite (dump_memory_spec _ Hw), bind_pure.
  rewrite (dump_queue_families_report pdev _ ls H3 H4 Hls), Hls.
  unfold bind. cbn [calls out err res ret app]. rewrite !app_nil_r.
  reflexivity.
Qed.

Lemma device_reports_expected drv (l : list Z) :
  (forall pdev, In pdev l -> answers_well (device drv pdev)) ->
  forall i, device_reports drv i l = expected_reports drv i l.
Proof.
  induction l as [|pdev l IH]; intros Hwell i;
    cbn [device_reports expected_reports]; [reflexivity|].
  rewrite (DumpPhysicalDevice_answers_well drv i pdev
             (Hwell pdev (or_introl eq_refl))).
  cbn [out]. rewrite IH by (intros p Hp; apply Hwell; right; exact Hp).
  reflexivity.
Qed.

(** The report of every device of the list starts with its device line. *)
Lemma In_expected_reports drv (l : list Z) : forall i k pdev,
  nth_error l k = Some pdev ->
  In (device_line (i + Z.of_nat k) (props_out (device drv pdev)))
    (expected_reports drv i l).
Proof.
  induction l as [|p l IH]; intros i [|k] pdev H; try discriminate H;
    cbn [nth_error] in H; cbn [expected_reports].
  - injection H as <-. apply in_or_app. left.
    replace (i + Z.of_nat 0) with i by lia. left. reflexivity.
  - apply in_or_app. right.
    replace (i + Z.of_nat (S k)) with (i + 1 + Z.of_nat k) by lia.
    apply IH. exact H.
Qed.

End HealthyDevices.

(** C7. If the physical-device count query returns N and the values query
    then reports only M < N devices, the working list is cut down to its first
    M entries and one warning naming N and M is written to standard error.
    When each of these M devices answers its four queries with success, on
    data the loops can print, the program goes on to query each of them, in
    the order of the list and four times each, prints the header and then for
    each device its device line, its memory report and the lines of its queue
    families, destroys the instance and ends with exit code 0. *)
Theorem C7_device_count_shrinks (hdr : VulkanHeader) (drv : Driver)
  (argc : Z) (argv : list string) :
  create_result drv = VK_SUCCESS ->
  enum_count_result drv = VK_SUCCESS ->
  enum_data_result drv = VK_SUCCESS ->
  0 <= enum_data_count drv < enum_count_out drv ->
  (forall pdev,
     In pdev
       (firstn (Z.to_nat (enum_data_count drv))
          (overwrite (enum_data_out drv)
             (repeat VK_NULL_HANDLE (Z.to_nat (enum_count_out drv))))) ->
     answers_well (device drv pdev)) ->
  working_devices drv =
    firstn (Z.to_nat (enum_data_count drv))
      (overwrite (enum_data_out drv)
         (repeat VK_NULL_HANDLE (Z.to_nat (enum_count_out drv)))) /\
  Z.of_nat (List.length (working_devices drv)) = enum_data_count drv /\
  err (main argc argv drv) =
    [ErrDecreased (enum_count_out drv) (enum_data_count drv)] /\
  render_stderr (err (main argc argv drv)) =
    "number of physical devices decreased from "
    ^^ Fmt.dec_u (enum_count_out drv) ^^ " to "
    ^^ Fmt.dec_u (enum_data_count drv) ^^ "!" ^^ Fmt.nl /\
  out (main argc argv drv) =
    OutPhysicalDevices :: expected_reports drv 0 (working_devices drv) /\
  (forall k pdev,
     nth_error (working_devices drv) k = Some pdev ->
     In (device_line (Z.of_nat k) (props_out (device drv pdev)))
       (out (main argc argv drv))) /\
  calls (main argc argv drv) =
    enumeration_calls drv
    ++ flat_map (fun p => device_queries p (device drv p))
         (working_devices drv)
    ++ [(DestroyInstance, None)] /\
  res (main argc argv drv) = Normal 0 /\
  exit_code (main argc argv drv) = Some 0.
Proof.
  intros H1 H2 H3 Hm Hwell.
  assert (Hlen : List.length
                   (overwrite (enum_data_out drv)
                      (repeat VK_NULL_HANDLE (Z.to_nat (enum_count_out drv))))
                 = Z.to_nat (enum_count_out drv))
    by (rewrite length_overwrite, repeat_length; reflexivity).
  assert (Hwd : working_devices drv =
                firstn (Z.to_nat (enum_data_count drv))
                  (overwrite (enum_data_out drv)
                     (repeat VK_NULL_HANDLE (Z.to_nat (enum_count_out drv))))).
  { unfold working_devices. rewrite Hlen.
    destruct (Z.eqb_spec (enum_data_count drv)
                (Z.of_nat (Z.to_nat (enum_count_out drv)))); [lia|].
    unfold resize. rewrite Hlen.
    replace (Z.to_nat (enum_data_count drv) - Z.to_nat (enum_count_out drv))%nat
      with 0%nat by lia.
    apply app_nil_r. }
  assert (Hw : decrease_warning drv =
               [ErrDecreased (enum_count_out drv) (enum_data_count drv)]).
  { unfold decrease_warning. rewrite Hlen.
    destruct (Z.eqb_spec (enum_data_count drv)
                (Z.of_nat (Z.to_nat (enum_count_out drv)))); [lia|].
    rewrite Z2Nat.id by lia. reflexivity. }
  rewrite <- Hwd in Hwell.
  assert (Hok : forall k pdev,
            nth_error (working_devices drv) k = Some pdev ->
            res (DumpPhysicalDevice drv (Z.of_nat k) pdev) = Normal tt).
  { intros k pdev Hk.
    rewrite (DumpPhysicalDevice_answers_well drv (Z.of_nat k) pdev
               (Hwell pdev (nth_error_In _ _ Hk))).
    reflexivity. }
  destruct (report_devices_spec drv Hok) as (Hr & Ho & He).
  rewrite (device_reports_expected drv _ Hwell) in Ho.
  assert (Hcalls : calls (report_devices drv) =
                   flat_map (fun p => device_queries p (device drv p))
                     (working_devices drv)
                   ++ [(DestroyInstance, None)]).
  { unfold report_devices, for_upto. rewrite bind_printf, Nat2Z.id.
    cbn [calls].
    destruct (devices_loop drv (working_devices drv) Hok
                (List.length (working_devices drv)) 0 eq_refl)
      as (Hloop & _ & _).
    pose proof (devices_loop_calls drv (working_devices drv) Hok
                  (List.length (working_devices drv)) 0 eq_refl) as Hc.
    change (Z.of_nat 0) with 0 in *. cbn [skipn] in Hc.
    rewrite (bind_normal _ _ tt Hloop). cbn [calls].
    rewrite Hc, calls_teardown. reflexivity. }
  rewrite (main_after_enumeration argc argv drv H1 H2 H3).
  unfold exit_code. cbn [calls res out err]. rewrite Hr, Ho, He, Hw, Hcalls.
  split; [exact Hwd|]. split; [rewrite Hwd, length_firstn, Hlen; lia|].
  rewrite app_nil_r. split; [reflexivity|]. split; [reflexivity|].
  split; [reflexivity|]. split; [|repeat split].
  intros k pdev Hk. right.
  apply (In_expected_reports drv (working_devices drv) 0 k pdev Hk).
Qed.

(** Three devices counted, two listed: the warning, the lines of devices 0
    and 1, twelve driver calls, exit code 0. *)
Lemma C7_device_count_shrinks_witness :
  enum_count_out Sample.shrinking = 3 /\
  enum_data_count Sample.shrinking = 2 /\
  err (main (hdr := vulkan_h) 1 ["vkinfo"%string] Sample.shrinking) =
    [ErrDecreased 3 2] /\
  In (device_line (hdr := vulkan_h) 0 Sample.props)
    (out (main (hdr := vulkan_h) 1 ["vkinfo"%string] Sample.shrinking)) /\
  In (device_line (hdr := vulkan_h) 1 Sample.props)
    (out (main (hdr := vulkan_h) 1 ["vkinfo"%string] Sample.shrinking)) /\
  List.length
    (calls (main (hdr := vulkan_h) 1 ["vkinfo"%string] Sample.shrinking)) =
    12%nat /\
  exit_code (main (hdr := vulkan_h) 1 ["vkinfo"%string] Sample.shrinking) =
    Some 0.
Proof.
  split; [reflexivity|]. split; [reflexivity|].
  destruct (C7_device_count_shrinks vulkan_h Sample.shrinking 1
              ["vkinfo"%string])
    as (Hwd & _ & Herr & _ & _ & Hlines & Hcalls & _ & Hexit).
  - reflexivity.
  - reflexivity.
  - reflexivity.
  - simpl; lia.
  - intros pdev H. vm_compute in H.
    assert (Hgpu : device Sample.shrinking pdev = Sample.gpu)
      by (destruct H as [<-|[<-|[]]]; reflexivity).
    rewrite Hgpu. unfold answers_well.
    repeat split; try reflexivity; try (simpl; lia).
    vm_compute. discriminate.
  - split; [exact Herr|].
    split; [apply (Hlines 0%nat 10); rewrite Hwd; reflexivity|].
    split; [apply (Hlines 1%nat 11); rewrite Hwd; reflexivity|].
    split; [rewrite Hcalls, Hwd; reflexivity | exact Hexit].
Defined.

(** X13.  The driver calls of a complete run.  When the enumeration succeeds
    and every device of the working list is dumped to its end, the program
    makes the three enumeration calls, then the four queries of each device
    in the order of the list, then destroys the instance: 4 M + 4 calls for
    a list of M devices. *)
Theorem X13_calls_of_a_complete_run (hdr : VulkanHeader) (drv : Driver)
  (argc : Z) (argv : list string) :
  create_result drv = VK_SUCCESS ->
  enum_count_result drv = VK_SUCCESS ->
  enum_data_result drv = VK_SUCCESS ->
  (forall k pdev,
     nth_error (working_devices drv) k = Some pdev ->
     res (DumpPhysicalDevice drv (Z.of_nat k) pdev) = Normal tt) ->
  calls (main argc argv drv) =
    enumeration_calls drv
    ++ flat_map (fun p => device_queries p (device drv p))
         (working_devices drv)
    ++ [(DestroyInstance, None)] /\
  List.length (calls (main argc argv drv)) =
    (4 * Z.to_nat (enum_data_count drv) + 4)%nat.
Proof.
  intros H1 H2 H3 Hok.
  assert (Hcalls : calls (main argc argv drv) =
                   enumeration_calls drv
                   ++ flat_map (fun p => device_queries p (device drv p))
                        (working_devices drv)
                   ++ [(DestroyInstance, None)]).
  { rewrite (main_after_enumeration argc argv drv H1 H2 H3). cbn [calls].
    unfold report_devices, for_upto. rewrite bind_printf, Nat2Z.id.
    cbn [calls].
    destruct (devices_loop drv (working_devices drv) Hok
                (List.length (working_devices drv)) 0 eq_refl)
      as (Hr & _ & _).
    pose proof (devices_loop_calls drv (working_devices drv) Hok
                  (List.length (working_devices drv)) 0 eq_refl) as Hc.
    change (Z.of_nat 0) with 0 in *. cbn [skipn] in Hc.
    rewrite (bind_normal _ _ tt Hr). cbn [calls].
    rewrite Hc, calls_teardown. reflexivity. }
  split; [exact Hcalls|].
  rewrite Hcalls, !length_app.
  rewrite (length_flat_map_const _ 4) by reflexivity.
  rewrite length_working_devices. cbn [enumeration_calls List.length]. lia.
Qed.

(** Two devices: twelve calls. *)
Lemma X13_calls_of_a_complete_run_witness :
  List.length
    (calls (main (hdr := vulkan_h) 1 ["vkinfo"%string] Sample.steady)) =
  12%nat.
Proof.
  destruct (X13_calls_of_a_complete_run vulkan_h Sample.steady 1
              ["vkinfo"%string]) as (_ & Hlen).
  - reflexivity.
  - reflexivity.
  - reflexivity.
  - intros k pdev H.
    destruct k as [|[|k]]; vm_compute in H.
    + injection H as <-. vm_compute. reflexivity.
    + injection H as <-. vm_compute. reflexivity.
    + destruct k; discriminate H.
  - rewrite Hlen. reflexivity.
Defined.


